(** * Paludarium firmware (version 2.1): a shallow embedding of its tasks

    The firmware drives lamps, an irrigation pump ("buse"), a mist maker
    ("brume") and a bubbler ("bulles") from a cooperative kernel.  Every
    task is an endless loop around [k_sleep]; one loop iteration is one
    step function here, acting on the firmware's global variables.

    Conventions.
    - [uint8_t] values are integers of [Z]; C promotes them to [int] in
      every expression, so comparisons are plain comparisons of [Z] and
      only a store into a [uint8_t] object truncates ([wrap8]).
    - The enumerations [btn_press] and [menus] are used as integers by
      the code ([menu += setupVal + 1]), so they are constants of [Z].
    - Output pins are a total map from pin number to level; relays work
      in reverse logic (level 0 energises the device).
    - The display is write-only for the program and is left out. *)

From Stdlib Require Import ZArith Lia Bool List.
From stdpp Require Import base list.
Import ListNotations.
Local Open Scope Z_scope.

(** ** Machine integers *)

Definition wrap8 (x : Z) : Z := x mod 256.

(** [int] is 16 bits wide on the ATmega328p. *)
Definition int16 (x : Z) : Z := (x + 32768) mod 65536 - 32768.

(** ** Enumerations *)

Module Press.
Definition p_none : Z := 0.
Definition p_bt1_s : Z := 1.
Definition p_bt1_l : Z := 2.
Definition p_bt1_r : Z := 3.
Definition p_bt2_s : Z := 4.
Definition p_bt2_l : Z := 5.
Definition p_bt2_r : Z := 6.
End Press.
Import Press.

Module Menus.
Definition m_off : Z := 0.
Definition m_setup : Z := 1.
Definition m_lamp : Z := 2.
Definition m_buse : Z := 3.
Definition m_brume : Z := 4.
Definition m_bulle : Z := 5.
Definition m_time : Z := 6.
Definition m_exit : Z := 8.
End Menus.
Import Menus.

(** ** Structures *)

Record BUTTON := mkBUTTON { val : Z; mode : Z; time : Z }.

Record TIME := mkTIME { hours : Z; minutes : Z }.

Record LAMP := mkLAMP { onH : TIME; offH : TIME; l_active : Z }.

Record BUSE := mkBUSE { b_tOn : Z; startH : TIME; stopH : TIME; b_active : Z }.

(** [times] stands for the array [TIME times[10]]. *)
Record EXTRAS := mkEXTRAS { nbr : Z; tOn : Z; times : list TIME; active : Z }.

#[export] Instance TIME_inhabited : Inhabited TIME := populate (mkTIME 0 0).
#[export] Instance LAMP_inhabited : Inhabited LAMP :=
  populate (mkLAMP (mkTIME 0 0) (mkTIME 0 0) 0).

(** ** Pins *)

Definition bt1_pin : Z := 9.
Definition bt2_pin : Z := 16.
Definition lampPin : list Z := [7; 6; 5].
Definition ledFond : Z := 8.
Definition brumePin : Z := 4.
Definition busePin : Z := 3.
Definition bullesPin : Z := 2.

Definition Pins := Z -> Z.

Definition digitalWrite (pin level : Z) (p : Pins) : Pins :=
  fun q => if q =? pin then level else p q.

(** ** Global variables *)

Record Globals := mkGlobals {
  menu : Z;
  subMenu : Z;
  HorM : Z;
  choosed : Z;
  timeSelected : TIME;
  globalTime : TIME;
  sec : Z;
  lamps : list LAMP;
  lampNbr : Z;
  buse : BUSE;
  brume : EXTRAS;
  bulles : EXTRAS;
  buseFlag : Z;
  bt1 : BUTTON;
  bt2 : BUTTON;
  press : Z;
  nbr_setup : Z;
  setupVal : Z;
  pins : Pins;
  eeprom : list Z;
  rtc : TIME * Z
}.

Definition set_menu (v : Z) (g : Globals) : Globals :=
  mkGlobals v (subMenu g) (HorM g) (choosed g) (timeSelected g) (globalTime g)
    (sec g) (lamps g) (lampNbr g) (buse g) (brume g) (bulles g) (buseFlag g)
    (bt1 g) (bt2 g) (press g) (nbr_setup g) (setupVal g) (pins g) (eeprom g) (rtc g).
Definition set_subMenu (v : Z) (g : Globals) : Globals :=
  mkGlobals (menu g) v (HorM g) (choosed g) (timeSelected g) (globalTime g)
    (sec g) (lamps g) (lampNbr g) (buse g) (brume g) (bulles g) (buseFlag g)
    (bt1 g) (bt2 g) (press g) (nbr_setup g) (setupVal g) (pins g) (eeprom g) (rtc g).
Definition set_HorM (v : Z) (g : Globals) : Globals :=
  mkGlobals (menu g) (subMenu g) v (choosed g) (timeSelected g) (globalTime g)
    (sec g) (lamps g) (lampNbr g) (buse g) (brume g) (bulles g) (buseFlag g)
    (bt1 g) (bt2 g) (press g) (nbr_setup g) (setupVal g) (pins g) (eeprom g) (rtc g).
Definition set_choosed (v : Z) (g : Globals) : Globals :=
  mkGlobals (menu g) (subMenu g) (HorM g) v (timeSelected g) (globalTime g)
    (sec g) (lamps g) (lampNbr g) (buse g) (brume g) (bulles g) (buseFlag g)
    (bt1 g) (bt2 g) (press g) (nbr_setup g) (setupVal g) (pins g) (eeprom g) (rtc g).
Definition set_timeSelected (v : TIME) (g : Globals) : Globals :=
  mkGlobals (menu g) (subMenu g) (HorM g) (choosed g) v (globalTime g)
    (sec g) (lamps g) (lampNbr g) (buse g) (brume g) (bulles g) (buseFlag g)
    (bt1 g) (bt2 g) (press g) (nbr_setup g) (setupVal g) (pins g) (eeprom g) (rtc g).
Definition set_globalTime (v : TIME) (g : Globals) : Globals :=
  mkGlobals (menu g) (subMenu g) (HorM g) (choosed g) (timeSelected g) v
    (sec g) (lamps g) (lampNbr g) (buse g) (brume g) (bulles g) (buseFlag g)
    (bt1 g) (bt2 g) (press g) (nbr_setup g) (setupVal g) (pins g) (eeprom g) (rtc g).
Definition set_sec (v : Z) (g : Globals) : Globals :=
  mkGlobals (menu g) (subMenu g) (HorM g) (choosed g) (timeSelected g) (globalTime g)
    v (lamps g) (lampNbr g) (buse g) (brume g) (bulles g) (buseFlag g)
    (bt1 g) (bt2 g) (press g) (nbr_setup g) (setupVal g) (pins g) (eeprom g) (rtc g).
Definition set_lamps (v : list LAMP) (g : Globals) : Globals :=
  mkGlobals (menu g) (subMenu g) (HorM g) (choosed g) (timeSelected g) (globalTime g)
    (sec g) v (lampNbr g) (buse g) (brume g) (bulles g) (buseFlag g)
    (bt1 g) (bt2 g) (press g) (nbr_setup g) (setupVal g) (pins g) (eeprom g) (rtc g).
Definition set_lampNbr (v : Z) (g : Globals) : Globals :=
  mkGlobals (menu g) (subMenu g) (HorM g) (choosed g) (timeSelected g) (globalTime g)
    (sec g) (lamps g) v (buse g) (brume g) (bulles g) (buseFlag g)
    (bt1 g) (bt2 g) (press g) (nbr_setup g) (setupVal g) (pins g) (eeprom g) (rtc g).
Definition set_buse (v : BUSE) (g : Globals) : Globals :=
  mkGlobals (menu g) (subMenu g) (HorM g) (choosed g) (timeSelected g) (globalTime g)
    (sec g) (lamps g) (lampNbr g) v (brume g) (bulles g) (buseFlag g)
    (bt1 g) (bt2 g) (press g) (nbr_setup g) (setupVal g) (pins g) (eeprom g) (rtc g).
Definition set_brume (v : EXTRAS) (g : Globals) : Globals :=
  mkGlobals (menu g) (subMenu g) (HorM g) (choosed g) (timeSelected g) (globalTime g)
    (sec g) (lamps g) (lampNbr g) (buse g) v (bulles g) (buseFlag g)
    (bt1 g) (bt2 g) (press g) (nbr_setup g) (setupVal g) (pins g) (eeprom g) (rtc g).
Definition set_bulles (v : EXTRAS) (g : Globals) : Globals :=
  mkGlobals (menu g) (subMenu g) (HorM g) (choosed g) (timeSelected g) (globalTime g)
    (sec g) (lamps g) (lampNbr g) (buse g) (brume g) v (buseFlag g)
    (bt1 g) (bt2 g) (press g) (nbr_setup g) (setupVal g) (pins g) (eeprom g) (rtc g).
Definition set_buseFlag (v : Z) (g : Globals) : Globals :=
  mkGlobals (menu g) (subMenu g) (HorM g) (choosed g) (timeSelected g) (globalTime g)
    (sec g) (lamps g) (lampNbr g) (buse g) (brume g) (bulles g) v
    (bt1 g) (bt2 g) (press g) (nbr_setup g) (setupVal g) (pins g) (eeprom g) (rtc g).
Definition set_bt1 (v : BUTTON) (g : Globals) : Globals :=
  mkGlobals (menu g) (subMenu g) (HorM g) (choosed g) (timeSelected g) (globalTime g)
    (sec g) (lamps g) (lampNbr g) (buse g) (brume g) (bulles g) (buseFlag g)
    v (bt2 g) (press g) (nbr_setup g) (setupVal g) (pins g) (eeprom g) (rtc g).
Definition set_bt2 (v : BUTTON) (g : Globals) : Globals :=
  mkGlobals (menu g) (subMenu g) (HorM g) (choosed g) (timeSelected g) (globalTime g)
    (sec g) (lamps g) (lampNbr g) (buse g) (brume g) (bulles g) (buseFlag g)
    (bt1 g) v (press g) (nbr_setup g) (setupVal g) (pins g) (eeprom g) (rtc g).
Definition set_press (v : Z) (g : Globals) : Globals :=
  mkGlobals (menu g) (subMenu g) (HorM g) (choosed g) (timeSelected g) (globalTime g)
    (sec g) (lamps g) (lampNbr g) (buse g) (brume g) (bulles g) (buseFlag g)
    (bt1 g) (bt2 g) v (nbr_setup g) (setupVal g) (pins g) (eeprom g) (rtc g).
Definition set_nbr_setup (v : Z) (g : Globals) : Globals :=
  mkGlobals (menu g) (subMenu g) (HorM g) (choosed g) (timeSelected g) (globalTime g)
    (sec g) (lamps g) (lampNbr g) (buse g) (brume g) (bulles g) (buseFlag g)
    (bt1 g) (bt2 g) (press g) v (setupVal g) (pins g) (eeprom g) (rtc g).
Definition set_setupVal (v : Z) (g : Globals) : Globals :=
  mkGlobals (menu g) (subMenu g) (HorM g) (choosed g) (timeSelected g) (globalTime g)
    (sec g) (lamps g) (lampNbr g) (buse g) (brume g) (bulles g) (buseFlag g)
    (bt1 g) (bt2 g) (press g) (nbr_setup g) v (pins g) (eeprom g) (rtc g).
Definition set_pins (v : Pins) (g : Globals) : Globals :=
  mkGlobals (menu g) (subMenu g) (HorM g) (choosed g) (timeSelected g) (globalTime g)
    (sec g) (lamps g) (lampNbr g) (buse g) (brume g) (bulles g) (buseFlag g)
    (bt1 g) (bt2 g) (press g) (nbr_setup g) (setupVal g) v (eeprom g) (rtc g).
Definition set_eeprom (v : list Z) (g : Globals) : Globals :=
  mkGlobals (menu g) (subMenu g) (HorM g) (choosed g) (timeSelected g) (globalTime g)
    (sec g) (lamps g) (lampNbr g) (buse g) (brume g) (bulles g) (buseFlag g)
    (bt1 g) (bt2 g) (press g) (nbr_setup g) (setupVal g) (pins g) v (rtc g).
Definition set_rtc (v : TIME * Z) (g : Globals) : Globals :=
  mkGlobals (menu g) (subMenu g) (HorM g) (choosed g) (timeSelected g) (globalTime g)
    (sec g) (lamps g) (lampNbr g) (buse g) (brume g) (bulles g) (buseFlag g)
    (bt1 g) (bt2 g) (press g) (nbr_setup g) (setupVal g) (pins g) (eeprom g) v.

Definition pin_write (pin level : Z) (g : Globals) : Globals :=
  set_pins (digitalWrite pin level (pins g)) g.

(** ** [input_task]

    The source treats the two buttons with the same block of code, once
    on [bt1] with the codes [p_bt1_*] and once on [bt2] with [p_bt2_*].
    [button_poll] is that block: from the level read on the pin and the
    button's state it gives the new state, the value stored into [press]
    (if any) and the level written to the indicator on pin 13 (if any). *)

Definition button_poll (ps pl pr : Z) (level : Z) (b : BUTTON)
  : BUTTON * option Z * option Z :=
  if val b =? 0 then
    if level =? 0 then (mkBUTTON 1 (mode b) (time b), None, None)
    else (b, None, None)
  else
    if level =? 1 then
      (mkBUTTON 0 0 0,
       (if mode b =? 0 then Some ps else if mode b =? 1 then Some pl else None),
       Some 0)
    else
      if mode b =? 0 then
        if time b =? 8
        then (mkBUTTON (val b) 1 (wrap8 (time b + 1)), None, Some 1)
        else (mkBUTTON (val b) (mode b) (wrap8 (time b + 1)), None, None)
      else if mode b =? 1 then
        if time b =? 20
        then (mkBUTTON (val b) 3 (wrap8 (time b + 1)), None, Some 0)
        else (mkBUTTON (val b) (mode b) (wrap8 (time b + 1)), None, None)
      else
        if time b >=? 5
        then (mkBUTTON (val b) (mode b) (wrap8 (0 + 1)), Some pr, None)
        else (mkBUTTON (val b) (mode b) (wrap8 (time b + 1)), None, None).

Definition apply_press (w : option Z) (g : Globals) : Globals :=
  match w with Some p => set_press p g | None => g end.

Definition apply_led (w : option Z) (g : Globals) : Globals :=
  match w with Some l => pin_write 13 l g | None => g end.

Definition written (w : option Z) : list Z :=
  match w with Some p => [p] | None => [] end.

(** One iteration of the loop of [input_task]; [l1] and [l2] are the
    levels read on the two button pins.  The second component lists the
    values stored into [press] during the iteration, in order. *)
Definition input_task (l1 l2 : Z) (g : Globals) : Globals * list Z :=
  let '(b1, w1, d1) := button_poll p_bt1_s p_bt1_l p_bt1_r l1 (bt1 g) in
  let g1 := apply_led d1 (apply_press w1 (set_bt1 b1 g)) in
  let '(b2, w2, d2) := button_poll p_bt2_s p_bt2_l p_bt2_r l2 (bt2 g1) in
  let g2 := apply_led d2 (apply_press w2 (set_bt2 b2 g1)) in
  (g2, written w1 ++ written w2).

(** The loop run over a sequence of pin readings, with the stores into
    [press] of each iteration. *)
Fixpoint input_run (levels : list (Z * Z)) (g : Globals) : Globals * list (list Z) :=
  match levels with
  | [] => (g, [])
  | (l1, l2) :: rest =>
      let '(g1, ev) := input_task l1 l2 g in
      let '(g2, evs) := input_run rest g1 in
      (g2, ev :: evs)
  end.

Definition input_events (levels : list (Z * Z)) (g : Globals) : list Z :=
  concat (snd (input_run levels g)).

(** ** [time_task]

    One iteration of the loop.  [RTC.getMinutes()] is called up to four
    times in the iteration, within a few microseconds; [rtc_min] is the
    minute those reads return, a [uint8_t] like [globalTime.minutes], so
    that the two differences are computed on signed [int]. *)

Definition set_hours (v : Z) (t : TIME) : TIME := mkTIME v (minutes t).
Definition set_minutes (v : Z) (t : TIME) : TIME := mkTIME (hours t) v.

(** The time increment ([if (sec >= 59) ... else sec++]). *)
Definition time_increment (g : Globals) : Globals :=
  if sec g >=? 59 then
    let g := set_sec 0 g in
    if minutes (globalTime g) =? 59 then
      let g := set_globalTime (set_minutes 0 (globalTime g)) g in
      if hours (globalTime g) =? 23
      then set_globalTime (set_hours 0 (globalTime g)) g
      else set_globalTime (set_hours (wrap8 (hours (globalTime g) + 1)) (globalTime g)) g
    else set_globalTime (set_minutes (wrap8 (minutes (globalTime g) + 1)) (globalTime g)) g
  else set_sec (wrap8 (sec g + 1)) g.

(** The reset to the RTC ([if (RTC.getMinutes() != globalTime.minutes) ...]). *)
Definition time_reset (rtc_min : Z) (g : Globals) : Globals :=
  if negb (rtc_min =? minutes (globalTime g)) then
    if (rtc_min - minutes (globalTime g) >? 1) || (minutes (globalTime g) - rtc_min >? 1)
    then set_globalTime (set_minutes rtc_min (globalTime g)) g
    else g
  else g.

Definition time_task (rtc_min : Z) (g : Globals) : Globals :=
  time_reset rtc_min (time_increment g).

Definition time_in_range (t : TIME) : Prop :=
  0 <= hours t <= 23 /\ 0 <= minutes t <= 59.

(** ** [lamp_task] *)

Definition lamp_switch_on (i : nat) (g : Globals) : Globals :=
  set_lampNbr (wrap8 (Z.lor (lampNbr g) (Z.shiftl 1 (Z.of_nat i))))
    (pin_write (lampPin !!! i) 0 g).

Definition lamp_switch_off (i : nat) (g : Globals) : Globals :=
  set_lampNbr (wrap8 (Z.land (lampNbr g) (Z.lnot (Z.shiftl 1 (Z.of_nat i)))))
    (pin_write (lampPin !!! i) 1 g).

(** The body of the [for] loop, for lamp [i]. *)
Definition lamp_body (i : nat) (g : Globals) : Globals :=
  let l := lamps g !!! i in
  let now := globalTime g in
  if negb (l_active l =? 0) then
    if (hours now =? hours (onH l)) && (minutes (onH l) >=? minutes now) then
      lamp_switch_on i g
    else if (hours now >? hours (onH l)) && (hours now <? hours (offH l)) then
      lamp_switch_on i g
    else if hours now =? hours (offH l) then
      if minutes now <? minutes (offH l)
      then lamp_switch_on i g
      else lamp_switch_off i g
    else g
  else pin_write (lampPin !!! i) 1 g.

(** One iteration of the loop of [lamp_task]. *)
Definition lamp_task (g : Globals) : Globals :=
  let g := fold_left (fun g i => lamp_body i g) [0; 1; 2]%nat g in
  if lampNbr g =? 0 then pin_write ledFond 0 g else pin_write ledFond 1 g.

(** The window of a lamp as the specification words it: on from the on
    time (included) to the off time (excluded). *)
Definition spec_lamp_window (l : LAMP) (now : TIME) : bool :=
  ((hours now =? hours (onH l)) && (minutes now >=? minutes (onH l)))
  || ((hours (onH l) <? hours now) && (hours now <? hours (offH l)))
  || ((hours now =? hours (offH l)) && (minutes now <? minutes (offH l))).

(** ** [buse_task]

    The task keeps a local variable [buseflag] next to the global
    [buseFlag]; it is threaded through the iterations.  An iteration
    reads the globals before its first [k_sleep] only, so it is one step
    here; what it does to the pump pin and when it sleeps is listed in
    order.  The argument of [k_sleep] is an [int]: [buse.tOn * 1000] is
    computed on 16 bits. *)

Inductive Action :=
  | DigitalWrite (pin level : Z)
  | Sleep (ms : Z).

Definition buse_task (buseflag : Z) (g : Globals) : Globals * Z * list Action :=
  let now := globalTime g in
  let b := buse g in
  if (hours now >=? hours (startH b)) && (hours now <=? hours (stopH b))
     && negb (b_active b =? 0) && (buseFlag g =? 0) then
    if minutes now =? minutes (startH b) then
      (set_buseFlag 1 (pin_write busePin 1 (pin_write busePin 0 g)),
       buseflag,
       [DigitalWrite busePin 0; Sleep (int16 (b_tOn b * 1000));
        DigitalWrite busePin 1; Sleep 10000])
    else (g, buseflag, [Sleep 10000])
  else
    (pin_write busePin 1 g,
     (if minutes now >=? minutes (startH b) + b_tOn b ÷ 60 then 0 else buseflag),
     [DigitalWrite busePin 1; Sleep 10000]).

(** The loop of [buse_task] over the times of day that [time_task] has
    put in [globalTime] when each iteration starts. *)
Fixpoint buse_run (clock : list TIME) (buseflag : Z) (g : Globals)
  : Globals * Z * list (list Action) :=
  match clock with
  | [] => (g, buseflag, [])
  | now :: rest =>
      let '(g1, f1, acts) := buse_task buseflag (set_globalTime now g) in
      let '(g2, f2, more) := buse_run rest f1 g1 in
      (g2, f2, acts :: more)
  end.

(** An iteration energises the pump when it writes level 0 to its pin. *)
Definition activates (acts : list Action) : bool :=
  existsb (fun a => match a with
                    | DigitalWrite pin level => (pin =? busePin) && (level =? 0)
                    | Sleep _ => false
                    end) acts.

(** ** EEPROM

    The EEPROM is a byte array addressed from 0.  [EEPROM.put] and
    [EEPROM.get] copy the object representation of a value, byte by
    byte; every member of the structures is a [uint8_t], so the
    representation is the members in declaration order, unpadded. *)

Definition EEPROM_read (e : list Z) (a : nat) : Z := e !!! a.

Definition EEPROM_update (a : nat) (v : Z) (e : list Z) : list Z :=
  <[a := wrap8 v]> e.

Fixpoint EEPROM_put (a : nat) (bs : list Z) (e : list Z) : list Z :=
  match bs with
  | [] => e
  | b :: bs' => EEPROM_put (S a) bs' (EEPROM_update a b e)
  end.

Definition EEPROM_get (a n : nat) (e : list Z) : list Z :=
  map (EEPROM_read e) (seq a n).

Definition TIME_bytes (t : TIME) : list Z := [hours t; minutes t].
Definition LAMP_bytes (l : LAMP) : list Z :=
  TIME_bytes (onH l) ++ TIME_bytes (offH l) ++ [l_active l].
Definition BUSE_bytes (b : BUSE) : list Z :=
  [b_tOn b] ++ TIME_bytes (startH b) ++ TIME_bytes (stopH b) ++ [b_active b].
Definition EXTRAS_bytes (x : EXTRAS) : list Z :=
  [nbr x; tOn x]
  ++ flat_map (fun i => TIME_bytes (times x !!! i)) (seq 0 10)
  ++ [active x].

Definition TIME_at (bs : list Z) (o : nat) : TIME :=
  mkTIME (bs !!! o) (bs !!! S o).
Definition LAMP_of_bytes (bs : list Z) : LAMP :=
  mkLAMP (TIME_at bs 0) (TIME_at bs 2) (bs !!! 4%nat).
Definition BUSE_of_bytes (bs : list Z) : BUSE :=
  mkBUSE (bs !!! 0%nat) (TIME_at bs 1) (TIME_at bs 3) (bs !!! 5%nat).
Definition EXTRAS_of_bytes (bs : list Z) : EXTRAS :=
  mkEXTRAS (bs !!! 0%nat) (bs !!! 1%nat)
    (map (fun i => TIME_at bs (2 + 2 * i)) (seq 0 10))
    (bs !!! 22%nat).

Definition sizeof_LAMP : nat := 5.
Definition sizeof_BUSE : nat := 6.
Definition sizeof_EXTRAS : nat := 23.

Definition get_LAMP (a : nat) (e : list Z) : LAMP :=
  LAMP_of_bytes (EEPROM_get a sizeof_LAMP e).
Definition get_BUSE (a : nat) (e : list Z) : BUSE :=
  BUSE_of_bytes (EEPROM_get a sizeof_BUSE e).
Definition get_EXTRAS (a : nat) (e : list Z) : EXTRAS :=
  EXTRAS_of_bytes (EEPROM_get a sizeof_EXTRAS e).

(** *** [restoreFromEEPROM] *)

Definition check_LAMP (l : LAMP) : LAMP :=
  if l_active l >? 1 then mkLAMP (onH l) (offH l) 0 else l.

Definition check_BUSE (b : BUSE) : BUSE :=
  if (b_active b >? 1) || (b_tOn b >? 200)
  then mkBUSE 0 (startH b) (stopH b) 0
  else b.

Definition check_EXTRAS (x : EXTRAS) : EXTRAS :=
  if (active x >? 1) || (nbr x >? 10) || (tOn x >? 200)
  then mkEXTRAS 0 0 (times x) 0
  else x.

(** The [for] loop over the lamps; [memAddress] is threaded through. *)
Definition restore_lamp (st : Globals * nat) (i : nat) : Globals * nat :=
  let '(g, memAddress) := st in
  (set_lamps (<[i := check_LAMP (get_LAMP memAddress (eeprom g))]> (lamps g)) g,
   (memAddress + sizeof_LAMP)%nat).

Definition restoreFromEEPROM (g : Globals) : Globals :=
  let memAddress := 1%nat in
  let '(g, memAddress) := fold_left restore_lamp [0; 1; 2]%nat (g, memAddress) in
  let g := set_buse (check_BUSE (get_BUSE memAddress (eeprom g))) g in
  let memAddress := (memAddress + sizeof_BUSE)%nat in
  let g := set_brume (check_EXTRAS (get_EXTRAS memAddress (eeprom g))) g in
  let memAddress := (memAddress + sizeof_EXTRAS)%nat in
  let g := set_bulles (check_EXTRAS (get_EXTRAS memAddress (eeprom g))) g in
  g.

(** *** [saveToEEPROM]

    The last statement of the source is [EEPROM.get(memAddress, bulles)]:
    it reads [bulles] back from the EEPROM. *)

Definition save_lamp (st : Globals * nat) (i : nat) : Globals * nat :=
  let '(g, memAddress) := st in
  (set_eeprom (EEPROM_put memAddress (LAMP_bytes (lamps g !!! i)) (eeprom g)) g,
   (memAddress + sizeof_LAMP)%nat).

Definition saveToEEPROM (g : Globals) : Globals :=
  let memAddress := 0%nat in
  let g := set_eeprom (EEPROM_update memAddress 2 (eeprom g)) g in
  let memAddress := S memAddress in
  let '(g, memAddress) := fold_left save_lamp [0; 1; 2]%nat (g, memAddress) in
  let g := set_eeprom (EEPROM_put memAddress (BUSE_bytes (buse g)) (eeprom g)) g in
  let memAddress := (memAddress + sizeof_BUSE)%nat in
  let g := set_eeprom (EEPROM_put memAddress (EXTRAS_bytes (brume g)) (eeprom g)) g in
  let memAddress := (memAddress + sizeof_EXTRAS)%nat in
  let g := set_bulles (get_EXTRAS memAddress (eeprom g)) g in
  set_menu m_setup g.

(** *** [setup]

    The globals as the C runtime initialises them, then the part of
    [setup] that prepares the configuration.  [setup] never returns from
    its [while (1)] when the RTC is not running: [None]. *)

Definition zero_TIME : TIME := mkTIME 0 0.
Definition zero_LAMP : LAMP := mkLAMP zero_TIME zero_TIME 0.
Definition zero_BUSE : BUSE := mkBUSE 0 zero_TIME zero_TIME 0.
Definition zero_EXTRAS : EXTRAS := mkEXTRAS 0 0 (replicate 10 zero_TIME) 0.

Definition reset_globals (e : list Z) : Globals :=
  mkGlobals 0 0 0 0 zero_TIME zero_TIME 0
    (replicate 3 zero_LAMP) 0 zero_BUSE zero_EXTRAS zero_EXTRAS 0
    (mkBUTTON 0 0 0) (mkBUTTON 0 0 0) 0 3 0 (fun _ => 0) e (zero_TIME, 0).

(** The configuration seeded by [setup] before the EEPROM is looked at. *)
Definition seed_config (g : Globals) : Globals :=
  let l1 := lamps g !!! 1%nat in
  let g := set_lamps (<[1%nat := mkLAMP (mkTIME 8 0) (mkTIME 22 0) (l_active l1)]> (lamps g)) g in
  set_buse (mkBUSE 5 (mkTIME 8 0) (mkTIME 21 0) (b_active (buse g))) g.

Definition setup (rtc_running : bool) (rtc_now : TIME) (e : list Z) : option Globals :=
  if rtc_running then
    let g := set_globalTime rtc_now (reset_globals e) in
    let g := seed_config g in
    if negb (EEPROM_read (eeprom g) 0 =? 2)
    then Some (set_menu m_setup g)
    else Some (set_menu m_off (restoreFromEEPROM g))
  else None.

(** ** Menus

    Every menu function reads the pending press in [press] and clears it
    when it handles it.  What the functions send to the display is left
    out. *)

(** [if (setupVal == nbr_setup) setupVal = 0; else setupVal++;] *)
Definition next_setupVal (g : Globals) : Globals :=
  if setupVal g =? nbr_setup g
  then set_setupVal 0 g
  else set_setupVal (wrap8 (setupVal g + 1)) g.

(** *** [hourSelection] *)

Definition hourSelection (g : Globals) : Globals :=
  if HorM g =? 0 then
    if (press g =? p_bt2_s) || (press g =? p_bt2_r) then
      let g :=
        if hours (timeSelected g) =? 23
        then set_timeSelected (set_hours 0 (timeSelected g)) g
        else set_timeSelected
               (set_hours (wrap8 (hours (timeSelected g) + 1)) (timeSelected g)) g in
      set_press p_none g
    else if press g =? p_bt1_s then
      set_HorM (wrap8 (HorM g + 1)) (set_press p_none g)
    else g
  else
    if press g =? p_bt2_s then
      let g := set_timeSelected
                 (set_minutes (wrap8 (minutes (timeSelected g) + 1)) (timeSelected g)) g in
      let g := if minutes (timeSelected g) >? 59
               then set_timeSelected (set_minutes 0 (timeSelected g)) g
               else g in
      set_press p_none g
    else if press g =? p_bt2_r then
      let g := set_timeSelected
                 (set_minutes (wrap8 (minutes (timeSelected g) + 5)) (timeSelected g)) g in
      let g := if minutes (timeSelected g) >? 59
               then set_timeSelected
                      (set_minutes (wrap8 (minutes (timeSelected g) - 60)) (timeSelected g)) g
               else g in
      set_press p_none g
    else g.

(** The handling of button 1 that follows [hourSelection] in the time
    steps of the menus: on a long press, back from the minutes to the
    hours, or one step back. *)
Definition back_one_step (g : Globals) : Globals :=
  let g := set_press p_none g in
  if negb (HorM g =? 0)
  then set_HorM 0 g
  else set_subMenu (wrap8 (subMenu g - 1)) g.

(** Back to the list of menus, with the cursor reset. *)
Definition leave_to_setup (g : Globals) : Globals :=
  set_setupVal 0 (set_choosed 0 (set_subMenu 0 (set_menu m_setup g))).

(** *** [setup_menu]

    Between the two tests of [press] the source copies the name of the
    menu at [setupVal] from the seven entries of [menuName] to the
    display.  The copy is left out with the display; it stays inside the
    table for [setupVal] from 0 to 6 only, and what the source does with
    a larger [setupVal] is not modelled. *)

Definition setup_menu (g : Globals) : Globals :=
  let g := set_nbr_setup 6 g in
  let g := if press g =? p_bt2_s then set_press p_none (next_setupVal g) else g in
  if press g =? p_bt1_s then
    let g := set_press p_none g in
    let g := if setupVal g + 2 =? m_time
             then set_timeSelected (globalTime g) g else g in
    let g := set_menu (wrap8 (menu g + (setupVal g + 1))) g in
    set_setupVal 0 g
  else g.

(** *** [lamp_menu] *)

Definition lamp_sel (g : Globals) : LAMP := lamps g !!! Z.to_nat (choosed g).

Definition set_lamp_sel (l : LAMP) (g : Globals) : Globals :=
  set_lamps (<[Z.to_nat (choosed g) := l]> (lamps g)) g.

Definition lamp_menu (g : Globals) : Globals :=
  let g := set_nbr_setup 2 g in
  match subMenu g with
  | 0 =>
      if press g =? p_bt2_s then set_press p_none (next_setupVal g)
      else if press g =? p_bt1_s then
        let g := set_press p_none g in
        let g := set_choosed (setupVal g) g in
        set_subMenu (wrap8 (subMenu g + 1)) g
      else if press g =? p_bt1_l then set_menu m_setup (set_press p_none g)
      else g
  | 1 =>
      if press g =? p_bt2_s then
        let g := set_press p_none g in
        let l := lamp_sel g in
        set_lamp_sel (mkLAMP (onH l) (offH l) (if negb (l_active l =? 0) then 0 else 1)) g
      else if press g =? p_bt1_s then
        let g := set_press p_none g in
        let g := set_timeSelected (onH (lamp_sel g)) g in
        set_subMenu
          (wrap8 (subMenu g + (if negb (l_active (lamp_sel g) =? 0) then 1 else -1))) g
      else if press g =? p_bt1_l then set_subMenu 0 (set_press p_none g)
      else g
  | 2 =>
      let g := hourSelection g in
      if press g =? p_bt1_s then
        let g := set_press p_none g in
        let l := lamp_sel g in
        let g := set_lamp_sel (mkLAMP (timeSelected g) (offH l) (l_active l)) g in
        let g := set_HorM 0 g in
        let g := set_timeSelected (offH (lamp_sel g)) g in
        set_subMenu (wrap8 (subMenu g + 1)) g
      else if press g =? p_bt1_l then back_one_step g
      else g
  | 3 =>
      let g := hourSelection g in
      if press g =? p_bt1_s then
        let g := set_press p_none g in
        let l := lamp_sel g in
        let g := set_lamp_sel (mkLAMP (onH l) (timeSelected g) (l_active l)) g in
        let g := set_HorM 0 g in
        leave_to_setup g
      else if press g =? p_bt1_l then back_one_step g
      else g
  | _ => g
  end.

(** *** [extra_menu]

    [extra_menu] takes a pointer to [brume] or to [bulles]. *)

Inductive Extra := Brume | Bulles.

Definition thing (x : Extra) (g : Globals) : EXTRAS :=
  match x with Brume => brume g | Bulles => bulles g end.

Definition set_thing (x : Extra) (v : EXTRAS) (g : Globals) : Globals :=
  match x with Brume => set_brume v g | Bulles => set_bulles v g end.

Definition extra_menu (x : Extra) (g : Globals) : Globals :=
  let g :=
    if (nbr (thing x g) =? 0) && (subMenu g =? 0)
    then set_setupVal (tOn (thing x g)) (set_nbr_setup 59 (set_subMenu 3 g))
    else g in
  match subMenu g with
  | 0 =>
      let g := set_nbr_setup 1 g in
      if press g =? p_bt2_s then set_press p_none (next_setupVal g)
      else if press g =? p_bt1_s then
        let g := set_press p_none g in
        set_subMenu (wrap8 (subMenu g + (setupVal g + 1))) g
      else g
  | 1 =>
      let g := set_nbr_setup (nbr (thing x g)) g in
      let g := if press g =? p_bt2_s then set_press p_none (next_setupVal g) else g in
      if press g =? p_bt1_s then
        let g := set_press p_none g in
        if setupVal g =? nbr_setup g then
          let g := set_subMenu (wrap8 (subMenu g + 2)) g in
          set_setupVal (tOn (thing x g)) g
        else
          let g := set_choosed (setupVal g) g in
          let g := set_subMenu (wrap8 (subMenu g + 3)) g in
          set_timeSelected (times (thing x g) !!! Z.to_nat (choosed g)) g
      else g
  | 2 =>
      let t := thing x g in
      if nbr t <? 10 then
        let g := set_choosed (nbr t) g in
        let g := set_thing x (mkEXTRAS (wrap8 (nbr t + 1)) (tOn t) (times t) (active t)) g in
        let g := set_subMenu (wrap8 (subMenu g + 3)) g in
        set_timeSelected (mkTIME 8 0) g
      else set_subMenu (wrap8 (subMenu g + 4)) g
  | 3 =>
      if (press g =? p_bt2_s) || (press g =? p_bt2_r) then
        set_press p_none (next_setupVal g)
      else if press g =? p_bt2_l then set_setupVal 0 (set_press p_none g)
      else if press g =? p_bt1_s then
        let g := set_press p_none g in
        let t := thing x g in
        let g := set_thing x (mkEXTRAS (nbr t) (setupVal g) (times t) (active t)) g in
        set_subMenu (wrap8 (subMenu g + 1)) g
      else if press g =? p_bt1_l then
        set_menu m_setup (set_setupVal 0 (set_press p_none g))
      else g
  | 4 =>
      if press g =? p_bt2_s then
        let g := set_press p_none g in
        let t := thing x g in
        set_thing x
          (mkEXTRAS (nbr t) (tOn t) (times t) (if negb (active t =? 0) then 0 else 1)) g
      else if press g =? p_bt1_s then
        let g := set_press p_none g in
        let g := set_timeSelected (times (thing x g) !!! Z.to_nat (choosed g)) g in
        if negb (active (thing x g) =? 0) && (nbr (thing x g) =? 0)
        then set_subMenu 2 g
        else leave_to_setup g
      else if press g =? p_bt1_l then set_menu m_setup (set_press p_none g)
      else g
  | 5 =>
      let g := hourSelection g in
      if press g =? p_bt1_s then
        let g := set_press p_none g in
        let t := thing x g in
        let g := set_thing x
                   (mkEXTRAS (nbr t) (tOn t)
                      (<[Z.to_nat (choosed g) := timeSelected g]> (times t)) (active t)) g in
        let g := set_HorM 0 g in
        leave_to_setup g
      else if press g =? p_bt1_l then back_one_step g
      else g
  | 6 =>
      if (press g =? p_bt1_s) || (press g =? p_bt2_s) then
        let g := set_press p_none g in
        let g := set_HorM 0 g in
        leave_to_setup g
      else g
  | _ => g
  end.

(** *** [buse_menu] *)

Definition buse_menu (g : Globals) : Globals :=
  let g := set_nbr_setup 200 g in
  match subMenu g with
  | 0 =>
      if press g =? p_bt2_s then
        let g := set_press p_none g in
        let b := buse g in
        set_buse (mkBUSE (b_tOn b) (startH b) (stopH b)
                    (if negb (b_active b =? 0) then 0 else 1)) g
      else if press g =? p_bt1_s then
        let g := set_press p_none g in
        if negb (b_active (buse g) =? 0)
        then set_subMenu (wrap8 (subMenu g + 1)) g
        else set_menu m_setup g
      else if press g =? p_bt1_l then set_menu m_setup (set_press p_none g)
      else g
  | 1 =>
      if press g =? p_bt2_s then set_press p_none (next_setupVal g)
      else if press g =? p_bt2_r then
        let g := set_setupVal (wrap8 (setupVal g + 5)) g in
        let g := if setupVal g =? nbr_setup g then set_setupVal 0 g else g in
        set_press p_none g
      else if press g =? p_bt1_s then
        let g := set_press p_none g in
        let b := buse g in
        let g := set_buse (mkBUSE (setupVal g) (startH b) (stopH b) (b_active b)) g in
        let g := set_timeSelected (startH (buse g)) g in
        set_subMenu (wrap8 (subMenu g + 1)) g
      else if press g =? p_bt1_l then set_menu m_setup (set_press p_none g)
      else g
  | 2 =>
      let g := hourSelection g in
      if press g =? p_bt1_s then
        let g := set_press p_none g in
        let b := buse g in
        let g := set_buse (mkBUSE (b_tOn b) (timeSelected g) (stopH b) (b_active b)) g in
        let g := set_timeSelected (stopH (buse g)) g in
        let g := set_HorM 0 g in
        set_subMenu (wrap8 (subMenu g + 1)) g
      else if press g =? p_bt1_l then back_one_step g
      else g
  | 3 =>
      let g := hourSelection g in
      if press g =? p_bt1_s then
        let g := set_press p_none g in
        let b := buse g in
        let g := set_buse (mkBUSE (b_tOn b) (startH b) (timeSelected g) (b_active b)) g in
        let g := set_HorM 0 g in
        leave_to_setup g
      else if press g =? p_bt1_l then back_one_step g
      else g
  | _ => g
  end.

(** *** [time_menu]

    [rtc] keeps what [RTC.setTime] was last called with. *)

Definition time_menu (g : Globals) : Globals :=
  let g := hourSelection g in
  if press g =? p_bt1_s then
    let g := set_press p_none g in
    let g := set_HorM 0 g in
    let g := set_globalTime (timeSelected g) g in
    let g := set_rtc (globalTime g, sec g) g in
    let g := set_sec 0 g in
    set_menu m_setup g
  else if press g =? p_bt1_l then
    let g := set_press p_none g in
    if negb (HorM g =? 0) then set_HorM 0 g else set_menu m_setup g
  else g.

(** *** [menu_task]: one iteration of its loop

    The local variable [localMenu] only decides when the display is
    cleared and refreshed; it is left out with the display. *)

Definition menu_task (g : Globals) : Globals :=
  match menu g with
  | 0 => if negb (press g =? 0) then set_menu 1 (set_press 0 g) else g
  | 1 => setup_menu g
  | 2 => lamp_menu g
  | 3 => buse_menu g
  | 4 => extra_menu Brume g
  | 5 => extra_menu Bulles g
  | 6 => time_menu g
  | 7 => saveToEEPROM g
  | 8 => set_menu 0 g
  | _ => g
  end.

(** ** Scenarios for the input classifier *)

(** [button_poll] run over the levels read on one pin. *)
Fixpoint button_run (ps pl pr : Z) (levels : list Z) (b : BUTTON)
  : BUTTON * list (list Z) :=
  match levels with
  | [] => (b, [])
  | l :: rest =>
      let '(b1, w, _) := button_poll ps pl pr l b in
      let '(b2, evs) := button_run ps pl pr rest b1 in
      (b2, written w :: evs)
  end.

(** A button read low (pressed) for [n] polls, then read high. *)
Definition hold_release (n : nat) : list Z := replicate n 0 ++ [1].

(** The same on button 1 while button 2 stays released, and conversely. *)
Definition press_bt1 (n : nat) : list (Z * Z) := map (fun l => (l, 1)) (hold_release n).
Definition press_bt2 (n : nat) : list (Z * Z) := map (fun l => (1, l)) (hold_release n).

Definition idle : BUTTON := mkBUTTON 0 0 0.

(** What poll number [k] (from 1) of a hold stores into [press]: a
    repeat at polls 23, 28, 33, ... *)
Definition held_event (pr : Z) (k : nat) : list Z :=
  if ((23 <=? k) && ((k - 23) mod 5 =? 0))%nat then [pr] else [].

(** The state of a button that has been read low [n] times in a row. *)
Definition hold_state (n : nat) : BUTTON :=
  if (n =? 0)%nat then idle
  else if (n <=? 9)%nat then mkBUTTON 1 0 (Z.of_nat n - 1)
  else if (n <=? 21)%nat then mkBUTTON 1 1 (Z.of_nat n - 1)
  else if (n =? 22)%nat then mkBUTTON 1 3 21
  else mkBUTTON 1 3 (Z.of_nat ((n - 23) mod 5) + 1).

(** What the poll that reads the button high again stores into [press],
    after [n] polls that read it low. *)
Definition release_event (ps pl : Z) (n : nat) : list Z :=
  if (n =? 0)%nat then []
  else if (n <=? 9)%nat then [ps]
  else if (n <=? 21)%nat then [pl]
  else [].

(** ** Scenarios for the clock, the lamps and the pump *)

(** The globals after reset with the clock at [h]:[m]:[s]. *)
Definition clock_at (h m s : Z) : Globals :=
  set_sec s (set_globalTime (mkTIME h m) (reset_globals [])).

(** Lamp 0 configured as [l], the time of day [now], and every output
    pin at [level] before the task runs. *)
Definition lamp_scene (l : LAMP) (now : TIME) (level : Z) : Globals :=
  set_pins (fun _ => level)
    (set_globalTime now (set_lamps [l; zero_LAMP; zero_LAMP] (reset_globals []))).

(** A lamp enabled from 08:30 to 22:00. *)
Definition lamp_0830_2200 : LAMP := mkLAMP (mkTIME 8 30) (mkTIME 22 0) 1.

(** The pump enabled, 5 seconds, window 08:00 to 21:00. *)
Definition pump_scene : Globals :=
  set_buse (mkBUSE 5 (mkTIME 8 0) (mkTIME 21 0) 1) (reset_globals []).

(** The times of day at which the iterations of [buse_task] start on
    one day, from 08:00 on. *)
Definition one_day : list TIME :=
  [mkTIME 8 0; mkTIME 8 0; mkTIME 8 1; mkTIME 8 2; mkTIME 9 0; mkTIME 12 0;
   mkTIME 21 0; mkTIME 23 59; mkTIME 0 0; mkTIME 7 59].

(** ** Scenarios and ranges for the persistence *)

(** The documented ranges of the configuration. *)
Definition LAMP_in_range (l : LAMP) : Prop :=
  time_in_range (onH l) /\ time_in_range (offH l) /\ 0 <= l_active l <= 1.

Definition BUSE_in_range (b : BUSE) : Prop :=
  0 <= b_tOn b <= 200 /\ time_in_range (startH b) /\ time_in_range (stopH b)
  /\ 0 <= b_active b <= 1.

Definition EXTRAS_in_range (x : EXTRAS) : Prop :=
  0 <= nbr x <= 10 /\ 0 <= tOn x <= 200 /\ length (times x) = 10%nat
  /\ Forall time_in_range (times x) /\ 0 <= active x <= 1.

(** Where the records are in the EEPROM: the marker is at 0, then the
    three lamps, the pump, the mist maker and the bubbler. *)
Definition lamp_addr (i : nat) : nat := (1 + i * sizeof_LAMP)%nat.
Definition buse_addr : nat := (1 + 3 * sizeof_LAMP)%nat.
Definition brume_addr : nat := (buse_addr + sizeof_BUSE)%nat.
Definition bulles_addr : nat := (brume_addr + sizeof_EXTRAS)%nat.

(** The [active] member is the last byte of every record. *)
Definition lamp_flag_addr (i : nat) : nat := (lamp_addr i + 4)%nat.
Definition buse_flag_addr : nat := (buse_addr + 5)%nat.
Definition brume_flag_addr : nat := (brume_addr + 22)%nat.
Definition bulles_flag_addr : nat := (bulles_addr + 22)%nat.

(** An erased EEPROM of 1024 bytes. *)
Definition erased : list Z := replicate 1024 255.

(** A bubbler with one trigger at 08:00 for 5 minutes, enabled. *)
Definition bulles_0800 : EXTRAS :=
  mkEXTRAS 1 5 (mkTIME 8 0 :: replicate 9 zero_TIME) 1.

(** The seeded configuration with that bubbler, over an erased EEPROM. *)
Definition configured : Globals :=
  set_bulles bulles_0800 (seed_config (reset_globals erased)).

(** The EEPROM written by a save of [configured], then with the enabled
    flag of the pump record overwritten by 7. *)
Definition pump_flag_7 : list Z :=
  <[buse_flag_addr := 7]> (eeprom (saveToEEPROM configured)).

(** The globals with the byte at address [a] of the EEPROM overwritten
    by [v]. *)
Definition corrupt (a : nat) (v : Z) (g : Globals) : Globals :=
  set_eeprom (<[a := v]> (eeprom g)) g.

(** The value of [menu] under which [menu_task] calls [extra_menu] on
    a device. *)
Definition extra_menu_id (x : Extra) : Z :=
  match x with Brume => m_brume | Bulles => m_bulle end.

(** The mist maker with ten triggers stored, its menu open on the choice
    between editing and adding, "add" selected and button 1 pressed. *)
Definition brume_full_add : Globals :=
  set_press p_bt1_s
    (set_setupVal 1
       (set_menu m_brume
          (set_brume (mkEXTRAS 10 5 (replicate 10 (mkTIME 8 0)) 1) (reset_globals [])))).

(** The menu of the mist maker just opened, nothing configured yet. *)
Definition brume_first_entry : Globals := set_menu m_brume (reset_globals []).

(** ** [brume_task] and [bulles_task]

    Both tasks walk over the first [nbr] entries of [times].  The array
    has ten entries; the load and the menu keep [nbr] at 10 at most, and
    for a larger [nbr] the source reads past the array, which the lookup
    below does not model.  The two tasks differ: the mist maker compares
    with [>=] where the bubbler compares with [==], and the mist maker
    asks for [active == 1] where the bubbler asks for a non-zero
    [active]. *)

(** The body of the loop of [brume_task] for the trigger [i]. *)
Definition brume_body (i : nat) (g : Globals) : Globals :=
  let t := times (brume g) !!! i in
  let now := globalTime g in
  let g :=
    if hours t =? hours now then
      if minutes t >=? minutes now then pin_write brumePin 0 g else g
    else g in
  if minutes t + tOn (brume g) >=? 60 then
    if hours t + 1 =? hours now then
      if minutes now >=? (minutes t + tOn (brume g)) - 60
      then pin_write brumePin 1 g else g
    else g
  else
    if hours t >=? hours now then
      if minutes now >=? minutes t + tOn (brume g)
      then pin_write brumePin 1 g else g
    else g.

(** One iteration of the loop of [brume_task]. *)
Definition brume_task (g : Globals) : Globals :=
  if negb (nbr (brume g) =? 0) && (active (brume g) =? 1) then
    fold_left (fun g i => brume_body i g) (seq 0 (Z.to_nat (nbr (brume g)))) g
  else pin_write brumePin 1 g.

(** The body of the loop of [bulles_task] for the trigger [i]. *)
Definition bulles_body (i : nat) (g : Globals) : Globals :=
  let t := times (bulles g) !!! i in
  let now := globalTime g in
  let g :=
    if hours now =? hours t then
      if minutes now =? minutes t then pin_write bullesPin 0 g else g
    else g in
  if minutes t + tOn (bulles g) >=? 60 then
    if hours t + 1 =? hours now then
      if (minutes t + tOn (bulles g)) - 60 =? minutes now
      then pin_write bullesPin 1 g else g
    else g
  else
    if hours t =? hours now then
      if minutes t + tOn (bulles g) =? minutes now
      then pin_write bullesPin 1 g else g
    else g.

(** One iteration of the loop of [bulles_task]. *)
Definition bulles_task (g : Globals) : Globals :=
  if negb (nbr (bulles g) =? 0) && negb (active (bulles g) =? 0) then
    fold_left (fun g i => bulles_body i g) (seq 0 (Z.to_nat (nbr (bulles g)))) g
  else pin_write bullesPin 1 g.

(** ** Further notions used by the properties *)

(** The states a button goes through: released, or held in one of the
    three modes with its counter in the range of that mode. *)
Definition button_ok (b : BUTTON) : Prop :=
  (val b = 0 /\ mode b = 0 /\ time b = 0)
  \/ (val b = 1
      /\ ((mode b = 0 /\ 0 <= time b <= 8)
          \/ (mode b = 1 /\ 9 <= time b <= 20)
          \/ (mode b = 3 /\ 1 <= time b <= 21))).

(** The second of the day shown by the local clock. *)
Definition total_seconds (g : Globals) : Z :=
  3600 * hours (globalTime g) + 60 * minutes (globalTime g) + sec g.

(** [menu_task] run over the presses found in [press] at each of its
    iterations ([p_none] when the input task stored nothing). *)
Fixpoint menu_run (presses : list Z) (g : Globals) : Globals :=
  match presses with
  | [] => g
  | p :: rest =>
      menu_run rest (menu_task (if p =? p_none then g else set_press p g))
  end.

(** The four device variables. *)
Definition config (g : Globals) : list LAMP * BUSE * EXTRAS * EXTRAS :=
  (lamps g, buse g, brume g, bulles g).

(** The level of the indicator on pin 13 after [n] polls that read a
    button low, from the level [before]. *)
Definition led_level (n : nat) (before : Z) : Z :=
  if (n <=? 9)%nat then before else if (n <=? 21)%nat then 1 else 0.

(** The pump is due at [now]: enabled, in an hour of its window, at the
    start minute. *)
Definition buse_due (b : BUSE) (now : TIME) : Prop :=
  b_active b <> 0
  /\ hours (startH b) <= hours now <= hours (stopH b)
  /\ minutes now = minutes (startH b).

(** The time at which a trigger [t] ends after [d] minutes, as the two
    tasks compute it: in the next hour when the minutes reach 60. *)
Definition end_time (t : TIME) (d : Z) : TIME :=
  if minutes t + d >=? 60
  then mkTIME (hours t + 1) (minutes t + d - 60)
  else mkTIME (hours t) (minutes t + d).

Definition TIME_eqb (a b : TIME) : bool :=
  (hours a =? hours b) && (minutes a =? minutes b).

(** One bubbler or mist maker with the single trigger [t] and the
    duration [d], enabled, at the time [now], every pin at [level]. *)
Definition bulles_scene (t : TIME) (d : Z) (now : TIME) (level : Z) : Globals :=
  set_pins (fun _ => level)
    (set_globalTime now
       (set_bulles (mkEXTRAS 1 d (t :: replicate 9 zero_TIME) 1) (reset_globals []))).

Definition brume_scene (t : TIME) (d : Z) (now : TIME) (level : Z) : Globals :=
  set_pins (fun _ => level)
    (set_globalTime now
       (set_brume (mkEXTRAS 1 d (t :: replicate 9 zero_TIME) 1) (reset_globals []))).

(** The other multi-event device. *)
Definition other_extra (x : Extra) : Extra :=
  match x with Brume => Bulles | Bulles => Brume end.


(** The presses that bring the time under edit from [from] to [to] and
    validate it: button 2 up to the hour, button 1, button 2 up to the
    minute, button 1. *)
Definition select_time (from to : TIME) : list Z :=
  replicate (Z.to_nat ((hours to - hours from) mod 24)) p_bt2_s ++ [p_bt1_s] ++
  replicate (Z.to_nat ((minutes to - minutes from) mod 60)) p_bt2_s ++ [p_bt1_s].

(** * Properties *)

(** Projections of updated records, computed without unfolding the
    arithmetic. *)
Ltac gsimpl :=
  cbn [menu subMenu HorM choosed timeSelected globalTime sec lamps lampNbr
       buse brume bulles buseFlag bt1 bt2 press nbr_setup setupVal pins eeprom rtc
       set_menu set_subMenu set_HorM set_choosed set_timeSelected set_globalTime
       set_sec set_lamps set_lampNbr set_buse set_brume set_bulles set_buseFlag
       set_bt1 set_bt2 set_press set_nbr_setup set_setupVal set_pins set_eeprom
       set_rtc pin_write hours minutes set_hours set_minutes
       onH offH l_active b_tOn startH stopH b_active nbr tOn times active
       val mode time fst snd negb andb orb thing set_thing].

(** Side conditions on addresses in the EEPROM. *)
Ltac addr_lia :=
  cbv [lamp_addr buse_addr brume_addr bulles_addr lamp_flag_addr buse_flag_addr
       brume_flag_addr bulles_flag_addr sizeof_LAMP sizeof_BUSE sizeof_EXTRAS];
  cbn; lia.

(** Case analysis on the condition of an [if]. *)
Ltac case_if :=
  match goal with
  | |- context [if ?c then _ else _] => destruct c eqn:?
  end.

(** Boolean comparisons in the hypotheses, as propositions. *)
Ltac bool_to_prop :=
  repeat match goal with
         | H : (_ >? _) = _ |- _ => rewrite Z.gtb_ltb in H
         | H : (_ >=? _) = _ |- _ => rewrite Z.geb_leb in H
         | H : (_ =? _) = true |- _ => apply Z.eqb_eq in H
         | H : (_ =? _) = false |- _ => apply Z.eqb_neq in H
         | H : (_ <? _) = true |- _ => apply Z.ltb_lt in H
         | H : (_ <? _) = false |- _ => apply Z.ltb_ge in H
         | H : (_ <=? _) = true |- _ => apply Z.leb_le in H
         | H : (_ <=? _) = false |- _ => apply Z.leb_gt in H
         | H : (_ || _) = true |- _ => apply orb_true_iff in H
         | H : (_ || _) = false |- _ => apply orb_false_iff in H; destruct H
         | H : (_ && _) = true |- _ => apply andb_true_iff in H; destruct H
         | H : (_ && _) = false |- _ => apply andb_false_iff in H
         | H : negb _ = true |- _ => apply negb_true_iff in H
         | H : negb _ = false |- _ => apply negb_false_iff in H
         end.

Tactic Notation "gsimpl" "in" hyp(H) :=
  cbn [menu subMenu HorM choosed timeSelected globalTime sec lamps lampNbr
       buse brume bulles buseFlag bt1 bt2 press nbr_setup setupVal pins eeprom rtc
       set_menu set_subMenu set_HorM set_choosed set_timeSelected set_globalTime
       set_sec set_lamps set_lampNbr set_buse set_brume set_bulles set_buseFlag
       set_bt1 set_bt2 set_press set_nbr_setup set_setupVal set_pins set_eeprom
       set_rtc pin_write hours minutes set_hours set_minutes
       onH offH l_active b_tOn startH stopH b_active nbr tOn times active
       val mode time fst snd negb andb orb thing set_thing] in H.

Tactic Notation "gsimpl" "in" "*" :=
  cbn [menu subMenu HorM choosed timeSelected globalTime sec lamps lampNbr
       buse brume bulles buseFlag bt1 bt2 press nbr_setup setupVal pins eeprom rtc
       set_menu set_subMenu set_HorM set_choosed set_timeSelected set_globalTime
       set_sec set_lamps set_lampNbr set_buse set_brume set_bulles set_buseFlag
       set_bt1 set_bt2 set_press set_nbr_setup set_setupVal set_pins set_eeprom
       set_rtc pin_write hours minutes set_hours set_minutes
       onH offH l_active b_tOn startH stopH b_active nbr tOn times active
       val mode time fst snd negb andb orb thing set_thing] in *.

(** ** Input classifier *)

Lemma succ_mod5 (n : nat) :
  ((n mod 5 = 4 /\ S n mod 5 = 0) \/ (n mod 5 < 4 /\ S n mod 5 = S (n mod 5)))%nat.
Proof.
  pose proof (Nat.mod_upper_bound n 5).
  pose proof (Nat.mod_upper_bound (S n) 5).
  pose proof (Nat.div_mod_eq n 5).
  pose proof (Nat.div_mod_eq (S n) 5).
  lia.
Qed.

Section ButtonPolls.

(** The press codes of the button: short, long, repeat. *)
Variables ps pl pr : Z.

Lemma button_run_app (l1 l2 : list Z) (b : BUTTON) :
  button_run ps pl pr (l1 ++ l2) b =
  let '(b1, e1) := button_run ps pl pr l1 b in
  let '(b2, e2) := button_run ps pl pr l2 b1 in
  (b2, e1 ++ e2).
Proof.
  revert b; induction l1 as [|x l1 IH]; intros b; simpl.
  - destruct (button_run ps pl pr l2 b); reflexivity.
  - destruct (button_poll ps pl pr x b) as [[b1 w] d].
    rewrite IH.
    destruct (button_run ps pl pr l1 b1) as [b2 e1].
    destruct (button_run ps pl pr l2 b2) as [b3 e2]; reflexivity.
Qed.

Lemma button_poll_held (n : nat) :
  fst (fst (button_poll ps pl pr 0 (hold_state n))) = hold_state (S n) /\
  written (snd (fst (button_poll ps pl pr 0 (hold_state n)))) = held_event pr (S n).
Proof.
  destruct (Nat.lt_ge_cases n 23) as [Hlt | Hge].
  - do 23 (destruct n as [|n]; [vm_compute; split; reflexivity|]). lia.
  - unfold hold_state, held_event.
    replace (S n - 23)%nat with (S (n - 23)) by lia.
    assert (E1 : ((n =? 0) = false)%nat) by (apply Nat.eqb_neq; lia).
    assert (E2 : ((n <=? 9) = false)%nat) by (apply Nat.leb_gt; lia).
    assert (E3 : ((n <=? 21) = false)%nat) by (apply Nat.leb_gt; lia).
    assert (E4 : ((n =? 22) = false)%nat) by (apply Nat.eqb_neq; lia).
    assert (E2' : ((S n <=? 9) = false)%nat) by (apply Nat.leb_gt; lia).
    assert (E3' : ((S n <=? 21) = false)%nat) by (apply Nat.leb_gt; lia).
    assert (E4' : ((S n =? 22) = false)%nat) by (apply Nat.eqb_neq; lia).
    assert (E5 : ((23 <=? S n) = true)%nat) by (apply Nat.leb_le; lia).
    rewrite E1, E2, E3, E4, E2', E3', E4', E5.
    change ((S n =? 0)%nat) with false. cbv iota.
    unfold button_poll; cbn [val mode time].
    change (1 =? 0) with false; change (0 =? 1) with false;
      change (3 =? 0) with false; change (3 =? 1) with false; cbn [andb].
    rewrite Z.geb_leb.
    destruct (succ_mod5 (n - 23)) as [[Hn HS] | [Hn HS]]; rewrite HS.
    + rewrite Hn. simpl. split; reflexivity.
    + destruct (5 <=? Z.of_nat ((n - 23) mod 5) + 1) eqn:E;
        [apply Z.leb_le in E; lia | cbn [fst snd written]].
      replace ((S ((n - 23) mod 5) =? 0)%nat) with false by reflexivity.
      unfold wrap8. rewrite Z.mod_small by lia.
      split; [f_equal; lia | reflexivity].
Qed.

Lemma button_run_held (n : nat) :
  button_run ps pl pr (replicate n 0) idle =
  (hold_state n, map (held_event pr) (seq 1 n)).
Proof.
  induction n as [|n IH]; [reflexivity|].
  rewrite replicate_S_end, button_run_app, IH, seq_S, map_app.
  cbn [button_run map Nat.add].
  destruct (button_poll_held n) as [Hb Hw].
  destruct (button_poll ps pl pr 0 (hold_state n)) as [[b w] d].
  cbn [fst snd] in Hb, Hw. rewrite Hb, Hw. reflexivity.
Qed.

Lemma button_poll_release (n : nat) :
  fst (fst (button_poll ps pl pr 1 (hold_state n))) = idle /\
  written (snd (fst (button_poll ps pl pr 1 (hold_state n)))) = release_event ps pl n.
Proof.
  destruct (Nat.lt_ge_cases n 23) as [Hlt | Hge].
  - do 23 (destruct n as [|n]; [vm_compute; split; reflexivity|]). lia.
  - unfold hold_state, release_event.
    assert (E1 : ((n =? 0) = false)%nat) by (apply Nat.eqb_neq; lia).
    assert (E2 : ((n <=? 9) = false)%nat) by (apply Nat.leb_gt; lia).
    assert (E3 : ((n <=? 21) = false)%nat) by (apply Nat.leb_gt; lia).
    assert (E4 : ((n =? 22) = false)%nat) by (apply Nat.eqb_neq; lia).
    rewrite E1, E2, E3, E4. split; reflexivity.
Qed.

(** A button held for [n] polls and released: repeats at polls 23, 28,
    ... of the hold, then whatever the release gives. *)
Lemma button_run_hold_release (n : nat) :
  button_run ps pl pr (hold_release n) idle =
  (idle, map (held_event pr) (seq 1 n) ++ [release_event ps pl n]).
Proof.
  unfold hold_release.
  rewrite button_run_app, button_run_held. cbn [button_run].
  destruct (button_poll_release n) as [Hb Hw].
  destruct (button_poll ps pl pr 1 (hold_state n)) as [[b w] d].
  cbn [fst snd] in Hb, Hw. rewrite Hb, Hw. reflexivity.
Qed.

Lemma held_event_early (n : nat) :
  (n <= 22)%nat -> concat (map (held_event pr) (seq 1 n)) = [].
Proof.
  induction n as [|n IH]; intros Hn; [reflexivity|].
  rewrite seq_S, map_app, concat_app, IH by lia.
  cbn [Nat.add map concat app]. unfold held_event.
  replace ((23 <=? S n)%nat) with false by (symmetry; apply Nat.leb_gt; lia).
  reflexivity.
Qed.

Lemma release_event_short (n : nat) :
  (1 <= n <= 9)%nat -> release_event ps pl n = [ps].
Proof.
  intros Hn. unfold release_event.
  replace ((n =? 0)%nat) with false by (symmetry; apply Nat.eqb_neq; lia).
  replace ((n <=? 9)%nat) with true by (symmetry; apply Nat.leb_le; lia).
  reflexivity.
Qed.

Lemma release_event_long (n : nat) :
  (10 <= n <= 21)%nat -> release_event ps pl n = [pl].
Proof.
  intros Hn. unfold release_event.
  replace ((n =? 0)%nat) with false by (symmetry; apply Nat.eqb_neq; lia).
  replace ((n <=? 9)%nat) with false by (symmetry; apply Nat.leb_gt; lia).
  replace ((n <=? 21)%nat) with true by (symmetry; apply Nat.leb_le; lia).
  reflexivity.
Qed.

Lemma release_event_repeating (n : nat) :
  (22 <= n)%nat -> release_event ps pl n = [].
Proof.
  intros Hn. unfold release_event.
  replace ((n =? 0)%nat) with false by (symmetry; apply Nat.eqb_neq; lia).
  replace ((n <=? 9)%nat) with false by (symmetry; apply Nat.leb_gt; lia).
  replace ((n <=? 21)%nat) with false by (symmetry; apply Nat.leb_gt; lia).
  reflexivity.
Qed.

End ButtonPolls.

(** While button 2 is released and idle, [input_task] is [button_poll]
    on button 1; and conversely. *)
Lemma input_run_bt1 (levels : list Z) (g : Globals) :
  bt2 g = idle ->
  snd (input_run (map (fun l => (l, 1)) levels) g) =
  snd (button_run p_bt1_s p_bt1_l p_bt1_r levels (bt1 g)).
Proof.
  revert g; induction levels as [|l levels IH]; intros g H2; [reflexivity|].
  cbn [map input_run button_run]. unfold input_task.
  destruct (button_poll p_bt1_s p_bt1_l p_bt1_r l (bt1 g)) as [[b1 w1] d1].
  assert (E2 : bt2 (apply_led d1 (apply_press w1 (set_bt1 b1 g))) = idle)
    by (destruct d1, w1; exact H2).
  assert (E1 : bt1 (apply_led d1 (apply_press w1 (set_bt1 b1 g))) = b1)
    by (destruct d1, w1; reflexivity).
  rewrite E2. cbn [button_poll idle val Z.eqb apply_led apply_press written].
  specialize (IH (set_bt2 idle (apply_led d1 (apply_press w1 (set_bt1 b1 g))))).
  cbn [bt1 bt2 set_bt2] in IH. rewrite E1 in IH. specialize (IH eq_refl).
  destruct (input_run _ _) as [g2 evs]. cbn [snd] in IH. rewrite IH.
  destruct (button_run _ _ _ levels b1) as [b2 evs']. cbn [snd].
  rewrite app_nil_r. reflexivity.
Qed.

Lemma input_run_bt2 (levels : list Z) (g : Globals) :
  bt1 g = idle ->
  snd (input_run (map (fun l => (1, l)) levels) g) =
  snd (button_run p_bt2_s p_bt2_l p_bt2_r levels (bt2 g)).
Proof.
  revert g; induction levels as [|l levels IH]; intros g H1; [reflexivity|].
  cbn [map input_run button_run]. unfold input_task.
  rewrite H1. cbn [button_poll idle val Z.eqb apply_led apply_press written app].
  cbn [bt2 set_bt1].
  destruct (button_poll p_bt2_s p_bt2_l p_bt2_r l (bt2 g)) as [[b2 w2] d2].
  specialize (IH (apply_led d2 (apply_press w2 (set_bt2 b2 (set_bt1 idle g))))).
  assert (E1 : bt1 (apply_led d2 (apply_press w2 (set_bt2 b2 (set_bt1 idle g)))) = idle)
    by (destruct d2, w2; reflexivity).
  assert (E2 : bt2 (apply_led d2 (apply_press w2 (set_bt2 b2 (set_bt1 idle g)))) = b2)
    by (destruct d2, w2; reflexivity).
  rewrite E2 in IH. specialize (IH E1).
  destruct (input_run _ _) as [g2 evs]. cbn [snd] in IH. rewrite IH.
  destruct (button_run _ _ _ levels b2) as [b3 evs']. reflexivity.
Qed.

Lemma press_bt1_events (g : Globals) (n : nat) :
  bt1 g = idle -> bt2 g = idle ->
  snd (input_run (press_bt1 n) g) =
  map (held_event p_bt1_r) (seq 1 n) ++ [release_event p_bt1_s p_bt1_l n].
Proof.
  intros H1 H2. unfold press_bt1.
  rewrite input_run_bt1, H1, button_run_hold_release by exact H2. reflexivity.
Qed.

Lemma press_bt2_events (g : Globals) (n : nat) :
  bt1 g = idle -> bt2 g = idle ->
  snd (input_run (press_bt2 n) g) =
  map (held_event p_bt2_r) (seq 1 n) ++ [release_event p_bt2_s p_bt2_l n].
Proof.
  intros H1 H2. unfold press_bt2.
  rewrite input_run_bt2, H2, button_run_hold_release by exact H1. reflexivity.
Qed.

(** C4 (as amended).  For each button, starting idle, while the other
    button stays released: read low for 1 to 9 polls and then high, the
    button gives exactly one short event; read low for 10 to 21 polls and
    then high, exactly one long event; read low for 22 polls or more, it
    gives no long event at all: nothing is stored before poll 23, a repeat
    event is stored at polls 23, 28, 33, ... of the hold, and the release
    stores nothing. *)
Theorem input_task_classification (g : Globals) (n : nat) :
  bt1 g = idle -> bt2 g = idle ->
  ((1 <= n <= 9)%nat ->
     input_events (press_bt1 n) g = [p_bt1_s] /\
     input_events (press_bt2 n) g = [p_bt2_s]) /\
  ((10 <= n <= 21)%nat ->
     input_events (press_bt1 n) g = [p_bt1_l] /\
     input_events (press_bt2 n) g = [p_bt2_l]) /\
  ((22 <= n)%nat ->
     snd (input_run (press_bt1 n) g) = map (held_event p_bt1_r) (seq 1 n) ++ [[]] /\
     snd (input_run (press_bt2 n) g) = map (held_event p_bt2_r) (seq 1 n) ++ [[]]).
Proof.
  intros H1 H2.
  pose proof (press_bt1_events g n H1 H2) as E1.
  pose proof (press_bt2_events g n H1 H2) as E2.
  unfold input_events. rewrite E1, E2, !concat_app.
  split; [|split]; intros Hn; split.
  - rewrite held_event_early, release_event_short by lia; reflexivity.
  - rewrite held_event_early, release_event_short by lia; reflexivity.
  - rewrite held_event_early, release_event_long by lia; reflexivity.
  - rewrite held_event_early, release_event_long by lia; reflexivity.
  - rewrite release_event_repeating by exact Hn; reflexivity.
  - rewrite release_event_repeating by exact Hn; reflexivity.
Qed.

Lemma input_task_classification_witness :
  input_events (press_bt1 7) (reset_globals []) = [p_bt1_s] /\
  input_events (press_bt2 12) (reset_globals []) = [p_bt2_l] /\
  snd (input_run (press_bt1 30) (reset_globals [])) =
    map (held_event p_bt1_r) (seq 1 30) ++ [[]].
Proof.
  pose proof (input_task_classification (reset_globals []) 7 eq_refl eq_refl) as H7.
  pose proof (input_task_classification (reset_globals []) 12 eq_refl eq_refl) as H12.
  pose proof (input_task_classification (reset_globals []) 30 eq_refl eq_refl) as H30.
  split; [apply H7; lia|].
  split; [apply H12; lia|].
  apply H30; lia.
Defined.

(** C4 as stated fails: a button read low for 8 polls (or for 9, when
    the counter [time] has reached 8) and released gives a short event,
    not a long one; and a button held for 30 polls never gives a long
    event, at poll 20 or elsewhere. *)
Lemma input_task_long_thresholds_differ :
  input_events (press_bt1 8) (reset_globals []) <> [p_bt1_l] /\
  input_events (press_bt1 9) (reset_globals []) <> [p_bt1_l] /\
  ~ In p_bt1_l (input_events (press_bt1 30) (reset_globals [])).
Proof.
  vm_compute. repeat split; try discriminate.
  intros H. repeat (destruct H as [H|H]; [discriminate H|]). exact H.
Qed.

(** ** Clock keeper *)

(** C3 (as amended).  At every tick, after the increment, the local
    minute is set to the RTC minute when the two differ by more than 1,
    and is left as it is when they differ by 1 or are equal. *)
Theorem time_task_reset_rule (rtc_min : Z) (g : Globals) :
  minutes (globalTime (time_task rtc_min g)) =
    (if Z.abs (rtc_min - minutes (globalTime (time_increment g))) >? 1
     then rtc_min
     else minutes (globalTime (time_increment g)))
  /\ hours (globalTime (time_task rtc_min g)) = hours (globalTime (time_increment g))
  /\ sec (time_task rtc_min g) = sec (time_increment g).
Proof.
  unfold time_task, time_reset.
  set (g1 := time_increment g). set (m := minutes (globalTime g1)).
  rewrite !Z.gtb_ltb.
  destruct (rtc_min =? m) eqn:E0; cbn [negb];
    [apply Z.eqb_eq in E0 | apply Z.eqb_neq in E0].
  - destruct (1 <? Z.abs (rtc_min - m)) eqn:E; [apply Z.ltb_lt in E; lia|].
    repeat split; reflexivity.
  - destruct (1 <? rtc_min - m) eqn:E1; destruct (1 <? m - rtc_min) eqn:E2;
      destruct (1 <? Z.abs (rtc_min - m)) eqn:E; cbn [orb];
      try (repeat split; reflexivity);
      repeat match goal with
             | H : (_ <? _) = true |- _ => apply Z.ltb_lt in H
             | H : (_ <? _) = false |- _ => apply Z.ltb_ge in H
             end; lia.
Qed.

(** C3 as stated fails: with the local clock at 12:10:05, an RTC minute
    of 11 (one minute apart) leaves the local minute at 10, and an RTC
    minute of 40 sets it to 40. *)
Lemma time_task_one_minute_apart_kept :
  minutes (globalTime (time_task 11 (clock_at 12 10 5))) <> 11 /\
  minutes (globalTime (time_task 40 (clock_at 12 10 5))) <> 10.
Proof. vm_compute. split; discriminate. Qed.

Lemma mod_once (x n : Z) : n <= x < 2 * n -> x mod n = x - n.
Proof.
  intros H. symmetry. apply Z.mod_unique with (q := 1); lia.
Qed.

Lemma time_increment_in_range (g : Globals) :
  time_in_range (globalTime g) -> time_in_range (globalTime (time_increment g)).
Proof.
  unfold time_in_range, time_increment.
  destruct (globalTime g) as [h m] eqn:Et. gsimpl. intros [Hh Hm].
  destruct (sec g >=? 59); gsimpl; rewrite ?Et; gsimpl; [|lia].
  destruct (m =? 59) eqn:Em; gsimpl;
    [destruct (h =? 23) eqn:Eh; gsimpl|];
    repeat match goal with
           | H : (_ =? _) = true |- _ => apply Z.eqb_eq in H
           | H : (_ =? _) = false |- _ => apply Z.eqb_neq in H
           end;
    unfold wrap8; rewrite ?Z.mod_small by lia; lia.
Qed.

Lemma hourSelection_in_range (g : Globals) :
  time_in_range (timeSelected g) -> time_in_range (timeSelected (hourSelection g)).
Proof.
  unfold time_in_range, hourSelection.
  destruct (timeSelected g) as [h m] eqn:Et. gsimpl. intros [Hh Hm].
  repeat (gsimpl; rewrite ?Et; case_if); gsimpl; rewrite ?Et; gsimpl;
    bool_to_prop; unfold wrap8 in *;
    rewrite ?(Z.mod_small (h + 1)), ?(Z.mod_small (m + 1)), ?(Z.mod_small (m + 5)) in * by lia;
    rewrite ?Z.mod_small by lia; lia.
Qed.

(** C9 (as amended).  From in-range times, the time-editing sub-flow
    [hourSelection] (whatever the pending press), the time menu that
    commits its result to the clock and the increment of [time_task]
    keep the hours in 0..23 and the minutes in 0..59.  The code has no
    rejecting path, it wraps: the hour after 23 is 0, the minute after
    59 is 0, five minutes after 57 is 2, and the clock after 23:59:59 is
    00:00:00.  The reset that ends the tick is no wraparound: it copies
    the minute read from the RTC as it is.  The whole tick therefore
    keeps the local time in range exactly when it does not reset (the
    two minutes are one apart at most) or the minute of the RTC is
    itself from 0 to 59. *)
Theorem time_fields_stay_in_range (g : Globals) (rtc_min : Z) :
  time_in_range (timeSelected g) ->
  time_in_range (globalTime g) ->
  time_in_range (timeSelected (hourSelection g))
  /\ time_in_range (timeSelected (time_menu g))
  /\ time_in_range (globalTime (time_menu g))
  /\ time_in_range (globalTime (time_increment g))
  /\ (time_in_range (globalTime (time_task rtc_min g)) <->
      Z.abs (minutes (globalTime (time_increment g)) - rtc_min) <= 1
      \/ 0 <= rtc_min <= 59)
  /\ (HorM g = 0 -> press g = p_bt2_s \/ press g = p_bt2_r ->
      hours (timeSelected (hourSelection g)) = (hours (timeSelected g) + 1) mod 24)
  /\ (HorM g <> 0 -> press g = p_bt2_s ->
      minutes (timeSelected (hourSelection g)) = (minutes (timeSelected g) + 1) mod 60)
  /\ (HorM g <> 0 -> press g = p_bt2_r ->
      minutes (timeSelected (hourSelection g)) = (minutes (timeSelected g) + 5) mod 60)
  /\ (sec g = 59 ->
      60 * hours (globalTime (time_increment g)) + minutes (globalTime (time_increment g))
      = (60 * hours (globalTime g) + minutes (globalTime g) + 1) mod 1440).
Proof.
  intros Hsel Hglob.
  pose proof (hourSelection_in_range g Hsel) as Hhs.
  pose proof (time_increment_in_range g Hglob) as Hinc.
  split; [exact Hhs|].
  split; [|split; [|split; [exact Hinc|split]]].
  - unfold time_menu.
    destruct (press (hourSelection g) =? p_bt1_s); [exact Hhs|].
    destruct (press (hourSelection g) =? p_bt1_l); [|exact Hhs].
    cbn. destruct (HorM (hourSelection g) =? 0); exact Hhs.
  - assert (Hg : globalTime (hourSelection g) = globalTime g).
    { unfold hourSelection.
      repeat match goal with |- context [if ?c then _ else _] => destruct c end;
        reflexivity. }
    unfold time_menu.
    destruct (press (hourSelection g) =? p_bt1_s); [exact Hhs|].
    destruct (press (hourSelection g) =? p_bt1_l); [|rewrite Hg; exact Hglob].
    cbn. destruct (HorM (hourSelection g) =? 0); cbn; rewrite Hg; exact Hglob.
  - unfold time_task, time_reset, time_in_range in *.
    destruct (globalTime (time_increment g)) as [ih im] eqn:Ei.
    cbn [hours minutes] in Hinc. cbn [hours minutes].
    repeat case_if; gsimpl; rewrite ?Ei; cbn [hours minutes set_minutes];
      bool_to_prop; lia.
  - unfold time_in_range in Hsel, Hglob.
    destruct (timeSelected g) as [h m] eqn:Et.
    destruct (globalTime g) as [gh gm] eqn:Eg. gsimpl in Hsel. gsimpl in Hglob.
    split; [|split; [|split]].
    + intros HM Hp. unfold hourSelection. rewrite HM. cbn [Z.eqb].
      replace ((press g =? p_bt2_s) || (press g =? p_bt2_r)) with true
        by (destruct Hp as [-> | ->]; reflexivity).
      rewrite Et. gsimpl.
      case_if; gsimpl; bool_to_prop.
      * subst h. reflexivity.
      * unfold wrap8. rewrite !Z.mod_small by lia. reflexivity.
    + intros HM Hp. unfold hourSelection.
      apply Z.eqb_neq in HM. rewrite HM, Hp. cbn [Z.eqb p_bt2_s Pos.eqb].
      rewrite Et. gsimpl. unfold wrap8. rewrite (Z.mod_small (m + 1) 256) by lia.
      case_if; gsimpl; bool_to_prop.
      * rewrite mod_once by lia. lia.
      * rewrite Z.mod_small by lia. reflexivity.
    + intros HM Hp. unfold hourSelection.
      apply Z.eqb_neq in HM. rewrite HM, Hp. cbn [Z.eqb p_bt2_s p_bt2_r Pos.eqb].
      rewrite Et. gsimpl. unfold wrap8. rewrite (Z.mod_small (m + 5) 256) by lia.
      case_if; gsimpl; bool_to_prop.
      * rewrite (Z.mod_small (m + 5 - 60) 256) by lia. rewrite mod_once by lia. lia.
      * rewrite Z.mod_small by lia. reflexivity.
    + intros Hs. unfold time_increment. rewrite Hs.
      change (59 >=? 59) with true. gsimpl. rewrite Eg. gsimpl.
      case_if; gsimpl; [case_if; gsimpl|]; bool_to_prop; unfold wrap8.
      * subst. reflexivity.
      * rewrite (Z.mod_small (gh + 1) 256) by lia.
        rewrite Z.mod_small by lia. lia.
      * rewrite (Z.mod_small (gm + 1) 256) by lia.
        rewrite Z.mod_small by lia. lia.
Qed.

Lemma time_fields_stay_in_range_witness :
  let g := set_press p_bt2_s (set_HorM 1 (set_timeSelected (mkTIME 23 59) (clock_at 23 59 59))) in
  timeSelected (hourSelection g) = mkTIME 23 0
  /\ time_in_range (timeSelected (hourSelection g))
  /\ time_in_range (globalTime (time_task 0 g)).
Proof.
  intros g.
  assert (H0 : time_in_range (timeSelected g)) by (unfold time_in_range; simpl; lia).
  assert (H1 : time_in_range (globalTime g)) by (unfold time_in_range; simpl; lia).
  destruct (time_fields_stay_in_range g 0 H0 H1) as (Ha & _ & _ & _ & Hb & _).
  split; [reflexivity|]. split; [exact Ha|]. apply Hb. right. lia.
Defined.

(** C9, the claim as it was stated, refuted.  The local time is 12:10:05
    and the RTC gives the minute 165: the tick leaves 12:165.  Nothing
    wraps and nothing is rejected. *)
Lemma time_task_copies_rtc_minute :
  time_in_range (globalTime (clock_at 12 10 5))
  /\ globalTime (time_task 165 (clock_at 12 10 5)) = mkTIME 12 165
  /\ ~ time_in_range (globalTime (time_task 165 (clock_at 12 10 5))).
Proof.
  split; [unfold time_in_range; simpl; lia|].
  split; [reflexivity|].
  change (globalTime (time_task 165 (clock_at 12 10 5))) with (mkTIME 12 165).
  unfold time_in_range. cbn [hours minutes]. lia.
Qed.

(** ** Lamps *)

Lemma digitalWrite_same (pin level : Z) (p : Pins) :
  digitalWrite pin level p pin = level.
Proof. unfold digitalWrite. rewrite Z.eqb_refl. reflexivity. Qed.

(** What [lamp_task] does to the output of an enabled lamp: level 0
    (lamp on) in the three cases tested by the code, level 1 (lamp off)
    in the off hour from the off minute on, and no write at all at any
    other time. *)
Lemma lamp_body_output (i : nat) (g : Globals) :
  l_active (lamps g !!! i) <> 0 ->
  pins (lamp_body i g) (lampPin !!! i) =
    (if ((hours (globalTime g) =? hours (onH (lamps g !!! i)))
         && (minutes (onH (lamps g !!! i)) >=? minutes (globalTime g)))
        || ((hours (globalTime g) >? hours (onH (lamps g !!! i)))
            && (hours (globalTime g) <? hours (offH (lamps g !!! i))))
        || ((hours (globalTime g) =? hours (offH (lamps g !!! i)))
            && (minutes (globalTime g) <? minutes (offH (lamps g !!! i))))
     then 0
     else if hours (globalTime g) =? hours (offH (lamps g !!! i)) then 1
     else pins g (lampPin !!! i)).
Proof.
  intros Hact. apply Z.eqb_neq in Hact.
  unfold lamp_body. rewrite Hact. cbn [negb].
  destruct ((hours (globalTime g) =? hours (onH (lamps g !!! i)))
            && (minutes (onH (lamps g !!! i)) >=? minutes (globalTime g)));
    cbn [orb]; [unfold lamp_switch_on; gsimpl; apply digitalWrite_same|].
  destruct ((hours (globalTime g) >? hours (onH (lamps g !!! i)))
            && (hours (globalTime g) <? hours (offH (lamps g !!! i))));
    cbn [orb]; [unfold lamp_switch_on; gsimpl; apply digitalWrite_same|].
  destruct (hours (globalTime g) =? hours (offH (lamps g !!! i))); cbn [andb];
    [|reflexivity].
  destruct (minutes (globalTime g) <? minutes (offH (lamps g !!! i)));
    [unfold lamp_switch_on | unfold lamp_switch_off]; gsimpl; apply digitalWrite_same.
Qed.

(** C1, the code at failing inputs.  Lamp 0 is enabled from 08:30 to
    22:00 and its output is on pin 7.  At 08:10, before the on time, the
    task switches the lamp on (level 0) although it was off; at 08:45,
    inside the window, it leaves the lamp off (level 1); at 23:00, after
    the off time, it leaves the lamp on.  The window of the
    specification says off, on and off. *)
Theorem lamp_task_misses_window :
  spec_lamp_window lamp_0830_2200 (mkTIME 8 10) = false
  /\ pins (lamp_task (lamp_scene lamp_0830_2200 (mkTIME 8 10) 1)) 7 = 0
  /\ spec_lamp_window lamp_0830_2200 (mkTIME 8 45) = true
  /\ pins (lamp_task (lamp_scene lamp_0830_2200 (mkTIME 8 45) 1)) 7 = 1
  /\ spec_lamp_window lamp_0830_2200 (mkTIME 23 0) = false
  /\ pins (lamp_task (lamp_scene lamp_0830_2200 (mkTIME 23 0) 0)) 7 = 0.
Proof. vm_compute. repeat split. Qed.

(** ** Pump *)

(** Once the global latch [buseFlag] is set, an iteration of [buse_task]
    neither energises the pump nor clears the latch: the only store in
    the branch meant to clear it goes to the local [buseflag]. *)
Lemma buse_task_latched (buseflag : Z) (g : Globals) :
  buseFlag g <> 0 ->
  buseFlag (fst (fst (buse_task buseflag g))) = buseFlag g
  /\ activates (snd (buse_task buseflag g)) = false.
Proof.
  intros H. apply Z.eqb_neq in H. unfold buse_task.
  rewrite H, andb_false_r. split; reflexivity.
Qed.

Lemma buse_run_latched (clock : list TIME) (buseflag : Z) (g : Globals) :
  buseFlag g <> 0 ->
  buseFlag (fst (fst (buse_run clock buseflag g))) = buseFlag g
  /\ existsb activates (snd (buse_run clock buseflag g)) = false.
Proof.
  revert buseflag g; induction clock as [|now clock IH]; intros buseflag g H;
    [split; reflexivity|].
  cbn [buse_run].
  destruct (buse_task_latched buseflag (set_globalTime now g) H) as [Hf Ha].
  destruct (buse_task buseflag (set_globalTime now g)) as [[g1 f1] acts].
  cbn [fst snd] in Hf, Ha. gsimpl in Hf.
  assert (H1 : buseFlag g1 <> 0) by (rewrite Hf; exact H).
  destruct (IH f1 g1 H1) as [Hf2 Ha2].
  destruct (buse_run clock f1 g1) as [[g2 f2] more].
  cbn [fst snd existsb] in *. rewrite Ha, Ha2, Hf2, Hf. split; reflexivity.
Qed.

(** C5, the code at the failing input.  The pump is enabled for 5
    seconds with the window 08:00 to 21:00, and the task runs over two
    days.  The first iteration, at 08:00, energises the pump, sleeps 5000
    ms and releases it.  No later iteration energises it, the one at
    08:00 of the second day included, and the latch [buseFlag] is still
    set at the end. *)
Theorem buse_task_fires_once_ever :
  nth 0 (snd (buse_run (one_day ++ one_day) 0 pump_scene)) [] =
    [DigitalWrite busePin 0; Sleep 5000; DigitalWrite busePin 1; Sleep 10000]
  /\ map activates (snd (buse_run (one_day ++ one_day) 0 pump_scene)) =
       true :: replicate 19 false
  /\ nth 10 (one_day ++ one_day) zero_TIME = mkTIME 8 0
  /\ buseFlag (fst (fst (buse_run (one_day ++ one_day) 0 pump_scene))) = 1.
Proof. vm_compute. repeat split. Qed.

(** ** Persistence *)

Lemma EEPROM_put_length (bs : list Z) (a : nat) (e : list Z) :
  length (EEPROM_put a bs e) = length e.
Proof.
  revert a e; induction bs as [|b bs IH]; intros a e; [reflexivity|].
  cbn [EEPROM_put]. rewrite IH. unfold EEPROM_update. apply length_insert.
Qed.

(** [EEPROM.put] leaves the bytes outside of the object alone. *)
Lemma EEPROM_read_put_other (bs : list Z) (a i : nat) (e : list Z) :
  (i < a \/ a + length bs <= i)%nat ->
  EEPROM_read (EEPROM_put a bs e) i = EEPROM_read e i.
Proof.
  revert a e; induction bs as [|b bs IH]; intros a e Hi; [reflexivity|].
  cbn [EEPROM_put length] in *. rewrite IH by lia.
  unfold EEPROM_read, EEPROM_update.
  apply list_lookup_total_insert_ne. lia.
Qed.

Lemma EEPROM_get_put_other (bs : list Z) (a a' n : nat) (e : list Z) :
  (a' + n <= a \/ a + length bs <= a')%nat ->
  EEPROM_get a' n (EEPROM_put a bs e) = EEPROM_get a' n e.
Proof.
  intros H. unfold EEPROM_get. apply map_ext_in. intros i Hi.
  apply in_seq in Hi. apply EEPROM_read_put_other. lia.
Qed.

(** [EEPROM.get] after [EEPROM.put] at the same address gives the bytes
    written. *)
Lemma EEPROM_get_put_same (bs : list Z) (a : nat) (e : list Z) :
  (a + length bs <= length e)%nat ->
  EEPROM_get a (length bs) (EEPROM_put a bs e) = map wrap8 bs.
Proof.
  revert a e; induction bs as [|b bs IH]; intros a e H; [reflexivity|].
  cbn [EEPROM_put length] in *. unfold EEPROM_get in *. cbn [seq map].
  f_equal.
  - rewrite EEPROM_read_put_other by lia.
    unfold EEPROM_read, EEPROM_update.
    apply list_lookup_total_insert_eq. lia.
  - apply IH. unfold EEPROM_update. rewrite length_insert. lia.
Qed.

Lemma wrap8_byte (x : Z) : 0 <= x < 256 -> wrap8 x = x.
Proof. intros H. unfold wrap8. apply Z.mod_small. exact H. Qed.

Lemma LAMP_of_bytes_bytes (l : LAMP) :
  LAMP_in_range l -> LAMP_of_bytes (map wrap8 (LAMP_bytes l)) = l.
Proof.
  destruct l as [[h1 m1] [h2 m2] a]. unfold LAMP_in_range, time_in_range. gsimpl.
  intros H. unfold LAMP_of_bytes, LAMP_bytes, TIME_bytes, TIME_at.
  cbn. rewrite !wrap8_byte by lia. reflexivity.
Qed.

Lemma BUSE_of_bytes_bytes (b : BUSE) :
  BUSE_in_range b -> BUSE_of_bytes (map wrap8 (BUSE_bytes b)) = b.
Proof.
  destruct b as [t [h1 m1] [h2 m2] a]. unfold BUSE_in_range, time_in_range. gsimpl.
  intros H. unfold BUSE_of_bytes, BUSE_bytes, TIME_bytes, TIME_at.
  cbn. rewrite !wrap8_byte by lia. reflexivity.
Qed.

Lemma EXTRAS_of_bytes_bytes (x : EXTRAS) :
  EXTRAS_in_range x -> EXTRAS_of_bytes (map wrap8 (EXTRAS_bytes x)) = x.
Proof.
  destruct x as [n t ts a]. unfold EXTRAS_in_range. gsimpl.
  intros (Hn & Ht & Hlen & Hts & Ha).
  do 10 (destruct ts as [|[? ?] ts]; [discriminate Hlen|]).
  destruct ts; [|discriminate Hlen].
  repeat match goal with
         | H : Forall _ (_ :: _) |- _ =>
             apply Forall_cons in H; destruct H as [[? ?] H]
         end.
  gsimpl in *.
  unfold EXTRAS_of_bytes, EXTRAS_bytes, TIME_bytes, TIME_at.
  cbn. rewrite !wrap8_byte by lia. reflexivity.
Qed.

Lemma get_LAMP_put (a : nat) (l : LAMP) (e : list Z) :
  (a + 5 <= length e)%nat -> LAMP_in_range l ->
  get_LAMP a (EEPROM_put a (LAMP_bytes l) e) = l.
Proof.
  intros Ha Hl. unfold get_LAMP.
  change sizeof_LAMP with (length (LAMP_bytes l)).
  rewrite EEPROM_get_put_same by exact Ha. apply LAMP_of_bytes_bytes, Hl.
Qed.

Lemma get_BUSE_put (a : nat) (b : BUSE) (e : list Z) :
  (a + 6 <= length e)%nat -> BUSE_in_range b ->
  get_BUSE a (EEPROM_put a (BUSE_bytes b) e) = b.
Proof.
  intros Ha Hb. unfold get_BUSE.
  change sizeof_BUSE with (length (BUSE_bytes b)).
  rewrite EEPROM_get_put_same by exact Ha. apply BUSE_of_bytes_bytes, Hb.
Qed.

Lemma get_EXTRAS_put (a : nat) (x : EXTRAS) (e : list Z) :
  (a + 23 <= length e)%nat -> EXTRAS_in_range x ->
  get_EXTRAS a (EEPROM_put a (EXTRAS_bytes x) e) = x.
Proof.
  intros Ha Hx. unfold get_EXTRAS.
  change sizeof_EXTRAS with (length (EXTRAS_bytes x)).
  rewrite EEPROM_get_put_same by exact Ha. apply EXTRAS_of_bytes_bytes, Hx.
Qed.

Lemma check_LAMP_in_range (l : LAMP) : LAMP_in_range l -> check_LAMP l = l.
Proof.
  intros (_ & _ & H). unfold check_LAMP.
  case_if; bool_to_prop; [lia | reflexivity].
Qed.

Lemma check_BUSE_in_range (b : BUSE) : BUSE_in_range b -> check_BUSE b = b.
Proof.
  intros (H1 & _ & _ & H2). unfold check_BUSE.
  case_if; bool_to_prop; [|reflexivity].
  match goal with H : _ \/ _ |- _ => destruct H; bool_to_prop; lia end.
Qed.

Lemma check_EXTRAS_in_range (x : EXTRAS) : EXTRAS_in_range x -> check_EXTRAS x = x.
Proof.
  intros (H1 & H2 & _ & _ & H3). unfold check_EXTRAS.
  case_if; bool_to_prop; [|reflexivity].
  repeat match goal with H : _ \/ _ |- _ => destruct H; bool_to_prop end; lia.
Qed.

(** What a save leaves in the EEPROM: the marker and the records of the
    lamps, the pump and the mist maker; nothing of the bubbler. *)
Lemma saveToEEPROM_eeprom (g : Globals) :
  eeprom (saveToEEPROM g) =
  EEPROM_put brume_addr (EXTRAS_bytes (brume g))
    (EEPROM_put buse_addr (BUSE_bytes (buse g))
       (EEPROM_put (lamp_addr 2) (LAMP_bytes (lamps g !!! 2%nat))
          (EEPROM_put (lamp_addr 1) (LAMP_bytes (lamps g !!! 1%nat))
             (EEPROM_put (lamp_addr 0) (LAMP_bytes (lamps g !!! 0%nat))
                (EEPROM_put 0 [2] (eeprom g)))))).
Proof. reflexivity. Qed.

(** What a load puts in the configuration. *)
Lemma restoreFromEEPROM_config (g : Globals) :
  lamps (restoreFromEEPROM g) =
    <[2%nat := check_LAMP (get_LAMP (lamp_addr 2) (eeprom g))]>
      (<[1%nat := check_LAMP (get_LAMP (lamp_addr 1) (eeprom g))]>
         (<[0%nat := check_LAMP (get_LAMP (lamp_addr 0) (eeprom g))]> (lamps g)))
  /\ buse (restoreFromEEPROM g) = check_BUSE (get_BUSE buse_addr (eeprom g))
  /\ brume (restoreFromEEPROM g) = check_EXTRAS (get_EXTRAS brume_addr (eeprom g))
  /\ bulles (restoreFromEEPROM g) = check_EXTRAS (get_EXTRAS bulles_addr (eeprom g)).
Proof. repeat split; reflexivity. Qed.

(** [setup] when the marker is the expected one: the four device
    variables are what the load makes of the bytes of the EEPROM. *)
Lemma setup_marker_match (now : TIME) (e : list Z) :
  EEPROM_read e 0 = 2 ->
  exists g,
    setup true now e = Some g
    /\ menu g = m_off
    /\ lamps g = [check_LAMP (get_LAMP (lamp_addr 0) e);
                  check_LAMP (get_LAMP (lamp_addr 1) e);
                  check_LAMP (get_LAMP (lamp_addr 2) e)]
    /\ buse g = check_BUSE (get_BUSE buse_addr e)
    /\ brume g = check_EXTRAS (get_EXTRAS brume_addr e)
    /\ bulles g = check_EXTRAS (get_EXTRAS bulles_addr e).
Proof.
  intros H. unfold setup.
  cbn [eeprom seed_config set_buse set_lamps set_globalTime reset_globals].
  rewrite H. cbn [Z.eqb Pos.eqb negb].
  eexists. split; [reflexivity|]. repeat split.
Qed.

(** [setup] when the marker is another byte: the EEPROM is not read any
    further, and the configuration is the seeded one. *)
Lemma setup_marker_mismatch (now : TIME) (e : list Z) :
  EEPROM_read e 0 <> 2 ->
  exists g,
    setup true now e = Some g
    /\ menu g = m_setup
    /\ lamps g = [zero_LAMP; mkLAMP (mkTIME 8 0) (mkTIME 22 0) 0; zero_LAMP]
    /\ buse g = mkBUSE 5 (mkTIME 8 0) (mkTIME 21 0) 0
    /\ brume g = zero_EXTRAS
    /\ bulles g = zero_EXTRAS.
Proof.
  intros H. apply Z.eqb_neq in H. unfold setup.
  cbn [eeprom seed_config set_buse set_lamps set_globalTime reset_globals].
  rewrite H. cbn [negb].
  eexists. split; [reflexivity|]. repeat split.
Qed.

(** What a save leaves in [bulles]: the bytes found in the EEPROM. *)
Lemma saveToEEPROM_bulles (g : Globals) :
  bulles (saveToEEPROM g) = get_EXTRAS bulles_addr (eeprom (saveToEEPROM g)).
Proof. unfold saveToEEPROM. cbn [fold_left save_lamp]. gsimpl. reflexivity. Qed.

(** X16.  A save followed by a boot brings back the lamps, the pump and
    the mist maker of an in-range configuration.  The bubbler is not saved:
    the save replaces it in memory by what the EEPROM held, and the boot
    loads that. *)
Lemma save_then_load_other_devices (g : Globals) (now : TIME) :
  (68 <= length (eeprom g))%nat ->
  length (lamps g) = 3%nat ->
  Forall LAMP_in_range (lamps g) ->
  BUSE_in_range (buse g) ->
  EXTRAS_in_range (brume g) ->
  exists g',
    setup true now (eeprom (saveToEEPROM g)) = Some g'
    /\ lamps g' = lamps g /\ buse g' = buse g /\ brume g' = brume g
    /\ bulles g' = check_EXTRAS (get_EXTRAS bulles_addr (eeprom g))
    /\ bulles (saveToEEPROM g) = get_EXTRAS bulles_addr (eeprom g).
Proof.
  intros Hlen Hl3 Hlamps Hbuse Hbrume.
  destruct (lamps g) as [|l0 [|l1 [|l2 [|? ?]]]] eqn:El; try discriminate Hl3.
  apply Forall_cons in Hlamps as [Hl0 Hlamps].
  apply Forall_cons in Hlamps as [Hl1 Hlamps].
  apply Forall_cons in Hlamps as [Hl2 _].
  pose proof (saveToEEPROM_eeprom g) as Ee. rewrite El in Ee.
  change ([l0; l1; l2] !!! 0%nat) with l0 in Ee.
  change ([l0; l1; l2] !!! 1%nat) with l1 in Ee.
  change ([l0; l1; l2] !!! 2%nat) with l2 in Ee.
  set (e0 := EEPROM_put 0 [2] (eeprom g)) in Ee.
  set (e1 := EEPROM_put (lamp_addr 0) (LAMP_bytes l0) e0) in Ee.
  set (e2 := EEPROM_put (lamp_addr 1) (LAMP_bytes l1) e1) in Ee.
  set (e3 := EEPROM_put (lamp_addr 2) (LAMP_bytes l2) e2) in Ee.
  set (e4 := EEPROM_put buse_addr (BUSE_bytes (buse g)) e3) in Ee.
  assert (L0 : length e0 = length (eeprom g)) by apply EEPROM_put_length.
  assert (L1 : length e1 = length (eeprom g))
    by (unfold e1; rewrite EEPROM_put_length; exact L0).
  assert (L2 : length e2 = length (eeprom g))
    by (unfold e2; rewrite EEPROM_put_length; exact L1).
  assert (L3 : length e3 = length (eeprom g))
    by (unfold e3; rewrite EEPROM_put_length; exact L2).
  assert (L4 : length e4 = length (eeprom g))
    by (unfold e4; rewrite EEPROM_put_length; exact L3).
  set (e5 := eeprom (saveToEEPROM g)) in *.
  assert (Emark : EEPROM_read e5 0 = 2).
  { rewrite Ee. unfold e4, e3, e2, e1.
    do 5 rewrite EEPROM_read_put_other by addr_lia.
    unfold e0, EEPROM_put, EEPROM_update, EEPROM_read.
    rewrite list_lookup_total_insert_eq by lia. reflexivity. }
  assert (G0 : get_LAMP (lamp_addr 0) e5 = l0).
  { rewrite Ee. unfold get_LAMP, e4, e3, e2.
    do 4 rewrite EEPROM_get_put_other by addr_lia.
    apply get_LAMP_put; [rewrite L0; addr_lia | exact Hl0]. }
  assert (G1 : get_LAMP (lamp_addr 1) e5 = l1).
  { rewrite Ee. unfold get_LAMP, e4, e3.
    do 3 rewrite EEPROM_get_put_other by addr_lia.
    apply get_LAMP_put; [rewrite L1; addr_lia | exact Hl1]. }
  assert (G2 : get_LAMP (lamp_addr 2) e5 = l2).
  { rewrite Ee. unfold get_LAMP, e4.
    do 2 rewrite EEPROM_get_put_other by addr_lia.
    apply get_LAMP_put; [rewrite L2; addr_lia | exact Hl2]. }
  assert (G3 : get_BUSE buse_addr e5 = buse g).
  { rewrite Ee. unfold get_BUSE.
    rewrite EEPROM_get_put_other by addr_lia.
    apply get_BUSE_put; [rewrite L3; addr_lia | exact Hbuse]. }
  assert (G4 : get_EXTRAS brume_addr e5 = brume g).
  { rewrite Ee. apply get_EXTRAS_put; [rewrite L4; addr_lia | exact Hbrume]. }
  assert (G5 : get_EXTRAS bulles_addr e5 = get_EXTRAS bulles_addr (eeprom g)).
  { rewrite Ee. unfold get_EXTRAS, e4, e3, e2, e1, e0.
    do 6 rewrite EEPROM_get_put_other by addr_lia. reflexivity. }
  destruct (setup_marker_match now e5 Emark) as (g' & Es & _ & Rl & Rb & Rm & Ru).
  exists g'. split; [exact Es|].
  split; [|split; [|split; [|split]]].
  - rewrite Rl, G0, G1, G2, !check_LAMP_in_range by assumption. reflexivity.
  - rewrite Rb, G3. apply check_BUSE_in_range, Hbuse.
  - rewrite Rm, G4. apply check_EXTRAS_in_range, Hbrume.
  - rewrite Ru, G5. reflexivity.
  - rewrite saveToEEPROM_bulles. exact G5.
Qed.

(** C2, the code at the failing input.  The configuration holds an
    in-range bubbler (one trigger at 08:00, 5 minutes, enabled) and the
    EEPROM is erased.  The save overwrites the bubbler in memory with the
    bytes of the EEPROM, all 255, and the boot that follows loads a
    disabled bubbler without trigger: the save reads [bulles] where it
    should write it. *)
Theorem save_then_load_loses_bulles :
  bulles configured = bulles_0800
  /\ EXTRAS_in_range bulles_0800
  /\ bulles (saveToEEPROM configured) =
       mkEXTRAS 255 255 (replicate 10 (mkTIME 255 255)) 255
  /\ option_map bulles (setup true (mkTIME 12 0) (eeprom (saveToEEPROM configured))) =
       Some (mkEXTRAS 0 0 (replicate 10 (mkTIME 255 255)) 0).
Proof.
  split; [reflexivity|]. split.
  - unfold EXTRAS_in_range, bulles_0800. cbn.
    split; [lia|]. split; [lia|]. split; [reflexivity|]. split; [|lia].
    repeat (constructor; [unfold time_in_range; cbn; lia|]).
    constructor.
  - split; vm_compute; reflexivity.
Qed.

Lemma EEPROM_get_insert_other (a n k : nat) (v : Z) (e : list Z) :
  (k < a \/ a + n <= k)%nat ->
  EEPROM_get a n (<[k := v]> e) = EEPROM_get a n e.
Proof.
  intros H. unfold EEPROM_get. apply map_ext_in. intros i Hi.
  apply in_seq in Hi. unfold EEPROM_read.
  apply list_lookup_total_insert_ne. lia.
Qed.

Lemma check_LAMP_invalid (l : LAMP) :
  1 < l_active l -> check_LAMP l = mkLAMP (onH l) (offH l) 0.
Proof.
  intros H. unfold check_LAMP. case_if; bool_to_prop; [reflexivity | lia].
Qed.

Lemma check_BUSE_invalid (b : BUSE) :
  1 < b_active b -> check_BUSE b = mkBUSE 0 (startH b) (stopH b) 0.
Proof.
  intros H. unfold check_BUSE.
  replace (b_active b >? 1) with true; [reflexivity|].
  symmetry. rewrite Z.gtb_ltb. apply Z.ltb_lt, H.
Qed.

Lemma check_EXTRAS_invalid (x : EXTRAS) :
  1 < active x -> check_EXTRAS x = mkEXTRAS 0 0 (times x) 0.
Proof.
  intros H. unfold check_EXTRAS.
  replace (active x >? 1) with true; [reflexivity|].
  symmetry. rewrite Z.gtb_ltb. apply Z.ltb_lt, H.
Qed.

(** A load after one byte of the EEPROM was overwritten, in terms of
    the records read. *)
Lemma restoreFromEEPROM_corrupt (a : nat) (v : Z) (g : Globals) :
  lamps (restoreFromEEPROM (corrupt a v g)) =
    <[2%nat := check_LAMP (get_LAMP (lamp_addr 2) (<[a := v]> (eeprom g)))]>
      (<[1%nat := check_LAMP (get_LAMP (lamp_addr 1) (<[a := v]> (eeprom g)))]>
         (<[0%nat := check_LAMP (get_LAMP (lamp_addr 0) (<[a := v]> (eeprom g)))]>
            (lamps g)))
  /\ buse (restoreFromEEPROM (corrupt a v g)) =
       check_BUSE (get_BUSE buse_addr (<[a := v]> (eeprom g)))
  /\ brume (restoreFromEEPROM (corrupt a v g)) =
       check_EXTRAS (get_EXTRAS brume_addr (<[a := v]> (eeprom g)))
  /\ bulles (restoreFromEEPROM (corrupt a v g)) =
       check_EXTRAS (get_EXTRAS bulles_addr (<[a := v]> (eeprom g))).
Proof. repeat split; reflexivity. Qed.

Lemma get_LAMP_insert_other (a k : nat) (v : Z) (e : list Z) :
  (k < a \/ a + 5 <= k)%nat -> get_LAMP a (<[k := v]> e) = get_LAMP a e.
Proof. intros H. unfold get_LAMP. rewrite EEPROM_get_insert_other by exact H. reflexivity. Qed.

Lemma get_BUSE_insert_other (a k : nat) (v : Z) (e : list Z) :
  (k < a \/ a + 6 <= k)%nat -> get_BUSE a (<[k := v]> e) = get_BUSE a e.
Proof. intros H. unfold get_BUSE. rewrite EEPROM_get_insert_other by exact H. reflexivity. Qed.

Lemma get_EXTRAS_insert_other (a k : nat) (v : Z) (e : list Z) :
  (k < a \/ a + 23 <= k)%nat -> get_EXTRAS a (<[k := v]> e) = get_EXTRAS a e.
Proof. intros H. unfold get_EXTRAS. rewrite EEPROM_get_insert_other by exact H. reflexivity. Qed.

(** C6 (as amended).  A record whose enabled flag is stored as a byte
    above 1 is loaded as follows: a lamp with its flag cleared and its on
    and off times as stored; the pump with its flag and its run duration
    both reset to 0 and its window as stored; the mist maker and the
    bubbler with flag, count and duration all reset to 0 and the trigger
    times as stored.  Whatever byte [v] is stored as the flag of one
    record, the other records are loaded as without it. *)
Theorem restore_resets_invalid_record (g : Globals) (v : Z) :
  length (lamps g) = 3%nat ->
  (forall i, (i < 3)%nat ->
     1 < l_active (get_LAMP (lamp_addr i) (eeprom g)) ->
     lamps (restoreFromEEPROM g) !! i =
       Some (mkLAMP (onH (get_LAMP (lamp_addr i) (eeprom g)))
               (offH (get_LAMP (lamp_addr i) (eeprom g))) 0))
  /\ (1 < b_active (get_BUSE buse_addr (eeprom g)) ->
      buse (restoreFromEEPROM g) =
        mkBUSE 0 (startH (get_BUSE buse_addr (eeprom g)))
          (stopH (get_BUSE buse_addr (eeprom g))) 0)
  /\ (1 < active (get_EXTRAS brume_addr (eeprom g)) ->
      brume (restoreFromEEPROM g) =
        mkEXTRAS 0 0 (times (get_EXTRAS brume_addr (eeprom g))) 0)
  /\ (1 < active (get_EXTRAS bulles_addr (eeprom g)) ->
      bulles (restoreFromEEPROM g) =
        mkEXTRAS 0 0 (times (get_EXTRAS bulles_addr (eeprom g))) 0)
  /\ (forall i j, (i < 3)%nat -> (j < 3)%nat -> i <> j ->
      lamps (restoreFromEEPROM (corrupt (lamp_flag_addr i) v g)) !! j =
      lamps (restoreFromEEPROM g) !! j)
  /\ (forall i, (i < 3)%nat ->
      buse (restoreFromEEPROM (corrupt (lamp_flag_addr i) v g)) = buse (restoreFromEEPROM g)
      /\ brume (restoreFromEEPROM (corrupt (lamp_flag_addr i) v g)) = brume (restoreFromEEPROM g)
      /\ bulles (restoreFromEEPROM (corrupt (lamp_flag_addr i) v g)) = bulles (restoreFromEEPROM g))
  /\ (lamps (restoreFromEEPROM (corrupt buse_flag_addr v g)) = lamps (restoreFromEEPROM g)
      /\ brume (restoreFromEEPROM (corrupt buse_flag_addr v g)) = brume (restoreFromEEPROM g)
      /\ bulles (restoreFromEEPROM (corrupt buse_flag_addr v g)) = bulles (restoreFromEEPROM g))
  /\ (lamps (restoreFromEEPROM (corrupt brume_flag_addr v g)) = lamps (restoreFromEEPROM g)
      /\ buse (restoreFromEEPROM (corrupt brume_flag_addr v g)) = buse (restoreFromEEPROM g)
      /\ bulles (restoreFromEEPROM (corrupt brume_flag_addr v g)) = bulles (restoreFromEEPROM g))
  /\ (lamps (restoreFromEEPROM (corrupt bulles_flag_addr v g)) = lamps (restoreFromEEPROM g)
      /\ buse (restoreFromEEPROM (corrupt bulles_flag_addr v g)) = buse (restoreFromEEPROM g)
      /\ brume (restoreFromEEPROM (corrupt bulles_flag_addr v g)) = brume (restoreFromEEPROM g)).
Proof.
  intros Hl3.
  destruct (lamps g) as [|l0 [|l1 [|l2 [|? ?]]]] eqn:El; try discriminate Hl3.
  assert (Three : forall x0 x1 x2 : LAMP,
             <[2%nat := x2]> (<[1%nat := x1]> (<[0%nat := x0]> [l0; l1; l2])) = [x0; x1; x2])
    by reflexivity.
  destruct (restoreFromEEPROM_config g) as (Rl & Rb & Rm & Ru).
  rewrite El, Three in Rl.
  assert (C : forall a,
             lamps (restoreFromEEPROM (corrupt a v g)) =
               [check_LAMP (get_LAMP (lamp_addr 0) (<[a := v]> (eeprom g)));
                check_LAMP (get_LAMP (lamp_addr 1) (<[a := v]> (eeprom g)));
                check_LAMP (get_LAMP (lamp_addr 2) (<[a := v]> (eeprom g)))]
             /\ buse (restoreFromEEPROM (corrupt a v g)) =
                  check_BUSE (get_BUSE buse_addr (<[a := v]> (eeprom g)))
             /\ brume (restoreFromEEPROM (corrupt a v g)) =
                  check_EXTRAS (get_EXTRAS brume_addr (<[a := v]> (eeprom g)))
             /\ bulles (restoreFromEEPROM (corrupt a v g)) =
                  check_EXTRAS (get_EXTRAS bulles_addr (<[a := v]> (eeprom g)))).
  { intros a. destruct (restoreFromEEPROM_corrupt a v g) as (Cl & Cb & Cm & Cu).
    rewrite El, Three in Cl. repeat split; assumption. }
  rewrite Rl, Rb, Rm, Ru.
  split; [|split; [|split; [|split; [|split; [|split; [|split; [|split]]]]]]].
  - intros i Hi Hflag.
    destruct i as [|[|[|i]]]; [| | |lia];
      cbn [lookup list_lookup]; rewrite check_LAMP_invalid by exact Hflag; reflexivity.
  - intros Hflag. apply check_BUSE_invalid, Hflag.
  - intros Hflag. apply check_EXTRAS_invalid, Hflag.
  - intros Hflag. apply check_EXTRAS_invalid, Hflag.
  - intros i j Hi Hj Hij. destruct (C (lamp_flag_addr i)) as (-> & _).
    destruct i as [|[|[|i]]]; [| | |lia];
      (destruct j as [|[|[|j]]]; [| | |lia]); try contradiction;
      cbn [lookup list_lookup];
      rewrite get_LAMP_insert_other by addr_lia; reflexivity.
  - intros i Hi. destruct (C (lamp_flag_addr i)) as (_ & -> & -> & ->).
    destruct i as [|[|[|i]]]; [| | |lia];
      rewrite get_BUSE_insert_other, !get_EXTRAS_insert_other by addr_lia;
      repeat split.
  - destruct (C buse_flag_addr) as (-> & _ & -> & ->).
    rewrite !get_LAMP_insert_other, !get_EXTRAS_insert_other by addr_lia.
    repeat split.
  - destruct (C brume_flag_addr) as (-> & -> & _ & ->).
    rewrite !get_LAMP_insert_other, get_BUSE_insert_other, get_EXTRAS_insert_other
      by addr_lia.
    repeat split.
  - destruct (C bulles_flag_addr) as (-> & -> & -> & _).
    rewrite !get_LAMP_insert_other, get_BUSE_insert_other, get_EXTRAS_insert_other
      by addr_lia.
    repeat split.
Qed.

Lemma restore_resets_invalid_record_witness :
  buse (restoreFromEEPROM (reset_globals pump_flag_7)) =
    mkBUSE 0 (mkTIME 8 0) (mkTIME 21 0) 0.
Proof.
  assert (H3 : length (lamps (reset_globals pump_flag_7)) = 3%nat) by reflexivity.
  assert (H7 : 1 < b_active (get_BUSE buse_addr (eeprom (reset_globals pump_flag_7))))
    by (vm_compute; reflexivity).
  pose proof (restore_resets_invalid_record (reset_globals pump_flag_7) 0 H3) as H.
  destruct H as (_ & Hb & _).
  rewrite (Hb H7). vm_compute. reflexivity.
Defined.

(** C6 as stated fails: the pump record stored with a run duration of 5
    and an enabled flag of 7 is loaded with a run duration of 0. *)
Lemma restore_flag_7_resets_duration :
  b_tOn (get_BUSE buse_addr pump_flag_7) = 5
  /\ b_active (get_BUSE buse_addr pump_flag_7) = 7
  /\ b_tOn (buse (restoreFromEEPROM (reset_globals pump_flag_7))) <> 5.
Proof. vm_compute. repeat split. discriminate. Qed.

(** C8.  At boot with a running RTC: when the byte at address 0 of the
    EEPROM is not the marker 2, the configuration is the seeded one
    whatever the EEPROM holds, and the menu is [m_setup], so that the
    first iteration of [menu_task] runs [setup_menu]; when the byte is 2,
    the lamps, the pump, the mist maker and the bubbler are the records
    read from the EEPROM, as checked by the load, and the menu is [m_off]. *)
Theorem setup_marker_gate (now : TIME) (e : list Z) :
  (EEPROM_read e 0 <> 2 ->
   exists g,
     setup true now e = Some g
     /\ menu g = m_setup
     /\ menu_task g = setup_menu g
     /\ lamps g = [zero_LAMP; mkLAMP (mkTIME 8 0) (mkTIME 22 0) 0; zero_LAMP]
     /\ buse g = mkBUSE 5 (mkTIME 8 0) (mkTIME 21 0) 0
     /\ brume g = zero_EXTRAS
     /\ bulles g = zero_EXTRAS)
  /\ (EEPROM_read e 0 = 2 ->
      exists g,
        setup true now e = Some g
        /\ menu g = m_off
        /\ lamps g = [check_LAMP (get_LAMP (lamp_addr 0) e);
                      check_LAMP (get_LAMP (lamp_addr 1) e);
                      check_LAMP (get_LAMP (lamp_addr 2) e)]
        /\ buse g = check_BUSE (get_BUSE buse_addr e)
        /\ brume g = check_EXTRAS (get_EXTRAS brume_addr e)
        /\ bulles g = check_EXTRAS (get_EXTRAS bulles_addr e)).
Proof.
  split; intros H.
  - destruct (setup_marker_mismatch now e H) as (g & Hs & Hm & Hc).
    exists g. split; [exact Hs|]. split; [exact Hm|]. split; [|exact Hc].
    unfold menu_task. rewrite Hm. reflexivity.
  - exact (setup_marker_match now e H).
Qed.

Lemma setup_marker_gate_witness :
  (exists g, setup true (mkTIME 12 0) erased = Some g /\ menu g = m_setup)
  /\ (exists g, setup true (mkTIME 12 0) (eeprom (saveToEEPROM configured)) = Some g
                /\ menu g = m_off).
Proof.
  split.
  - assert (H : EEPROM_read erased 0 <> 2) by (vm_compute; discriminate).
    destruct (proj1 (setup_marker_gate (mkTIME 12 0) erased) H) as (g & Hs & Hm & _).
    exists g. split; assumption.
  - assert (H : EEPROM_read (eeprom (saveToEEPROM configured)) 0 = 2)
      by (vm_compute; reflexivity).
    destruct (proj2 (setup_marker_gate (mkTIME 12 0) (eeprom (saveToEEPROM configured))) H)
      as (g & Hs & Hm & _).
    exists g. split; assumption.
Defined.

(** ** Menu of the multi-event devices *)

Section MultiEventMenu.

(** The device the menu is about. *)
Variable x : Extra.

Lemma menu_task_extra (g : Globals) :
  menu g = extra_menu_id x -> menu_task g = extra_menu x g.
Proof. intros H. unfold menu_task. rewrite H. destruct x; reflexivity. Qed.

(** The first sub-state with something configured: button 1 confirms
    the choice, "edit" (0) or "add" (1). *)
Lemma extra_menu_choice (g : Globals) :
  subMenu g = 0 -> nbr (thing x g) <> 0 -> press g = p_bt1_s ->
  extra_menu x g =
    set_subMenu (wrap8 (0 + (setupVal g + 1))) (set_press p_none (set_nbr_setup 1 g)).
Proof.
  intros Hs Hn Hp. apply Z.eqb_neq in Hn. unfold extra_menu.
  rewrite Hn. cbn [andb]. cbv zeta. rewrite Hs. cbv iota beta. gsimpl.
  rewrite Hp, Hs. reflexivity.
Qed.

(** The "add" sub-state when the ten slots are taken. *)
Lemma extra_menu_add_full (g : Globals) :
  subMenu g = 2 -> nbr (thing x g) = 10 -> extra_menu x g = set_subMenu 6 g.
Proof.
  intros Hs Hn. unfold extra_menu. rewrite Hs, Hn.
  cbn [Z.eqb Pos.eqb andb]. cbv zeta. rewrite Hs, Hn. reflexivity.
Qed.

(** The "memory full" sub-state. *)
Lemma extra_menu_full (g : Globals) :
  subMenu g = 6 ->
  extra_menu x g =
    if (press g =? p_bt1_s) || (press g =? p_bt2_s)
    then leave_to_setup (set_HorM 0 (set_press p_none g))
    else g.
Proof.
  intros Hs. unfold extra_menu. rewrite Hs.
  rewrite andb_false_r. cbv zeta. rewrite Hs. reflexivity.
Qed.

(** C7.  On a multi-event device whose count is 10: confirming "add"
    in the first sub-state leads to the "add" sub-state (2); there the
    next iteration of the menu task changes nothing but the sub-state,
    which becomes "memory full" (6), so that the count stays 10 and no
    trigger is stored; and from "memory full" an iteration either leaves
    everything as it is, or (on a short press of either button) goes to
    the menu [m_setup] with the cursor reset and the device untouched. *)
Theorem extra_menu_add_when_full :
  (forall g, menu g = extra_menu_id x -> subMenu g = 0 -> setupVal g = 1 ->
             press g = p_bt1_s -> nbr (thing x g) = 10 ->
             subMenu (menu_task g) = 2
             /\ menu (menu_task g) = extra_menu_id x
             /\ thing x (menu_task g) = thing x g)
  /\ (forall g, menu g = extra_menu_id x -> subMenu g = 2 -> nbr (thing x g) = 10 ->
                menu_task g = set_subMenu 6 g
                /\ nbr (thing x (menu_task g)) = 10
                /\ thing x (menu_task g) = thing x g)
  /\ (forall g, menu g = extra_menu_id x -> subMenu g = 6 ->
                (press g = p_bt1_s \/ press g = p_bt2_s ->
                 menu (menu_task g) = m_setup /\ subMenu (menu_task g) = 0
                 /\ thing x (menu_task g) = thing x g)
                /\ (press g <> p_bt1_s -> press g <> p_bt2_s -> menu_task g = g)).
Proof.
  split; [|split].
  - intros g Hm Hs Hv Hp Hn.
    rewrite menu_task_extra by exact Hm.
    rewrite extra_menu_choice by (try assumption; lia).
    rewrite Hv. gsimpl.
    split; [reflexivity|]. split; [exact Hm | destruct x; reflexivity].
  - intros g Hm Hs Hn.
    rewrite menu_task_extra by exact Hm.
    rewrite extra_menu_add_full by assumption.
    assert (E : thing x (set_subMenu 6 g) = thing x g) by (destruct x; reflexivity).
    rewrite E. repeat split. exact Hn.
  - intros g Hm Hs.
    rewrite menu_task_extra by exact Hm.
    rewrite extra_menu_full by exact Hs. split.
    + intros Hp.
      replace ((press g =? p_bt1_s) || (press g =? p_bt2_s)) with true
        by (destruct Hp as [-> | ->]; reflexivity).
      repeat split.
    + intros H1 H2. apply Z.eqb_neq in H1, H2. rewrite H1, H2. reflexivity.
Qed.

(** The state in which [extra_menu] puts the cursor when it is entered
    at its first sub-state on a device without trigger. *)
Lemma extra_menu_entry (g : Globals) :
  subMenu g = 0 -> nbr (thing x g) = 0 ->
  extra_menu x g =
    extra_menu x (set_setupVal (tOn (thing x g)) (set_nbr_setup 59 (set_subMenu 3 g))).
Proof.
  intros Hs Hn.
  assert (E : thing x (set_setupVal (tOn (thing x g)) (set_nbr_setup 59 (set_subMenu 3 g)))
              = thing x g) by (destruct x; reflexivity).
  unfold extra_menu. rewrite E, Hs, Hn. gsimpl.
  cbn [Z.eqb Pos.eqb andb]. reflexivity.
Qed.

(** The duration sub-state. *)
Lemma extra_menu_duration (g : Globals) :
  subMenu g = 3 ->
  extra_menu x g =
    if (press g =? p_bt2_s) || (press g =? p_bt2_r) then
      set_press p_none (next_setupVal g)
    else if press g =? p_bt2_l then set_setupVal 0 (set_press p_none g)
    else if press g =? p_bt1_s then
      set_subMenu 4
        (set_thing x
           (mkEXTRAS (nbr (thing x g)) (setupVal g) (times (thing x g)) (active (thing x g)))
           (set_press p_none g))
    else if press g =? p_bt1_l then
      set_menu m_setup (set_setupVal 0 (set_press p_none g))
    else g.
Proof.
  intros Hs. unfold extra_menu. rewrite Hs, andb_false_r. cbv zeta. rewrite Hs.
  cbv iota beta.
  repeat case_if; try reflexivity.
  destruct x; gsimpl; rewrite Hs; reflexivity.
Qed.

(** The "active?" sub-state on a short press of button 1. *)
Lemma extra_menu_active_commit (g : Globals) :
  subMenu g = 4 -> press g = p_bt1_s ->
  extra_menu x g =
    if negb (active (thing x g) =? 0) && (nbr (thing x g) =? 0)
    then set_subMenu 2
           (set_timeSelected (times (thing x g) !!! Z.to_nat (choosed g))
              (set_press p_none g))
    else leave_to_setup
           (set_timeSelected (times (thing x g) !!! Z.to_nat (choosed g))
              (set_press p_none g)).
Proof.
  intros Hs Hp. unfold extra_menu. rewrite Hs, andb_false_r. cbv zeta. rewrite Hs.
  cbv iota beta. rewrite Hp. cbn [Z.eqb Pos.eqb p_bt1_s p_bt2_s].
  destruct x; reflexivity.
Qed.

(** The "add" sub-state when a slot is free. *)
Lemma extra_menu_add_free (g : Globals) :
  subMenu g = 2 -> nbr (thing x g) < 10 ->
  extra_menu x g =
    set_timeSelected (mkTIME 8 0)
      (set_subMenu 5
         (set_thing x
            (mkEXTRAS (wrap8 (nbr (thing x g) + 1)) (tOn (thing x g))
               (times (thing x g)) (active (thing x g)))
            (set_choosed (nbr (thing x g)) g))).
Proof.
  intros Hs Hn. apply Z.ltb_lt in Hn.
  unfold extra_menu. rewrite Hs, andb_false_r. cbv zeta. rewrite Hs.
  cbv iota beta. rewrite Hn.
  destruct x; gsimpl; rewrite Hs; reflexivity.
Qed.

(** The time sub-state edits [timeSelected] with [hourSelection]. *)
Lemma extra_menu_time (g : Globals) :
  subMenu g = 5 -> timeSelected (extra_menu x g) = timeSelected (hourSelection g).
Proof.
  intros Hs. unfold extra_menu. rewrite Hs, andb_false_r. cbv zeta. rewrite Hs.
  cbv iota beta.
  repeat case_if; try reflexivity; destruct x; try reflexivity;
    unfold back_one_step; case_if; reflexivity.
Qed.

(** C10.  When the menu of a multi-event device is entered at its first
    sub-state and the device has no trigger, the iteration of the menu
    task behaves as if the cursor were already on the duration sub-state
    (3) with the scratch value [setupVal] preset to the stored duration
    and its maximum [nbr_setup] to 59: the choice between editing and
    adding is never offered, and with no press pending the iteration does
    nothing else.  From the duration sub-state, a short press of button 2
    steps the scratch value and wraps it after 59, and a short press of
    button 1 stores it as the duration and moves to the "active?"
    sub-state (4).  There, with the device active and its count still 0,
    a short press of button 1 moves to the "add" sub-state (2), where the
    next iteration takes slot 0 (the count becomes 1), presets the time to
    08:00 and moves to the time sub-state (5), which edits that time with
    [hourSelection]. *)
Theorem extra_menu_first_configuration :
  (forall g, menu g = extra_menu_id x -> subMenu g = 0 -> nbr (thing x g) = 0 ->
     menu_task g =
       menu_task (set_setupVal (tOn (thing x g)) (set_nbr_setup 59 (set_subMenu 3 g)))
     /\ (subMenu (menu_task g) = 3 \/ subMenu (menu_task g) = 4)
     /\ (press g = p_none ->
         menu_task g = set_setupVal (tOn (thing x g)) (set_nbr_setup 59 (set_subMenu 3 g))))
  /\ (forall g, menu g = extra_menu_id x -> subMenu g = 3 -> nbr_setup g = 59 ->
        press g = p_bt2_s ->
        setupVal (menu_task g) = (if setupVal g =? 59 then 0 else wrap8 (setupVal g + 1))
        /\ subMenu (menu_task g) = 3)
  /\ (forall g, menu g = extra_menu_id x -> subMenu g = 3 -> press g = p_bt1_s ->
        subMenu (menu_task g) = 4
        /\ tOn (thing x (menu_task g)) = setupVal g
        /\ nbr (thing x (menu_task g)) = nbr (thing x g)
        /\ active (thing x (menu_task g)) = active (thing x g)
        /\ menu (menu_task g) = extra_menu_id x)
  /\ (forall g, menu g = extra_menu_id x -> subMenu g = 4 -> press g = p_bt1_s ->
        active (thing x g) <> 0 -> nbr (thing x g) = 0 ->
        subMenu (menu_task g) = 2
        /\ thing x (menu_task g) = thing x g
        /\ menu (menu_task g) = extra_menu_id x)
  /\ (forall g, menu g = extra_menu_id x -> subMenu g = 2 -> nbr (thing x g) = 0 ->
        nbr (thing x (menu_task g)) = 1
        /\ choosed (menu_task g) = 0
        /\ subMenu (menu_task g) = 5
        /\ timeSelected (menu_task g) = mkTIME 8 0
        /\ menu (menu_task g) = extra_menu_id x)
  /\ (forall g, menu g = extra_menu_id x -> subMenu g = 5 ->
        timeSelected (menu_task g) = timeSelected (hourSelection g)).
Proof.
  split; [|split; [|split; [|split; [|split]]]].
  - intros g Hm Hs Hn.
    set (g' := set_setupVal (tOn (thing x g)) (set_nbr_setup 59 (set_subMenu 3 g))).
    assert (Hm' : menu g' = extra_menu_id x) by exact Hm.
    assert (Hs' : subMenu g' = 3) by reflexivity.
    assert (E : menu_task g = extra_menu x g').
    { rewrite menu_task_extra by exact Hm. apply extra_menu_entry; assumption. }
    split; [rewrite E, menu_task_extra by exact Hm'; reflexivity|].
    rewrite E, extra_menu_duration by exact Hs'.
    split.
    + unfold next_setupVal.
      repeat case_if; gsimpl; auto.
    + intros Hp. change (press g') with (press g). rewrite Hp. reflexivity.
  - intros g Hm Hs Hmax Hp.
    rewrite menu_task_extra, extra_menu_duration by assumption.
    rewrite Hp. cbn [Z.eqb Pos.eqb p_bt2_s orb].
    unfold next_setupVal. rewrite Hmax.
    case_if; gsimpl; split; auto.
  - intros g Hm Hs Hp.
    rewrite menu_task_extra, extra_menu_duration by assumption.
    rewrite Hp. cbn [Z.eqb Pos.eqb p_bt1_s p_bt2_s p_bt2_r p_bt2_l orb].
    destruct x; gsimpl; repeat split; exact Hm.
  - intros g Hm Hs Hp Ha Hn.
    rewrite menu_task_extra, extra_menu_active_commit by assumption.
    apply Z.eqb_neq in Ha. rewrite Ha, Hn. cbn [Z.eqb negb andb].
    destruct x; gsimpl; repeat split; exact Hm.
  - intros g Hm Hs Hn.
    rewrite menu_task_extra, extra_menu_add_free by (try assumption; lia).
    rewrite Hn. destruct x; gsimpl; repeat split; exact Hm.
  - intros g Hm Hs.
    rewrite menu_task_extra by exact Hm. apply extra_menu_time, Hs.
Qed.

End MultiEventMenu.

Lemma extra_menu_add_when_full_witness :
  subMenu (menu_task brume_full_add) = 2
  /\ subMenu (menu_task (menu_task brume_full_add)) = 6
  /\ nbr (brume (menu_task (menu_task brume_full_add))) = 10.
Proof.
  destruct (extra_menu_add_when_full Brume) as (H1 & H2 & _).
  destruct (H1 brume_full_add eq_refl eq_refl eq_refl eq_refl eq_refl) as (Ha & Hb & Hc).
  split; [exact Ha|].
  destruct (H2 (menu_task brume_full_add) Hb Ha (eq_trans (f_equal nbr Hc) eq_refl))
    as (Hd & He & _).
  split; [rewrite Hd; reflexivity | exact He].
Defined.

Lemma extra_menu_first_configuration_witness :
  subMenu (menu_task brume_first_entry) = 3
  /\ setupVal (menu_task brume_first_entry) = tOn (brume brume_first_entry)
  /\ nbr_setup (menu_task brume_first_entry) = 59
  /\ nbr (brume (menu_task (set_subMenu 2 brume_first_entry))) = 1
  /\ subMenu (menu_task (set_subMenu 2 brume_first_entry)) = 5.
Proof.
  destruct (extra_menu_first_configuration Brume) as (HA & _ & _ & _ & HD & _).
  destruct (HA brume_first_entry eq_refl eq_refl eq_refl) as (_ & _ & Hnone).
  rewrite (Hnone eq_refl).
  destruct (HD (set_subMenu 2 brume_first_entry) eq_refl eq_refl eq_refl)
    as (Hn & _ & Hs & _).
  repeat split; assumption.
Defined.
(** * Further properties of the tasks, the persistence and the menus *)

(** ** More on the input classifier *)

Lemma button_poll_ok (ps pl pr level : Z) (b : BUTTON) :
  button_ok b -> button_ok (fst (fst (button_poll ps pl pr level b))).
Proof.
  unfold button_ok, button_poll. destruct b as [v m t]. cbn [val mode time].
  intros [(-> & -> & ->) | (-> & [(-> & Ht) | [(-> & Ht) | (-> & Ht)]])];
    cbn [Z.eqb Pos.eqb];
    repeat case_if; cbn [fst val mode time]; bool_to_prop;
    unfold wrap8; rewrite ?Z.mod_small by lia; lia.
Qed.

(** X1.  The state of each button stays among: released with mode and
    counter at 0, or held in mode 0 with the counter at 8 at most, in
    mode 1 with the counter from 9 to 20, in mode 3 with the counter from
    1 to 21.  Whatever the pins read, an iteration of [input_task] keeps
    both buttons there; the counter of a button held forever never comes
    near the 255 of its [uint8_t]. *)
Theorem input_task_keeps_buttons_ok (l1 l2 : Z) (g : Globals) :
  button_ok (bt1 g) -> button_ok (bt2 g) ->
  button_ok (bt1 (fst (input_task l1 l2 g)))
  /\ button_ok (bt2 (fst (input_task l1 l2 g)))
  /\ 0 <= time (bt1 (fst (input_task l1 l2 g))) <= 21
  /\ 0 <= time (bt2 (fst (input_task l1 l2 g))) <= 21.
Proof.
  intros H1 H2.
  pose proof (button_poll_ok p_bt1_s p_bt1_l p_bt1_r l1 (bt1 g) H1) as K1.
  pose proof (button_poll_ok p_bt2_s p_bt2_l p_bt2_r l2 (bt2 g) H2) as K2.
  unfold input_task.
  destruct (button_poll p_bt1_s p_bt1_l p_bt1_r l1 (bt1 g)) as [[b1 w1] d1].
  assert (E2 : bt2 (apply_led d1 (apply_press w1 (set_bt1 b1 g))) = bt2 g)
    by (destruct d1, w1; reflexivity).
  rewrite E2.
  destruct (button_poll p_bt2_s p_bt2_l p_bt2_r l2 (bt2 g)) as [[b2 w2] d2].
  cbn [fst] in *.
  assert (F1 : bt1 (apply_led d2 (apply_press w2
                 (set_bt2 b2 (apply_led d1 (apply_press w1 (set_bt1 b1 g)))))) = b1)
    by (destruct d2, w2, d1, w1; reflexivity).
  assert (F2 : bt2 (apply_led d2 (apply_press w2
                 (set_bt2 b2 (apply_led d1 (apply_press w1 (set_bt1 b1 g)))))) = b2)
    by (destruct d2, w2, d1, w1; reflexivity).
  rewrite F1, F2. unfold button_ok in K1, K2.
  repeat split; try assumption; lia.
Qed.

Lemma input_task_keeps_buttons_ok_witness :
  button_ok (bt1 (fst (input_task 0 1 (reset_globals []))))
  /\ button_ok (bt2 (fst (input_task 0 1 (reset_globals [])))).
Proof.
  assert (H : button_ok (mkBUTTON 0 0 0)) by (left; repeat split; reflexivity).
  destruct (input_task_keeps_buttons_ok 0 1 (reset_globals []) H H) as (A & B & _).
  split; assumption.
Defined.

(** X2.  [press] is a single slot and button 2 is treated last.  When
    both buttons are down and both are read released in the same
    iteration of [input_task], with button 2 in the short or the long
    mode, [press] holds the event of button 2 after the iteration, the
    short one in mode 0 and the long one in mode 1, whatever the mode of
    button 1 was: the event of button 1 is never seen.  Both buttons are
    back to their released state and the indicator is off. *)
Theorem input_task_button1_event_lost (g : Globals) :
  val (bt1 g) = 1 -> val (bt2 g) = 1 ->
  mode (bt2 g) = 0 \/ mode (bt2 g) = 1 ->
  press (fst (input_task 1 1 g)) = (if mode (bt2 g) =? 0 then p_bt2_s else p_bt2_l)
  /\ press (fst (input_task 1 1 g)) <> p_bt1_s
  /\ press (fst (input_task 1 1 g)) <> p_bt1_l
  /\ bt1 (fst (input_task 1 1 g)) = mkBUTTON 0 0 0
  /\ bt2 (fst (input_task 1 1 g)) = mkBUTTON 0 0 0
  /\ pins (fst (input_task 1 1 g)) 13 = 0.
Proof.
  intros H1 H2 Hm. unfold input_task, button_poll.
  rewrite H1. cbn [Z.eqb Pos.eqb].
  assert (E : forall w, val (bt2 (apply_led (Some 0) (apply_press w (set_bt1 (mkBUTTON 0 0 0) g))))
                        = 1) by (intros [w|]; exact H2).
  rewrite E. cbn [Z.eqb Pos.eqb].
  assert (M : forall w, mode (bt2 (apply_led (Some 0)
                                     (apply_press w (set_bt1 (mkBUTTON 0 0 0) g))))
                        = mode (bt2 g)) by (intros [w|]; reflexivity).
  rewrite !M.
  destruct Hm as [Hm | Hm]; rewrite Hm; cbn [Z.eqb Pos.eqb fst apply_press apply_led];
    destruct (mode (bt1 g) =? 0); [|destruct (mode (bt1 g) =? 1)| |destruct (mode (bt1 g) =? 1)];
    cbn [apply_press apply_led]; gsimpl;
    repeat split; try discriminate; apply digitalWrite_same.
Qed.

Lemma input_task_button1_event_lost_witness :
  let g := set_bt2 (mkBUTTON 1 1 15) (set_bt1 (mkBUTTON 1 0 3) (reset_globals [])) in
  press (fst (input_task 1 1 g)) = p_bt2_l.
Proof.
  intros g.
  destruct (input_task_button1_event_lost g eq_refl eq_refl (or_intror eq_refl)) as (E & _).
  rewrite E. reflexivity.
Defined.

Lemma button_poll_held_led (ps pl pr : Z) (n : nat) :
  snd (button_poll ps pl pr 0 (hold_state n)) =
    if (n =? 9)%nat then Some 1 else if (n =? 21)%nat then Some 0 else None.
Proof.
  destruct (Nat.lt_ge_cases n 23) as [Hlt | Hge].
  - do 23 (destruct n as [|n]; [vm_compute; reflexivity|]). lia.
  - unfold hold_state.
    assert (E1 : ((n =? 0) = false)%nat) by (apply Nat.eqb_neq; lia).
    assert (E2 : ((n <=? 9) = false)%nat) by (apply Nat.leb_gt; lia).
    assert (E3 : ((n <=? 21) = false)%nat) by (apply Nat.leb_gt; lia).
    assert (E4 : ((n =? 22) = false)%nat) by (apply Nat.eqb_neq; lia).
    assert (E5 : ((n =? 9) = false)%nat) by (apply Nat.eqb_neq; lia).
    assert (E6 : ((n =? 21) = false)%nat) by (apply Nat.eqb_neq; lia).
    rewrite E1, E2, E3, E4, E5, E6.
    unfold button_poll; cbn [val mode time].
    change (1 =? 0) with false; change (0 =? 1) with false;
      change (3 =? 0) with false; change (3 =? 1) with false.
    destruct (_ >=? 5); reflexivity.
Qed.

Lemma input_run_app (l1 l2 : list (Z * Z)) (g : Globals) :
  fst (input_run (l1 ++ l2) g) = fst (input_run l2 (fst (input_run l1 g))).
Proof.
  revert g; induction l1 as [|[a b] l1 IH]; intros g; [reflexivity|].
  cbn [app input_run].
  destruct (input_task a b g) as [g1 ev]. specialize (IH g1).
  destruct (input_run (l1 ++ l2) g1) as [g2 evs].
  destruct (input_run l1 g1) as [g3 evs3]. cbn [fst] in *.
  destruct (input_run l2 g3) as [g4 evs4]. cbn [fst] in *. exact IH.
Qed.

Lemma input_run_hold_bt1 (n : nat) (g : Globals) :
  bt1 g = idle -> bt2 g = idle ->
  bt1 (fst (input_run (replicate n (0, 1)) g)) = hold_state n
  /\ bt2 (fst (input_run (replicate n (0, 1)) g)) = idle
  /\ pins (fst (input_run (replicate n (0, 1)) g)) 13 = led_level n (pins g 13).
Proof.
  intros H1 H2. induction n as [|n (I1 & I2 & I3)].
  - repeat split; assumption.
  - rewrite replicate_S_end, input_run_app.
    set (h := fst (input_run (replicate n (0, 1)) g)) in *.
    cbn [input_run fst]. unfold input_task. rewrite I1.
    destruct (button_poll_held p_bt1_s p_bt1_l p_bt1_r n) as [Hb _].
    pose proof (button_poll_held_led p_bt1_s p_bt1_l p_bt1_r n) as Hd.
    destruct (button_poll p_bt1_s p_bt1_l p_bt1_r 0 (hold_state n)) as [[b1 w1] d1].
    cbn [fst snd] in Hb, Hd. subst b1.
    assert (E2 : bt2 (apply_led d1 (apply_press w1 (set_bt1 (hold_state (S n)) h))) = idle)
      by (destruct d1, w1; exact I2).
    rewrite E2. cbn [button_poll idle val Z.eqb apply_led apply_press fst].
    cbn [bt1 bt2 pins set_bt2].
    split; [destruct d1, w1; reflexivity|].
    split; [reflexivity|].
    assert (E3 : pins (apply_led d1 (apply_press w1 (set_bt1 (hold_state (S n)) h))) 13
                 = match d1 with Some l => l | None => pins h 13 end)
      by (destruct d1, w1; reflexivity).
    rewrite E3, Hd, I3. unfold led_level.
    destruct (Nat.eq_dec n 9%nat) as [-> | N9]; [reflexivity|].
    destruct (Nat.eq_dec n 21%nat) as [-> | N21]; [reflexivity|].
    replace ((n =? 9)%nat) with false by (symmetry; apply Nat.eqb_neq; exact N9).
    replace ((n =? 21)%nat) with false by (symmetry; apply Nat.eqb_neq; exact N21).
    destruct (Nat.leb_spec n 9%nat), (Nat.leb_spec (S n) 9%nat); try lia; try reflexivity;
      destruct (Nat.leb_spec n 21%nat), (Nat.leb_spec (S n) 21%nat); try lia; reflexivity.
Qed.

(** X3.  The indicator on pin 13 while button 1 is held (button 2
    released): it is not written during the first 9 polls, it is at
    level 1 from poll 10 to poll 21, the polls whose release gives a long
    press, and at level 0 from poll 22 on, when the button repeats; the
    release of a held button always leaves it at level 0. *)
Theorem input_task_indicator (n : nat) (g : Globals) :
  bt1 g = idle -> bt2 g = idle ->
  pins (fst (input_run (replicate n (0, 1)) g)) 13 = led_level n (pins g 13)
  /\ ((1 <= n)%nat -> pins (fst (input_run (press_bt1 n) g)) 13 = 0).
Proof.
  intros H1 H2.
  destruct (input_run_hold_bt1 n g H1 H2) as (I1 & I2 & I3).
  split; [exact I3|]. intros Hn.
  unfold press_bt1, hold_release. rewrite map_app, input_run_app.
  replace (map (fun l : Z => (l, 1)) (replicate n 0)) with (replicate n (0, 1))
    by (clear; induction n as [|n IH]; [reflexivity | cbn; rewrite <- IH; reflexivity]).
  set (h := fst (input_run (replicate n (0, 1)) g)) in *.
  cbn [map input_run fst]. unfold input_task. rewrite I1.
  assert (Hv : val (hold_state n) = 1).
  { unfold hold_state.
    replace ((n =? 0)%nat) with false by (symmetry; apply Nat.eqb_neq; lia).
    repeat case_if; reflexivity. }
  unfold button_poll at 1. rewrite Hv. cbn [Z.eqb Pos.eqb].
  cbn [apply_led]. set (w := if mode (hold_state n) =? 0 then _ else _).
  assert (E2 : bt2 (pin_write 13 0 (apply_press w (set_bt1 {| val := 0; mode := 0; time := 0 |} h)))
               = idle) by (destruct w; exact I2).
  rewrite E2. cbn [button_poll idle val Z.eqb apply_led apply_press fst].
  destruct w; reflexivity.
Qed.

Lemma input_task_indicator_witness :
  pins (fst (input_run (replicate 12 (0, 1)) (reset_globals []))) 13 = 1
  /\ pins (fst (input_run (press_bt1 12) (reset_globals []))) 13 = 0.
Proof.
  destruct (input_task_indicator 12 (reset_globals []) eq_refl eq_refl) as [A B].
  split; [exact A | apply B; lia].
Defined.

(** ** More on the clock keeper *)

Lemma time_increment_second (g : Globals) :
  time_in_range (globalTime g) -> 0 <= sec g <= 59 ->
  total_seconds (time_increment g) = (total_seconds g + 1) mod 86400
  /\ time_in_range (globalTime (time_increment g))
  /\ 0 <= sec (time_increment g) <= 59.
Proof.
  unfold time_in_range, total_seconds, time_increment.
  destruct (globalTime g) as [h m] eqn:Et. gsimpl. intros [Hh Hm] Hs.
  repeat (gsimpl; rewrite ?Et; case_if); gsimpl; rewrite ?Et; gsimpl;
    bool_to_prop; unfold wrap8;
    rewrite ?(Z.mod_small (h + 1) 256), ?(Z.mod_small (m + 1) 256),
      ?(Z.mod_small (sec g + 1) 256) by lia;
    (split; [|lia]).
  - subst. replace (sec g) with 59 by lia. reflexivity.
  - rewrite Z.mod_small by lia. lia.
  - rewrite Z.mod_small by lia. lia.
  - rewrite Z.mod_small by lia. lia.
Qed.

(** X4.  The increment of [time_task] makes the local clock a counter
    of seconds modulo one day: from an in-range time with the seconds
    counter from 0 to 59, [n] ticks move the second of the day by [n]
    modulo 86400, and the time stays in range. *)
Theorem time_increment_counts_seconds (n : nat) (g : Globals) :
  time_in_range (globalTime g) -> 0 <= sec g <= 59 ->
  total_seconds (Nat.iter n time_increment g) = (total_seconds g + Z.of_nat n) mod 86400
  /\ time_in_range (globalTime (Nat.iter n time_increment g))
  /\ 0 <= sec (Nat.iter n time_increment g) <= 59.
Proof.
  intros Ht Hs. induction n as [|n (I1 & I2 & I3)].
  - change (Nat.iter 0 time_increment g) with g. split; [|split; assumption].
    rewrite Z.add_0_r, Z.mod_small; [reflexivity|].
    unfold total_seconds, time_in_range in *. lia.
  - change (Nat.iter (S n) time_increment g)
      with (time_increment (Nat.iter n time_increment g)).
    destruct (time_increment_second (Nat.iter n time_increment g) I2 I3) as (J1 & J2 & J3).
    split; [|split; assumption].
    rewrite J1, I1, Zplus_mod_idemp_l. f_equal. lia.
Qed.

Lemma time_increment_counts_seconds_witness :
  total_seconds (Nat.iter 61 time_increment (clock_at 23 59 30)) = 31.
Proof.
  assert (H0 : time_in_range (globalTime (clock_at 23 59 30)))
    by (unfold time_in_range; simpl; lia).
  assert (H1 : 0 <= sec (clock_at 23 59 30) <= 59) by (simpl; lia).
  destruct (time_increment_counts_seconds 61 (clock_at 23 59 30) H0 H1) as (E & _).
  rewrite E. reflexivity.
Defined.

(** X5.  After every tick of [time_task] the local minute is within one
    of the minute read from the RTC, whatever the two were before; the
    reset never touches the hour, so that the local hour is the one the
    increment gave. *)
Theorem time_task_minute_near_rtc (rtc_min : Z) (g : Globals) :
  Z.abs (minutes (globalTime (time_task rtc_min g)) - rtc_min) <= 1
  /\ hours (globalTime (time_task rtc_min g)) = hours (globalTime (time_increment g)).
Proof.
  unfold time_task, time_reset.
  set (h := time_increment g).
  repeat case_if; gsimpl; bool_to_prop; split; try reflexivity; lia.
Qed.

(** ** More on the lamps *)

Lemma lamp_body_frame (i : nat) (g : Globals) :
  lamps (lamp_body i g) = lamps g
  /\ globalTime (lamp_body i g) = globalTime g
  /\ (forall q, q <> lampPin !!! i -> pins (lamp_body i g) q = pins g q).
Proof.
  unfold lamp_body, lamp_switch_on, lamp_switch_off.
  repeat case_if; gsimpl; repeat split; try reflexivity;
    intros q Hq; unfold digitalWrite; apply Z.eqb_neq in Hq; rewrite Hq; reflexivity.
Qed.

Lemma lamp_task_pin (i : nat) (g : Globals) :
  (i < 3)%nat ->
  pins (lamp_task g) (lampPin !!! i) = pins (lamp_body i g) (lampPin !!! i).
Proof.
  intros Hi.
  unfold lamp_task. cbn [fold_left].
  set (g1 := lamp_body 0 g). set (g2 := lamp_body 1 g1). set (g3 := lamp_body 2 g2).
  destruct (lamp_body_frame 0 g) as (L1 & T1 & P1). fold g1 in L1, T1, P1.
  destruct (lamp_body_frame 1 g1) as (L2 & T2 & P2). fold g2 in L2, T2, P2.
  destruct (lamp_body_frame 2 g2) as (L3 & T3 & P3). fold g3 in L3, T3, P3.
  assert (E : pins (if lampNbr g3 =? 0 then pin_write ledFond 0 g3 else pin_write ledFond 1 g3)
                (lampPin !!! i) = pins g3 (lampPin !!! i)).
  { destruct i as [|[|[|i]]]; [| | |lia]; case_if; reflexivity. }
  rewrite E.
  assert (B : forall (j : nat) (h : Globals),
             lamps h = lamps g -> globalTime h = globalTime g ->
             pins h (lampPin !!! j) = pins g (lampPin !!! j) ->
             pins (lamp_body j h) (lampPin !!! j) = pins (lamp_body j g) (lampPin !!! j)).
  { intros j h Hl Ht Hp. unfold lamp_body, lamp_switch_on, lamp_switch_off.
    rewrite Hl, Ht. repeat case_if; gsimpl; rewrite ?digitalWrite_same; auto. }
  destruct i as [|[|[|i]]]; [| | |lia].
  - unfold g3. rewrite P3, P2 by (cbn; lia). reflexivity.
  - unfold g3. rewrite P3 by (cbn; lia). unfold g2.
    apply B; [exact L1 | exact T1 | apply P1; cbn; lia].
  - unfold g3. apply B.
    + rewrite L2. exact L1.
    + rewrite T2. exact T1.
    + rewrite P2, P1 by (cbn; lia). reflexivity.
Qed.

(** X6.  What an iteration of [lamp_task] leaves on the pin of each of
    the three lamps depends on the schedule of that lamp only: level 1
    (off) when the lamp is disabled; otherwise level 0 (on) in the on
    hour up to the on minute, in the hours strictly between the on hour
    and the off hour, and in the off hour before the off minute; level 1
    in the rest of the off hour; and the level the pin had at any other
    time. *)
Theorem lamp_task_output (i : nat) (g : Globals) :
  (i < 3)%nat ->
  pins (lamp_task g) (lampPin !!! i) =
    (if l_active (lamps g !!! i) =? 0 then 1
     else if ((hours (globalTime g) =? hours (onH (lamps g !!! i)))
              && (minutes (onH (lamps g !!! i)) >=? minutes (globalTime g)))
             || ((hours (globalTime g) >? hours (onH (lamps g !!! i)))
                 && (hours (globalTime g) <? hours (offH (lamps g !!! i))))
             || ((hours (globalTime g) =? hours (offH (lamps g !!! i)))
                 && (minutes (globalTime g) <? minutes (offH (lamps g !!! i))))
     then 0
     else if hours (globalTime g) =? hours (offH (lamps g !!! i)) then 1
     else pins g (lampPin !!! i)).
Proof.
  intros Hi. rewrite (lamp_task_pin i g Hi).
  destruct (l_active (lamps g !!! i) =? 0) eqn:Ea.
  - unfold lamp_body. rewrite Ea. gsimpl. apply digitalWrite_same.
  - apply lamp_body_output. apply Z.eqb_neq. exact Ea.
Qed.

Lemma lamp_task_output_witness :
  pins (lamp_task (lamp_scene lamp_0830_2200 (mkTIME 12 0) 1)) 7 = 0.
Proof.
  assert (H : (0 < 3)%nat) by lia.
  exact (lamp_task_output 0 (lamp_scene lamp_0830_2200 (mkTIME 12 0) 1) H).
Defined.

Lemma lamp_body_disabled (i : nat) (g : Globals) :
  l_active (lamps g !!! i) = 0 -> lamp_body i g = pin_write (lampPin !!! i) 1 g.
Proof.
  intros H. unfold lamp_body. rewrite H. reflexivity.
Qed.

(** X7.  A disabled lamp is switched off without its bit of [lampNbr]
    being cleared: with the three lamps disabled, an iteration of
    [lamp_task] puts the three lamp pins at level 1, leaves [lampNbr] as
    it was and writes level 1 to [ledFond] whenever [lampNbr] is not 0,
    level 0 otherwise. *)
Theorem lamp_task_all_disabled (g : Globals) :
  (forall i, (i < 3)%nat -> l_active (lamps g !!! i) = 0) ->
  pins (lamp_task g) 7 = 1 /\ pins (lamp_task g) 6 = 1 /\ pins (lamp_task g) 5 = 1
  /\ lampNbr (lamp_task g) = lampNbr g
  /\ pins (lamp_task g) ledFond = (if lampNbr g =? 0 then 0 else 1).
Proof.
  intros H.
  unfold lamp_task. cbn [fold_left].
  rewrite (lamp_body_disabled 0 g) by (apply H; lia).
  rewrite (lamp_body_disabled 1) by (apply H; lia).
  rewrite (lamp_body_disabled 2) by (apply H; lia).
  gsimpl. case_if; gsimpl; repeat split; reflexivity.
Qed.

Lemma lamp_task_all_disabled_witness :
  pins (lamp_task (set_lampNbr 1 (reset_globals []))) ledFond = 1.
Proof.
  assert (H : forall i, (i < 3)%nat ->
                l_active (lamps (set_lampNbr 1 (reset_globals [])) !!! i) = 0).
  { intros i Hi. destruct i as [|[|[|i]]]; [reflexivity | reflexivity | reflexivity | lia]. }
  destruct (lamp_task_all_disabled (set_lampNbr 1 (reset_globals [])) H) as (_ & _ & _ & _ & E).
  exact E.
Defined.

(** ** More on the pump *)

Lemma buse_task_step (buseflag : Z) (g : Globals) :
  buse (fst (fst (buse_task buseflag g))) = buse g
  /\ ((activates (snd (buse_task buseflag g)) = true
       /\ buseFlag (fst (fst (buse_task buseflag g))) = 1
       /\ buseFlag g = 0
       /\ buse_due (buse g) (globalTime g))
      \/ (activates (snd (buse_task buseflag g)) = false
          /\ buseFlag (fst (fst (buse_task buseflag g))) = buseFlag g)).
Proof.
  unfold buse_task, buse_due.
  repeat case_if; gsimpl; (split; [reflexivity|]);
    try (right; split; reflexivity).
  left. bool_to_prop. repeat split; auto; lia.
Qed.

Lemma existsb_false_filter {A} (p : A -> bool) (l : list A) :
  existsb p l = false -> List.filter p l = [].
Proof.
  induction l as [|a l IH]; [reflexivity|]. cbn [existsb List.filter].
  intros H. apply orb_false_iff in H as [Ha Hl]. rewrite Ha. exact (IH Hl).
Qed.

(** X8.  In a run of [buse_task], from any state and over any sequence
    of times of day, at most one iteration energises the pump. *)
Theorem buse_run_at_most_once (clock : list TIME) (buseflag : Z) (g : Globals) :
  (length (List.filter activates (snd (buse_run clock buseflag g))) <= 1)%nat.
Proof.
  revert buseflag g; induction clock as [|now clock IH]; intros buseflag g;
    [cbn; lia|].
  cbn [buse_run].
  destruct (buse_task_step buseflag (set_globalTime now g)) as (_ & Hstep).
  destruct (buse_task buseflag (set_globalTime now g)) as [[g1 f1] acts].
  cbn [fst snd] in Hstep.
  specialize (IH f1 g1).
  destruct Hstep as [(Ha & Hf & _) | (Ha & _)].
  - assert (H1 : buseFlag g1 <> 0) by (rewrite Hf; discriminate).
    destruct (buse_run_latched clock f1 g1 H1) as (_ & Hnone).
    destruct (buse_run clock f1 g1) as [[g2 f2] more]. cbn [snd] in *.
    cbn [List.filter]. rewrite Ha, (existsb_false_filter _ _ Hnone). cbn. lia.
  - destruct (buse_run clock f1 g1) as [[g2 f2] more]. cbn [snd] in *.
    cbn [List.filter]. rewrite Ha. exact IH.
Qed.

(** X9.  In a run of [buse_task], an iteration energises the pump only
    when it starts at a time at which the pump is due: the pump enabled,
    the hour within the start hour and the stop hour, the minute equal to
    the start minute.  A disabled pump is never energised. *)
Theorem buse_run_only_when_due (clock : list TIME) (buseflag : Z) (g : Globals) :
  Forall2 (fun now acts => activates acts = true -> buse_due (buse g) now)
    clock (snd (buse_run clock buseflag g)).
Proof.
  revert buseflag g; induction clock as [|now clock IH]; intros buseflag g;
    [constructor|].
  cbn [buse_run].
  destruct (buse_task_step buseflag (set_globalTime now g)) as (Hb & Hstep).
  destruct (buse_task buseflag (set_globalTime now g)) as [[g1 f1] acts].
  cbn [fst snd] in Hb, Hstep. gsimpl in Hb.
  specialize (IH f1 g1). rewrite Hb in IH.
  destruct (buse_run clock f1 g1) as [[g2 f2] more]. cbn [snd] in *.
  constructor; [|exact IH].
  intros Ha. destruct Hstep as [(_ & _ & _ & Hdue) | (Hn & _)].
  - gsimpl in Hdue. exact Hdue.
  - rewrite Hn in Ha. discriminate Ha.
Qed.

(** ** Mist maker and bubbler *)

Lemma TIME_eqb_eq (a b : TIME) : TIME_eqb a b = true <-> a = b.
Proof.
  destruct a as [h m], b as [h' m']. unfold TIME_eqb. cbn [hours minutes].
  rewrite andb_true_iff, !Z.eqb_eq. split.
  - intros [-> ->]. reflexivity.
  - intros E. injection E as -> ->. split; reflexivity.
Qed.

Lemma TIME_eqb_neq (a b : TIME) : TIME_eqb a b = false <-> a <> b.
Proof.
  rewrite <- TIME_eqb_eq. destruct (TIME_eqb a b); split; intros H;
    try discriminate; try reflexivity; contradiction H; reflexivity.
Qed.

Lemma bulles_body_eq (i : nat) (g : Globals) :
  bulles_body i g =
    let t := times (bulles g) !!! i in
    let g1 := if TIME_eqb (globalTime g) t then pin_write bullesPin 0 g else g in
    if TIME_eqb (globalTime g) (end_time t (tOn (bulles g)))
    then pin_write bullesPin 1 g1 else g1.
Proof.
  unfold bulles_body, end_time, TIME_eqb. cbv zeta.
  set (t := times (bulles g) !!! i).
  destruct (hours (globalTime g) =? hours t) eqn:E1;
    [destruct (minutes (globalTime g) =? minutes t) eqn:E2|]; gsimpl;
    destruct (minutes t + tOn (bulles g) >=? 60) eqn:E3; gsimpl;
    rewrite ?(Z.eqb_sym (hours t + 1)), ?(Z.eqb_sym (hours t) (hours (globalTime g))),
      ?(Z.eqb_sym (minutes t + tOn (bulles g) - 60)),
      ?(Z.eqb_sym (minutes t + tOn (bulles g)) (minutes (globalTime g)));
    rewrite ?E1;
    repeat match goal with |- context [?a =? ?b] => destruct (a =? b) end;
    reflexivity.
Qed.

Lemma bulles_body_no_match (i : nat) (g : Globals) :
  times (bulles g) !!! i <> globalTime g ->
  end_time (times (bulles g) !!! i) (tOn (bulles g)) <> globalTime g ->
  bulles_body i g = g.
Proof.
  intros H1 H2. rewrite bulles_body_eq. cbv zeta.
  replace (TIME_eqb (globalTime g) (times (bulles g) !!! i)) with false
    by (symmetry; apply TIME_eqb_neq; congruence).
  replace (TIME_eqb (globalTime g) (end_time (times (bulles g) !!! i) (tOn (bulles g))))
    with false by (symmetry; apply TIME_eqb_neq; congruence).
  reflexivity.
Qed.

(** X10.  The bubbler is switched on edges only.  With a count of
    triggers from 1 to 10, so that the loop stays inside the ten slots of
    [times]: when the time of day is neither one of the first [nbr]
    trigger times nor the end time of one of them, an iteration of
    [bulles_task] on an enabled bubbler changes nothing, the level of the
    output included. *)
Theorem bulles_task_holds (g : Globals) :
  length (times (bulles g)) = 10%nat ->
  1 <= nbr (bulles g) <= 10 -> active (bulles g) <> 0 ->
  (forall i, (i < Z.to_nat (nbr (bulles g)))%nat ->
     times (bulles g) !!! i <> globalTime g
     /\ end_time (times (bulles g) !!! i) (tOn (bulles g)) <> globalTime g) ->
  bulles_task g = g.
Proof.
  intros _ Hb Ha H. assert (Hn : nbr (bulles g) <> 0) by lia. clear Hb.
  unfold bulles_task.
  apply Z.eqb_neq in Hn, Ha. rewrite Hn, Ha. cbn [negb andb].
  assert (F : forall l : list nat,
             (forall i, In i l -> (i < Z.to_nat (nbr (bulles g)))%nat) ->
             fold_left (fun g i => bulles_body i g) l g = g).
  { induction l as [|i l IH]; intros Hl; [reflexivity|].
    cbn [fold_left].
    destruct (H i (Hl i (or_introl eq_refl))) as [H1 H2].
    rewrite bulles_body_no_match by assumption.
    apply IH. intros j Hj. apply Hl. right. exact Hj. }
  apply F. intros i Hi. apply in_seq in Hi. lia.
Qed.

Lemma bulles_task_single (g : Globals) :
  nbr (bulles g) = 1 -> active (bulles g) <> 0 -> bulles_task g = bulles_body 0 g.
Proof.
  intros Hn Ha. unfold bulles_task. apply Z.eqb_neq in Ha. rewrite Hn, Ha. reflexivity.
Qed.

(** X11.  An enabled bubbler with one trigger [t] and the duration [d]:
    an iteration of [bulles_task] that starts at the end time of the
    trigger puts the output at level 1 (off); one that starts at the
    trigger time, when that is not also the end time, puts it at level 0
    (on); any other iteration changes nothing.  The end time is [d]
    minutes after [t], in the next hour when the minutes reach 60. *)
Theorem bulles_task_single_trigger (g : Globals) :
  nbr (bulles g) = 1 -> active (bulles g) <> 0 ->
  (globalTime g = end_time (times (bulles g) !!! 0%nat) (tOn (bulles g)) ->
   pins (bulles_task g) bullesPin = 1)
  /\ (globalTime g = times (bulles g) !!! 0%nat ->
      globalTime g <> end_time (times (bulles g) !!! 0%nat) (tOn (bulles g)) ->
      pins (bulles_task g) bullesPin = 0)
  /\ (globalTime g <> times (bulles g) !!! 0%nat ->
      globalTime g <> end_time (times (bulles g) !!! 0%nat) (tOn (bulles g)) ->
      bulles_task g = g).
Proof.
  intros Hn Ha. rewrite (bulles_task_single g Hn Ha), bulles_body_eq. cbv zeta.
  split; [|split].
  - intros E. apply TIME_eqb_eq in E. rewrite E. case_if; reflexivity.
  - intros E N. apply TIME_eqb_eq in E. apply TIME_eqb_neq in N. rewrite E, N.
    reflexivity.
  - intros N1 N2. apply TIME_eqb_neq in N1, N2. rewrite N1, N2. reflexivity.
Qed.

(** X12.  The end time is not reduced modulo the day: when it is not a
    time of day (a trigger at 23:50 for 20 minutes ends at 24:10), no
    iteration of [bulles_task] at an in-range time switches the bubbler
    off: the output goes to level 0 at the trigger time and nothing
    changes at any other time. *)
Theorem bulles_task_never_off (g : Globals) :
  nbr (bulles g) = 1 -> active (bulles g) <> 0 ->
  time_in_range (globalTime g) ->
  ~ time_in_range (end_time (times (bulles g) !!! 0%nat) (tOn (bulles g))) ->
  (globalTime g = times (bulles g) !!! 0%nat -> pins (bulles_task g) bullesPin = 0)
  /\ (globalTime g <> times (bulles g) !!! 0%nat -> bulles_task g = g).
Proof.
  intros Hn Ha Hr He.
  assert (N : globalTime g <> end_time (times (bulles g) !!! 0%nat) (tOn (bulles g)))
    by (intros E; apply He; rewrite <- E; exact Hr).
  rewrite (bulles_task_single g Hn Ha), bulles_body_eq. cbv zeta.
  apply TIME_eqb_neq in N. rewrite N. split.
  - intros E. apply TIME_eqb_eq in E. rewrite E. reflexivity.
  - intros N1. apply TIME_eqb_neq in N1. rewrite N1. reflexivity.
Qed.

Lemma bulles_task_holds_witness :
  bulles_task (bulles_scene (mkTIME 8 0) 5 (mkTIME 8 3) 0) =
  bulles_scene (mkTIME 8 0) 5 (mkTIME 8 3) 0.
Proof.
  apply bulles_task_holds.
  - reflexivity.
  - simpl. lia.
  - simpl. lia.
  - intros i Hi. assert (i = 0%nat) as -> by (simpl in Hi; lia).
    split; vm_compute; discriminate.
Defined.

Lemma bulles_task_single_trigger_witness :
  pins (bulles_task (bulles_scene (mkTIME 8 0) 5 (mkTIME 8 5) 0)) bullesPin = 1.
Proof.
  assert (Ha : active (bulles (bulles_scene (mkTIME 8 0) 5 (mkTIME 8 5) 0)) <> 0)
    by (simpl; lia).
  destruct (bulles_task_single_trigger
              (bulles_scene (mkTIME 8 0) 5 (mkTIME 8 5) 0) eq_refl Ha) as (H & _).
  apply H. reflexivity.
Defined.

Lemma bulles_task_never_off_witness :
  bulles_task (bulles_scene (mkTIME 23 50) 20 (mkTIME 0 10) 0) =
  bulles_scene (mkTIME 23 50) 20 (mkTIME 0 10) 0.
Proof.
  assert (Ha : active (bulles (bulles_scene (mkTIME 23 50) 20 (mkTIME 0 10) 0)) <> 0)
    by (simpl; lia).
  assert (Hr : time_in_range (globalTime (bulles_scene (mkTIME 23 50) 20 (mkTIME 0 10) 0)))
    by (unfold time_in_range; simpl; lia).
  assert (He : ~ time_in_range
                 (end_time (times (bulles (bulles_scene (mkTIME 23 50) 20 (mkTIME 0 10) 0)) !!! 0%nat)
                    (tOn (bulles (bulles_scene (mkTIME 23 50) 20 (mkTIME 0 10) 0)))))
    by (unfold time_in_range; vm_compute; intros [[_ H] _]; apply H; reflexivity).
  destruct (bulles_task_never_off
              (bulles_scene (mkTIME 23 50) 20 (mkTIME 0 10) 0) eq_refl Ha Hr He) as (_ & H).
  apply H. vm_compute. discriminate.
Defined.

Lemma brume_task_single (g : Globals) :
  nbr (brume g) = 1 -> active (brume g) = 1 -> brume_task g = brume_body 0 g.
Proof.
  intros Hn Ha. unfold brume_task. rewrite Hn, Ha. reflexivity.
Qed.

Lemma brume_body_eq (i : nat) (g : Globals) :
  brume_body i g =
    let t := times (brume g) !!! i in
    let now := globalTime g in
    let g1 := if (hours t =? hours now) && (minutes t >=? minutes now)
              then pin_write brumePin 0 g else g in
    if (if minutes t + tOn (brume g) >=? 60
        then (hours t + 1 =? hours now)
             && (minutes now >=? minutes t + tOn (brume g) - 60)
        else (hours t >=? hours now) && (minutes now >=? minutes t + tOn (brume g)))
    then pin_write brumePin 1 g1 else g1.
Proof.
  unfold brume_body. cbv zeta.
  set (t := times (brume g) !!! i).
  destruct (hours t =? hours (globalTime g));
    [destruct (minutes t >=? minutes (globalTime g))|]; gsimpl;
    destruct (minutes t + tOn (brume g) >=? 60);
    repeat match goal with
           | |- context [?a =? ?b] => destruct (a =? b)
           | |- context [?a >=? ?b] => destruct (a >=? b)
           end;
    reflexivity.
Qed.

(** X13.  An enabled mist maker with one trigger [t] and a duration
    [d] above 0.  An iteration of
    [brume_task] puts the output at level 0 (on) during the whole
    trigger hour up to the trigger minute, that is before the trigger
    time too, and changes nothing in the rest of the trigger hour before
    the end minute.  It puts the output at level 1 (off): when the end
    falls in the trigger hour, at every minute from the end minute on, in
    the trigger hour and in every earlier hour of the day; when the end
    falls in the next hour, in that hour from the end minute on. *)
Theorem brume_task_single_trigger (g : Globals) :
  nbr (brume g) = 1 -> active (brume g) = 1 -> 0 < tOn (brume g) ->
  (hours (globalTime g) = hours (times (brume g) !!! 0%nat) ->
   minutes (globalTime g) <= minutes (times (brume g) !!! 0%nat) ->
   pins (brume_task g) brumePin = 0)
  /\ (hours (globalTime g) = hours (times (brume g) !!! 0%nat) ->
      minutes (times (brume g) !!! 0%nat) < minutes (globalTime g) ->
      minutes (globalTime g) < minutes (times (brume g) !!! 0%nat) + tOn (brume g) ->
      brume_task g = g)
  /\ (minutes (times (brume g) !!! 0%nat) + tOn (brume g) < 60 ->
      hours (globalTime g) <= hours (times (brume g) !!! 0%nat) ->
      minutes (times (brume g) !!! 0%nat) + tOn (brume g) <= minutes (globalTime g) ->
      pins (brume_task g) brumePin = 1)
  /\ (60 <= minutes (times (brume g) !!! 0%nat) + tOn (brume g) ->
      hours (globalTime g) = hours (times (brume g) !!! 0%nat) + 1 ->
      minutes (times (brume g) !!! 0%nat) + tOn (brume g) - 60 <= minutes (globalTime g) ->
      pins (brume_task g) brumePin = 1).
Proof.
  intros Hn Ha Hd. rewrite (brume_task_single g Hn Ha), brume_body_eq. cbv zeta.
  set (t := times (brume g) !!! 0%nat). set (now := globalTime g).
  split; [|split; [|split]]; intros;
    repeat match goal with
           | |- context [?a =? ?b] => destruct (Z.eqb_spec a b)
           | |- context [?a >=? ?b] => rewrite (Z.geb_leb a b); destruct (Z.leb_spec b a)
           end;
    cbn [andb]; gsimpl;
    try reflexivity; try apply digitalWrite_same; lia.
Qed.

Lemma brume_task_single_trigger_witness :
  pins (brume_task (brume_scene (mkTIME 8 30) 5 (mkTIME 8 0) 1)) brumePin = 0.
Proof.
  assert (Hd : 0 < tOn (brume (brume_scene (mkTIME 8 30) 5 (mkTIME 8 0) 1)))
    by (simpl; lia).
  destruct (brume_task_single_trigger
              (brume_scene (mkTIME 8 30) 5 (mkTIME 8 0) 1) eq_refl eq_refl Hd) as (H & _).
  apply H; simpl; lia.
Defined.

Lemma fold_pin_frame (body : nat -> Globals -> Globals) (pin : Z) (l : list nat) (g : Globals) :
  (forall i h, exists p, body i h = set_pins p h /\ forall q, q <> pin -> p q = pins h q) ->
  exists p, fold_left (fun g i => body i g) l g = set_pins p g
            /\ forall q, q <> pin -> p q = pins g q.
Proof.
  intros Hb. revert g; induction l as [|i l IH]; intros g.
  - exists (pins g). split; [destruct g; reflexivity | reflexivity].
  - cbn [fold_left]. destruct (Hb i g) as (p1 & E1 & F1).
    destruct (IH (body i g)) as (p2 & E2 & F2).
    exists p2. rewrite E2, E1. split; [reflexivity|].
    intros q Hq. rewrite F2 by exact Hq. rewrite E1. gsimpl. apply F1, Hq.
Qed.

Lemma pin_write_frame (pin level : Z) (h : Globals) :
  exists p, pin_write pin level h = set_pins p h /\ forall q, q <> pin -> p q = pins h q.
Proof.
  exists (digitalWrite pin level (pins h)). split; [reflexivity|].
  intros q Hq. unfold digitalWrite. apply Z.eqb_neq in Hq. rewrite Hq. reflexivity.
Qed.

Lemma id_frame (pin : Z) (h : Globals) :
  exists p, h = set_pins p h /\ forall q, q <> pin -> p q = pins h q.
Proof. exists (pins h). split; [destruct h; reflexivity | reflexivity]. Qed.

(** X14.  Whatever the configuration and the time, an iteration of
    [brume_task] changes nothing but the level of the mist maker's pin,
    and an iteration of [bulles_task] nothing but the level of the
    bubbler's pin: the other pins and every global variable are as
    before. *)
Theorem extras_tasks_frame (g : Globals) :
  (exists p, brume_task g = set_pins p g /\ forall q, q <> brumePin -> p q = pins g q)
  /\ (exists p, bulles_task g = set_pins p g /\ forall q, q <> bullesPin -> p q = pins g q).
Proof.
  split.
  - unfold brume_task. case_if; [|apply pin_write_frame].
    apply fold_pin_frame. intros i h. unfold brume_body. cbv zeta.
    repeat case_if; gsimpl;
      try apply id_frame; try apply pin_write_frame.
    all: exists (digitalWrite brumePin 1 (digitalWrite brumePin 0 (pins h)));
      (split; [reflexivity|]);
      intros q Hq; unfold digitalWrite; apply Z.eqb_neq in Hq; rewrite Hq; reflexivity.
  - unfold bulles_task. case_if; [|apply pin_write_frame].
    apply fold_pin_frame. intros i h. unfold bulles_body. cbv zeta.
    repeat case_if; gsimpl;
      try apply id_frame; try apply pin_write_frame.
    all: exists (digitalWrite bullesPin 1 (digitalWrite bullesPin 0 (pins h)));
      (split; [reflexivity|]);
      intros q Hq; unfold digitalWrite; apply Z.eqb_neq in Hq; rewrite Hq; reflexivity.
Qed.

(** ** More on the persistence *)

(** X15.  A save writes the marker 2 at address 0 and the records at
    the addresses 1 to 44 only: every byte from address 45 on, where the
    load looks for the bubbler, is left as it was, and so are the size of
    the EEPROM and the lamps, the pump and the mist maker in memory. *)
Theorem saveToEEPROM_footprint (g : Globals) :
  (0 < length (eeprom g))%nat ->
  EEPROM_read (eeprom (saveToEEPROM g)) 0 = 2
  /\ length (eeprom (saveToEEPROM g)) = length (eeprom g)
  /\ (forall a, (45 <= a)%nat ->
        EEPROM_read (eeprom (saveToEEPROM g)) a = EEPROM_read (eeprom g) a)
  /\ lamps (saveToEEPROM g) = lamps g
  /\ buse (saveToEEPROM g) = buse g
  /\ brume (saveToEEPROM g) = brume g.
Proof.
  intros Hlen. rewrite saveToEEPROM_eeprom.
  split; [|split; [|split]].
  - do 5 rewrite EEPROM_read_put_other by addr_lia.
    unfold EEPROM_put, EEPROM_update, EEPROM_read.
    rewrite list_lookup_total_insert_eq by lia. reflexivity.
  - rewrite !EEPROM_put_length. reflexivity.
  - intros a Ha.
    do 6 rewrite EEPROM_read_put_other by (right; addr_lia). reflexivity.
  - unfold saveToEEPROM. cbn [fold_left save_lamp]. gsimpl. repeat split.
Qed.

Lemma saveToEEPROM_footprint_witness :
  EEPROM_read (eeprom (saveToEEPROM configured)) 0 = 2
  /\ EEPROM_read (eeprom (saveToEEPROM configured)) 45 = 255.
Proof.
  assert (H : (0 < length (eeprom configured))%nat) by (vm_compute; lia).
  destruct (saveToEEPROM_footprint configured H) as (A & _ & B & _).
  split; [exact A|]. rewrite B by lia. reflexivity.
Defined.

Lemma save_then_load_other_devices_witness :
  exists g',
    setup true (mkTIME 12 0) (eeprom (saveToEEPROM configured)) = Some g'
    /\ lamps g' = lamps configured /\ buse g' = buse configured
    /\ brume g' = brume configured.
Proof.
  assert (H1 : (68 <= length (eeprom configured))%nat) by (vm_compute; lia).
  assert (H2 : length (lamps configured) = 3%nat) by reflexivity.
  assert (H3 : Forall LAMP_in_range (lamps configured)).
  { repeat (constructor; [unfold LAMP_in_range, time_in_range; cbn; lia|]). constructor. }
  assert (H4 : BUSE_in_range (buse configured))
    by (unfold BUSE_in_range, time_in_range; cbn; lia).
  assert (H5 : EXTRAS_in_range (brume configured)).
  { unfold EXTRAS_in_range. cbn.
    split; [lia|]. split; [lia|]. split; [reflexivity|]. split; [|lia].
    repeat (constructor; [unfold time_in_range; cbn; lia|]). constructor. }
  destruct (save_then_load_other_devices configured (mkTIME 12 0) H1 H2 H3 H4 H5)
    as (g' & Hs & Hl & Hb & Hm & _).
  exists g'. repeat split; assumption.
Defined.

Lemma check_bounds :
  (forall l, l_active (check_LAMP l) <= 1)
  /\ (forall b, b_active (check_BUSE b) <= 1 /\ b_tOn (check_BUSE b) <= 200)
  /\ (forall x, active (check_EXTRAS x) <= 1 /\ nbr (check_EXTRAS x) <= 10
                /\ tOn (check_EXTRAS x) <= 200
                /\ times (check_EXTRAS x) = times x).
Proof.
  split; [|split]; intros r.
  - unfold check_LAMP. case_if; gsimpl; bool_to_prop; lia.
  - unfold check_BUSE. case_if; gsimpl; bool_to_prop; lia.
  - unfold check_EXTRAS. case_if; gsimpl; bool_to_prop;
      (repeat split; try reflexivity);
      repeat match goal with H : _ /\ _ |- _ => destruct H end; bool_to_prop; lia.
Qed.

(** X17.  Whatever bytes the EEPROM holds, the configuration that
    [restoreFromEEPROM] leaves has every enabled flag at 1 at most, the
    duration of the pump and of both multi-event devices at 200 at most
    and their counts at 10 at most, so that the loops of the two tasks
    stay inside the ten trigger slots. *)
Theorem restoreFromEEPROM_checked (g : Globals) :
  length (lamps g) = 3%nat ->
  Forall (fun l => l_active l <= 1) (lamps (restoreFromEEPROM g))
  /\ b_active (buse (restoreFromEEPROM g)) <= 1
  /\ b_tOn (buse (restoreFromEEPROM g)) <= 200
  /\ (forall x, active (thing x (restoreFromEEPROM g)) <= 1
                /\ nbr (thing x (restoreFromEEPROM g)) <= 10
                /\ tOn (thing x (restoreFromEEPROM g)) <= 200).
Proof.
  intros Hl3.
  destruct (lamps g) as [|l0 [|l1 [|l2 [|? ?]]]] eqn:El; try discriminate Hl3.
  destruct (restoreFromEEPROM_config g) as (Rl & Rb & Rm & Ru).
  destruct check_bounds as (CL & CB & CX).
  rewrite El in Rl.
  split; [|split; [|split]].
  - rewrite Rl. cbn. repeat (constructor; [apply CL|]). constructor.
  - rewrite Rb. apply CB.
  - rewrite Rb. apply CB.
  - intros x. destruct x; cbn [thing]; [rewrite Rm | rewrite Ru];
      destruct (CX (get_EXTRAS brume_addr (eeprom g))) as (A & B & C & _);
      destruct (CX (get_EXTRAS bulles_addr (eeprom g))) as (A' & B' & C' & _);
      repeat split; assumption.
Qed.

Lemma restoreFromEEPROM_checked_witness :
  b_tOn (buse (restoreFromEEPROM (reset_globals erased))) <= 200
  /\ nbr (bulles (restoreFromEEPROM (reset_globals erased))) <= 10.
Proof.
  destruct (restoreFromEEPROM_checked (reset_globals erased) eq_refl) as (_ & _ & A & B).
  split; [exact A | apply (B Bulles)].
Defined.

(** ** More on the menus *)

(** Case analysis on the scrutinee of a [match] (or of an [if]). *)
Ltac break_match :=
  match goal with
  | |- context [match ?x with _ => _ end] => destruct x eqn:?
  end.









Lemma menu_run_app (l1 l2 : list Z) (g : Globals) :
  menu_run (l1 ++ l2) g = menu_run l2 (menu_run l1 g).
Proof.
  revert g; induction l1 as [|p l1 IH]; intros g; [reflexivity|].
  cbn [app menu_run]. apply IH.
Qed.

Lemma setup_menu_next (g : Globals) :
  menu g = m_setup -> 0 <= setupVal g <= 6 ->
  menu_task (set_press p_bt2_s g) =
    set_press p_none (set_setupVal ((setupVal g + 1) mod 7) (set_nbr_setup 6 g)).
Proof.
  intros Hm Hv. unfold menu_task. gsimpl. rewrite Hm. cbv delta [m_setup] iota beta.
  unfold setup_menu, next_setupVal. cbv zeta. gsimpl. cbn [Z.eqb Pos.eqb p_bt2_s].
  gsimpl. cbn [Z.eqb Pos.eqb p_none p_bt1_s].
  destruct (Z.eqb_spec (setupVal g) 6) as [E | N]; gsimpl.
  - rewrite E. reflexivity.
  - unfold wrap8. rewrite !Z.mod_small by lia. reflexivity.
Qed.

(** X19.  The list of menus is cyclic and opens the menu it shows.
    With [menu] at [m_setup] and [setupVal] from 0 to 6, [n] short
    presses of button 2 move [setupVal] by [n] modulo 7 and change
    neither the menu nor the configuration; a short press of button 1
    then opens the menu number [setupVal + 2], from [m_lamp] to [m_exit],
    resets [setupVal] to 0 and, for the clock menu, loads the local time
    into the time under edit. *)
Theorem setup_menu_cycle_and_select (n : nat) (g : Globals) :
  menu g = m_setup -> 0 <= setupVal g <= 6 ->
  setupVal (menu_run (replicate n p_bt2_s) g) = (setupVal g + Z.of_nat n) mod 7
  /\ menu (menu_run (replicate n p_bt2_s) g) = m_setup
  /\ config (menu_run (replicate n p_bt2_s) g) = config g
  /\ menu (menu_task (set_press p_bt1_s g)) = setupVal g + 2
  /\ setupVal (menu_task (set_press p_bt1_s g)) = 0
  /\ config (menu_task (set_press p_bt1_s g)) = config g
  /\ (setupVal g = 4 -> timeSelected (menu_task (set_press p_bt1_s g)) = globalTime g).
Proof.
  intros Hm Hv.
  assert (Cyc : forall k h, menu h = m_setup -> 0 <= setupVal h <= 6 ->
            setupVal (menu_run (replicate k p_bt2_s) h) = (setupVal h + Z.of_nat k) mod 7
            /\ menu (menu_run (replicate k p_bt2_s) h) = m_setup
            /\ config (menu_run (replicate k p_bt2_s) h) = config h).
  { induction k as [|k IH]; intros h Hmh Hvh.
    - cbn [replicate menu_run]. rewrite Z.add_0_r, Z.mod_small by lia. repeat split. exact Hmh.
    - cbn [replicate menu_run]. change (p_bt2_s =? p_none) with false. cbv iota.
      rewrite setup_menu_next by assumption.
      set (h1 := set_press p_none _).
      assert (Hm1 : menu h1 = m_setup) by exact Hmh.
      assert (Hv1 : 0 <= setupVal h1 <= 6).
      { unfold h1. gsimpl. pose proof (Z.mod_pos_bound (setupVal h + 1) 7). lia. }
      destruct (IH h1 Hm1 Hv1) as (A & B & C).
      rewrite A, B, C. unfold h1. gsimpl.
      rewrite Zplus_mod_idemp_l. repeat split. f_equal. lia. }
  destruct (Cyc n g Hm Hv) as (A & B & C).
  split; [exact A|]. split; [exact B|]. split; [exact C|].
  unfold menu_task. gsimpl. rewrite Hm. cbv delta [m_setup] iota beta.
  unfold setup_menu. cbv zeta. gsimpl. cbn [Z.eqb Pos.eqb p_bt1_s p_bt2_s]. gsimpl.
  destruct (Z.eqb_spec (setupVal g + 2) m_time) as [Et | Et]; gsimpl;
    rewrite Hm; unfold wrap8, m_setup; rewrite Z.mod_small by lia;
    change (p_bt1_s =? p_bt1_s) with true; gsimpl;
    (split; [lia|]); (split; [reflexivity|]); (split; [reflexivity|]);
    intros E.
  - reflexivity.
  - exfalso. apply Et. rewrite E. reflexivity.
Qed.

Lemma setup_menu_cycle_and_select_witness :
  setupVal (menu_run (replicate 9 p_bt2_s) (set_menu m_setup (reset_globals []))) = 2
  /\ menu (menu_task (set_press p_bt1_s (set_menu m_setup (reset_globals [])))) = m_lamp.
Proof.
  assert (H : 0 <= setupVal (set_menu m_setup (reset_globals [])) <= 6) by (simpl; lia).
  destruct (setup_menu_cycle_and_select 9 (set_menu m_setup (reset_globals [])) eq_refl H)
    as (A & _ & _ & B & _).
  split; [rewrite A; reflexivity | rewrite B; reflexivity].
Defined.

(** *** Selecting a time *)

Lemma select_time_reaches (a b n : Z) :
  0 < n -> 0 <= b < n -> (a + Z.of_nat (Z.to_nat ((b - a) mod n))) mod n = b.
Proof.
  intros Hn Hb. rewrite Z2Nat.id by (apply Z.mod_pos_bound; lia).
  rewrite Zplus_mod_idemp_r. replace (a + (b - a)) with b by lia.
  apply Z.mod_small; lia.
Qed.

Lemma select_time_split (from to : TIME) :
  select_time from to =
  (replicate (Z.to_nat ((hours to - hours from) mod 24)) p_bt2_s ++ [p_bt1_s] ++
   replicate (Z.to_nat ((minutes to - minutes from) mod 60)) p_bt2_s) ++ [p_bt1_s].
Proof. unfold select_time. rewrite <- !app_assoc. reflexivity. Qed.

Lemma time_menu_hour_press (g : Globals) :
  menu g = m_time -> HorM g = 0 -> 0 <= hours (timeSelected g) <= 23 ->
  let g1 := menu_task (set_press p_bt2_s g) in
  menu g1 = m_time /\ HorM g1 = 0 /\ sec g1 = sec g /\ config g1 = config g
  /\ timeSelected g1 =
       mkTIME ((hours (timeSelected g) + 1) mod 24) (minutes (timeSelected g)).
Proof.
  intros Hm Hh Hr. cbv zeta. unfold menu_task. gsimpl. rewrite Hm.
  cbv delta [m_time] iota beta. unfold time_menu, hourSelection. gsimpl.
  rewrite Hh. cbn [Z.eqb Pos.eqb p_bt2_s p_bt2_r orb].
  destruct (Z.eqb_spec (hours (timeSelected g)) 23) as [E | N]; gsimpl;
    cbn [Z.eqb Pos.eqb p_none p_bt1_s p_bt1_l]; gsimpl; unfold set_hours.
  - rewrite E. repeat split; assumption.
  - unfold wrap8. rewrite (Z.mod_small _ 256) by lia. rewrite (Z.mod_small _ 24) by lia.
    repeat split; assumption.
Qed.

Lemma time_menu_hours_done (g : Globals) :
  menu g = m_time -> HorM g = 0 ->
  let g1 := menu_task (set_press p_bt1_s g) in
  menu g1 = m_time /\ HorM g1 = 1 /\ sec g1 = sec g /\ config g1 = config g
  /\ timeSelected g1 = timeSelected g.
Proof.
  intros Hm Hh. cbv zeta. unfold menu_task. gsimpl. rewrite Hm.
  cbv delta [m_time] iota beta. unfold time_menu, hourSelection. gsimpl.
  rewrite Hh. cbn [Z.eqb Pos.eqb p_bt2_s p_bt2_r p_bt1_s orb]. gsimpl.
  cbn [Z.eqb Pos.eqb p_none p_bt1_s p_bt1_l]. gsimpl.
  repeat split; assumption.
Qed.

Lemma time_menu_minute_press (g : Globals) :
  menu g = m_time -> HorM g = 1 -> 0 <= minutes (timeSelected g) <= 59 ->
  let g1 := menu_task (set_press p_bt2_s g) in
  menu g1 = m_time /\ HorM g1 = 1 /\ sec g1 = sec g /\ config g1 = config g
  /\ timeSelected g1 =
       mkTIME (hours (timeSelected g)) ((minutes (timeSelected g) + 1) mod 60).
Proof.
  intros Hm Hh Hr. cbv zeta. unfold menu_task. gsimpl. rewrite Hm.
  cbv delta [m_time] iota beta. unfold time_menu, hourSelection. gsimpl.
  rewrite Hh. cbn [Z.eqb Pos.eqb p_bt2_s p_bt2_r orb]. gsimpl.
  unfold set_minutes at 2. cbn [minutes].
  unfold wrap8. rewrite (Z.mod_small _ 256) by lia.
  rewrite Z.gtb_ltb.
  destruct (Z.ltb_spec 59 (minutes (timeSelected g) + 1)) as [E | N]; gsimpl;
    cbn [Z.eqb Pos.eqb p_none p_bt1_s p_bt1_l]; gsimpl; unfold set_minutes; cbn [hours minutes].
  - replace (minutes (timeSelected g)) with 59 by lia.
    repeat split; assumption.
  - rewrite (Z.mod_small _ 60) by lia. repeat split; assumption.
Qed.

Lemma time_menu_commit (g : Globals) :
  menu g = m_time -> HorM g = 1 ->
  let g1 := menu_task (set_press p_bt1_s g) in
  menu g1 = m_setup /\ HorM g1 = 0 /\ sec g1 = 0 /\ config g1 = config g
  /\ globalTime g1 = timeSelected g /\ rtc g1 = (timeSelected g, sec g).
Proof.
  intros Hm Hh. cbv zeta. unfold menu_task. gsimpl. rewrite Hm.
  cbv delta [m_time] iota beta. unfold time_menu, hourSelection. gsimpl.
  rewrite Hh. cbn [Z.eqb Pos.eqb p_bt2_s p_bt2_r p_bt1_s orb]. gsimpl.
  repeat split.
Qed.

Lemma time_menu_hours_run (n : nat) : forall g : Globals,
  menu g = m_time -> HorM g = 0 -> 0 <= hours (timeSelected g) <= 23 ->
  let g1 := menu_run (replicate n p_bt2_s) g in
  menu g1 = m_time /\ HorM g1 = 0 /\ sec g1 = sec g /\ config g1 = config g
  /\ timeSelected g1 =
       mkTIME ((hours (timeSelected g) + Z.of_nat n) mod 24) (minutes (timeSelected g)).
Proof.
  induction n as [|n IH]; intros g Hm Hh Hr; cbv zeta.
  - cbn [replicate menu_run]. rewrite Z.add_0_r, Z.mod_small by lia.
    destruct (timeSelected g); repeat split; assumption.
  - cbn [replicate menu_run]. change (p_bt2_s =? p_none) with false. cbv iota.
    destruct (time_menu_hour_press g Hm Hh Hr) as (A1 & A2 & A3 & A4 & A5).
    assert (Hr1 : 0 <= hours (timeSelected (menu_task (set_press p_bt2_s g))) <= 23).
    { rewrite A5. cbn [hours].
      pose proof (Z.mod_pos_bound (hours (timeSelected g) + 1) 24). lia. }
    destruct (IH _ A1 A2 Hr1) as (B1 & B2 & B3 & B4 & B5).
    rewrite B3, B4, B5, A3, A4, A5. cbn [hours minutes].
    rewrite Zplus_mod_idemp_l.
    replace (hours (timeSelected g) + 1 + Z.of_nat n)
      with (hours (timeSelected g) + Z.of_nat (S n)) by lia.
    repeat split; assumption.
Qed.

Lemma time_menu_minutes_run (n : nat) : forall g : Globals,
  menu g = m_time -> HorM g = 1 -> 0 <= minutes (timeSelected g) <= 59 ->
  let g1 := menu_run (replicate n p_bt2_s) g in
  menu g1 = m_time /\ HorM g1 = 1 /\ sec g1 = sec g /\ config g1 = config g
  /\ timeSelected g1 =
       mkTIME (hours (timeSelected g)) ((minutes (timeSelected g) + Z.of_nat n) mod 60).
Proof.
  induction n as [|n IH]; intros g Hm Hh Hr; cbv zeta.
  - cbn [replicate menu_run]. rewrite Z.add_0_r, Z.mod_small by lia.
    destruct (timeSelected g); repeat split; assumption.
  - cbn [replicate menu_run]. change (p_bt2_s =? p_none) with false. cbv iota.
    destruct (time_menu_minute_press g Hm Hh Hr) as (A1 & A2 & A3 & A4 & A5).
    assert (Hr1 : 0 <= minutes (timeSelected (menu_task (set_press p_bt2_s g))) <= 59).
    { rewrite A5. cbn [minutes].
      pose proof (Z.mod_pos_bound (minutes (timeSelected g) + 1) 60). lia. }
    destruct (IH _ A1 A2 Hr1) as (B1 & B2 & B3 & B4 & B5).
    rewrite B3, B4, B5, A3, A4, A5. cbn [hours minutes].
    rewrite Zplus_mod_idemp_l.
    replace (minutes (timeSelected g) + 1 + Z.of_nat n)
      with (minutes (timeSelected g) + Z.of_nat (S n)) by lia.
    repeat split; assumption.
Qed.

(** X21.  Setting the clock.  In the clock menu, on the hours, with an
    in-range time under edit: for every in-range target time [t], short
    presses of button 2 up to the target hour, a short press of button 1,
    short presses of button 2 up to the target minute and a short press
    of button 1 set the local time to [t] and the local seconds to 0,
    give the RTC the time [t] together with the seconds counted before
    the reset, return to the list of menus on the hours, and leave the
    four device configurations as they were. *)
Theorem time_menu_sets_clock (g : Globals) (t : TIME) :
  menu g = m_time -> HorM g = 0 ->
  time_in_range (timeSelected g) -> time_in_range t ->
  let g1 := menu_run (select_time (timeSelected g) t) g in
  globalTime g1 = t /\ sec g1 = 0 /\ rtc g1 = (t, sec g)
  /\ menu g1 = m_setup /\ HorM g1 = 0 /\ config g1 = config g.
Proof.
  intros Hm Hh [Hrh Hrm] [Hth Htm]. cbv zeta. unfold select_time.
  set (a := Z.to_nat ((hours t - hours (timeSelected g)) mod 24)).
  set (b := Z.to_nat ((minutes t - minutes (timeSelected g)) mod 60)).
  rewrite !menu_run_app.
  destruct (time_menu_hours_run a g Hm Hh Hrh) as (A1 & A2 & A3 & A4 & A5).
  set (ga := menu_run (replicate a p_bt2_s) g) in *.
  cbn [menu_run]. change (p_bt1_s =? p_none) with false. cbv iota.
  destruct (time_menu_hours_done ga A1 A2) as (B1 & B2 & B3 & B4 & B5).
  set (gb := menu_task (set_press p_bt1_s ga)) in *.
  assert (Hgb : 0 <= minutes (timeSelected gb) <= 59).
  { rewrite B5, A5. cbn [minutes]. exact Hrm. }
  destruct (time_menu_minutes_run b gb B1 B2 Hgb) as (C1 & C2 & C3 & C4 & C5).
  set (gc := menu_run (replicate b p_bt2_s) gb) in *.
  destruct (time_menu_commit gc C1 C2) as (D1 & D2 & D3 & D4 & D5 & D6).
  rewrite D5, D6, D4, C5, C4, C3, B5, B4, B3, A5, A4, A3. cbn [hours minutes].
  unfold a, b. rewrite !select_time_reaches by lia. destruct t as [th tm]. cbn [hours minutes].
  repeat split; assumption.
Qed.

Lemma time_menu_sets_clock_witness :
  let g := set_sec 42 (set_timeSelected (mkTIME 22 50) (set_menu m_time (reset_globals []))) in
  let g1 := menu_run (select_time (mkTIME 22 50) (mkTIME 8 15)) g in
  globalTime g1 = mkTIME 8 15 /\ sec g1 = 0 /\ rtc g1 = (mkTIME 8 15, 42)
  /\ menu g1 = m_setup /\ HorM g1 = 0 /\ config g1 = config g.
Proof.
  intros g.
  apply (time_menu_sets_clock g (mkTIME 8 15)); vm_compute;
    first [reflexivity | split; split; discriminate].
Defined.

(** *** [hourSelection], press by press *)

Lemma hourSelection_hour_press (g : Globals) :
  HorM g = 0 -> press g = p_bt2_s -> 0 <= hours (timeSelected g) <= 23 ->
  hourSelection g =
    set_press p_none
      (set_timeSelected
         (mkTIME ((hours (timeSelected g) + 1) mod 24) (minutes (timeSelected g))) g).
Proof.
  intros Hh Hp Hr. unfold hourSelection. rewrite Hh, Hp.
  cbn [Z.eqb Pos.eqb p_bt2_s orb]. cbv zeta. unfold set_hours.
  destruct (Z.eqb_spec (hours (timeSelected g)) 23) as [E | N].
  - rewrite E. reflexivity.
  - unfold wrap8. rewrite (Z.mod_small _ 256), (Z.mod_small _ 24) by lia. reflexivity.
Qed.

Lemma hourSelection_minute_press (g : Globals) :
  HorM g = 1 -> press g = p_bt2_s -> 0 <= minutes (timeSelected g) <= 59 ->
  hourSelection g =
    set_press p_none
      (set_timeSelected
         (mkTIME (hours (timeSelected g)) ((minutes (timeSelected g) + 1) mod 60)) g).
Proof.
  intros Hh Hp Hr. unfold hourSelection. rewrite Hh, Hp.
  cbn [Z.eqb Pos.eqb p_bt2_s]. cbv zeta. gsimpl. unfold set_minutes. cbn [hours minutes].
  unfold wrap8. rewrite (Z.mod_small _ 256) by lia. rewrite Z.gtb_ltb.
  destruct (Z.ltb_spec 59 (minutes (timeSelected g) + 1)) as [E | N]; gsimpl.
  - replace (minutes (timeSelected g)) with 59 by lia. reflexivity.
  - rewrite (Z.mod_small _ 60) by lia. reflexivity.
Qed.

Lemma hourSelection_hours_done (g : Globals) :
  HorM g = 0 -> press g = p_bt1_s ->
  hourSelection g = set_HorM 1 (set_press p_none g).
Proof.
  intros Hh Hp. unfold hourSelection. rewrite Hh, Hp. reflexivity.
Qed.

Lemma hourSelection_minutes_done (g : Globals) :
  HorM g = 1 -> press g = p_bt1_s -> hourSelection g = g.
Proof.
  intros Hh Hp. unfold hourSelection. rewrite Hh, Hp. reflexivity.
Qed.

(** *** The lamp menu, step by step *)

Lemma menu_task_lamp (g : Globals) : menu g = m_lamp -> menu_task g = lamp_menu g.
Proof. intros H. unfold menu_task. rewrite H. reflexivity. Qed.

Lemma lamp_menu_choice_next (g : Globals) :
  subMenu g = 0 -> press g = p_bt2_s ->
  lamp_menu g = set_press p_none (next_setupVal (set_nbr_setup 2 g)).
Proof.
  intros Hs Hp. unfold lamp_menu. cbv zeta. gsimpl. rewrite Hs. cbv iota beta.
  gsimpl. rewrite Hp. reflexivity.
Qed.

Lemma lamp_menu_choice_done (g : Globals) :
  subMenu g = 0 -> press g = p_bt1_s ->
  lamp_menu g = set_subMenu 1 (set_choosed (setupVal g) (set_press p_none (set_nbr_setup 2 g))).
Proof.
  intros Hs Hp. unfold lamp_menu. cbv zeta. gsimpl. rewrite Hs. cbv iota beta.
  gsimpl. rewrite Hp. cbn [Z.eqb Pos.eqb p_bt1_s p_bt2_s]. gsimpl. reflexivity.
Qed.

Lemma lamp_menu_active_done (g : Globals) :
  subMenu g = 1 -> press g = p_bt1_s -> l_active (lamp_sel g) <> 0 ->
  lamp_menu g =
    set_subMenu 2 (set_timeSelected (onH (lamp_sel g)) (set_press p_none (set_nbr_setup 2 g))).
Proof.
  intros Hs Hp Ha. apply Z.eqb_neq in Ha. unfold lamp_menu. cbv zeta. gsimpl.
  rewrite Hs. cbv iota beta. gsimpl. rewrite Hp.
  cbn [Z.eqb Pos.eqb p_bt1_s p_bt2_s]. unfold lamp_sel in *. gsimpl.
  rewrite Ha. reflexivity.
Qed.

Lemma lamp_menu_time_press (g : Globals) :
  subMenu g = 2 \/ subMenu g = 3 -> press g = p_bt2_s \/ HorM g = 0 /\ press g = p_bt1_s ->
  lamp_menu g = hourSelection (set_nbr_setup 2 g).
Proof.
  intros Hs Hp.
  assert (E : press (hourSelection (set_nbr_setup 2 g)) = p_none).
  { unfold hourSelection. gsimpl.
    destruct Hp as [Hp | [Hh Hp]]; [|rewrite Hh]; rewrite Hp;
      cbn [Z.eqb Pos.eqb p_bt1_s p_bt2_s p_bt2_r orb]; cbv zeta;
      repeat case_if; reflexivity. }
  unfold lamp_menu. cbv zeta. gsimpl.
  destruct Hs as [Hs | Hs]; rewrite Hs; cbv iota beta; rewrite E; reflexivity.
Qed.

Lemma lamp_menu_on_commit (g : Globals) :
  subMenu g = 2 -> HorM g = 1 -> press g = p_bt1_s ->
  lamp_menu g =
    let g := set_press p_none (set_nbr_setup 2 g) in
    let l := lamp_sel g in
    let g := set_lamp_sel (mkLAMP (timeSelected g) (offH l) (l_active l)) g in
    let g := set_HorM 0 g in
    let g := set_timeSelected (offH (lamp_sel g)) g in
    set_subMenu 3 g.
Proof.
  intros Hs Hh Hp. unfold lamp_menu. cbv zeta. gsimpl. rewrite Hs. cbv iota beta.
  rewrite (hourSelection_minutes_done (set_nbr_setup 2 g) Hh Hp). gsimpl. rewrite Hp.
  cbn [Z.eqb Pos.eqb p_bt1_s]. unfold set_lamp_sel, lamp_sel. gsimpl. rewrite ?Hs.
  reflexivity.
Qed.

Lemma lamp_menu_off_commit (g : Globals) :
  subMenu g = 3 -> HorM g = 1 -> press g = p_bt1_s ->
  lamp_menu g =
    let g := set_press p_none (set_nbr_setup 2 g) in
    let l := lamp_sel g in
    let g := set_lamp_sel (mkLAMP (onH l) (timeSelected g) (l_active l)) g in
    leave_to_setup (set_HorM 0 g).
Proof.
  intros Hs Hh Hp. unfold lamp_menu. cbv zeta. gsimpl. rewrite Hs. cbv iota beta.
  rewrite (hourSelection_minutes_done (set_nbr_setup 2 g) Hh Hp). gsimpl. rewrite Hp.
  cbn [Z.eqb Pos.eqb p_bt1_s]. unfold set_lamp_sel, lamp_sel. gsimpl. rewrite ?Hs.
  reflexivity.
Qed.

(** The choice of the lamp: [n] presses of button 2 from the first
    lamp. *)
Lemma lamp_menu_choice_run (n : nat) : forall g : Globals,
  menu g = m_lamp -> subMenu g = 0 -> 0 <= setupVal g <= 2 ->
  let g1 := menu_run (replicate n p_bt2_s) g in
  menu g1 = m_lamp /\ subMenu g1 = 0 /\ HorM g1 = HorM g /\ config g1 = config g
  /\ setupVal g1 = (setupVal g + Z.of_nat n) mod 3.
Proof.
  induction n as [|n IH]; intros g Hm Hs Hv; cbv zeta.
  - cbn [replicate menu_run]. rewrite Z.add_0_r, Z.mod_small by lia.
    repeat split; assumption.
  - cbn [replicate menu_run]. change (p_bt2_s =? p_none) with false. cbv iota.
    rewrite (menu_task_lamp (set_press p_bt2_s g) Hm).
    rewrite (lamp_menu_choice_next (set_press p_bt2_s g) Hs eq_refl).
    set (g1 := set_press p_none (next_setupVal (set_nbr_setup 2 (set_press p_bt2_s g)))).
    assert (E : setupVal g1 = (setupVal g + 1) mod 3).
    { unfold g1, next_setupVal. gsimpl.
      destruct (Z.eqb_spec (setupVal g) 2) as [E | N]; gsimpl.
      - rewrite E. reflexivity.
      - unfold wrap8. rewrite (Z.mod_small _ 256), (Z.mod_small _ 3) by lia. reflexivity. }
    assert (F : menu g1 = menu g /\ subMenu g1 = subMenu g /\ HorM g1 = HorM g
                /\ config g1 = config g).
    { unfold g1, next_setupVal. gsimpl. case_if; repeat split. }
    destruct F as (F1 & F2 & F3 & F4).
    assert (Hv1 : 0 <= setupVal g1 <= 2).
    { rewrite E. pose proof (Z.mod_pos_bound (setupVal g + 1) 3). lia. }
    destruct (IH g1 (eq_trans F1 Hm) (eq_trans F2 Hs) Hv1) as (B1 & B2 & B3 & B4 & B5).
    rewrite B3, B4, B5, E, F3, F4. rewrite Zplus_mod_idemp_l.
    replace (setupVal g + 1 + Z.of_nat n) with (setupVal g + Z.of_nat (S n)) by lia.
    repeat split; assumption.
Qed.

Lemma lamp_menu_hours_run (n : nat) : forall g : Globals,
  menu g = m_lamp -> subMenu g = 2 \/ subMenu g = 3 -> HorM g = 0 ->
  0 <= hours (timeSelected g) <= 23 ->
  let g1 := menu_run (replicate n p_bt2_s) g in
  menu g1 = m_lamp /\ subMenu g1 = subMenu g /\ HorM g1 = 0 /\ config g1 = config g
  /\ choosed g1 = choosed g
  /\ timeSelected g1 =
       mkTIME ((hours (timeSelected g) + Z.of_nat n) mod 24) (minutes (timeSelected g)).
Proof.
  induction n as [|n IH]; intros g Hm Hs Hh Hr; cbv zeta.
  - cbn [replicate menu_run]. rewrite Z.add_0_r, Z.mod_small by lia.
    destruct (timeSelected g); repeat split; assumption.
  - cbn [replicate menu_run]. change (p_bt2_s =? p_none) with false. cbv iota.
    rewrite (menu_task_lamp (set_press p_bt2_s g) Hm).
    rewrite (lamp_menu_time_press (set_press p_bt2_s g) Hs (or_introl eq_refl)).
    rewrite (hourSelection_hour_press (set_nbr_setup 2 (set_press p_bt2_s g)) Hh eq_refl Hr).
    gsimpl.
    set (g1 := set_press p_none _).
    assert (Hr1 : 0 <= hours (timeSelected g1) <= 23).
    { unfold g1. gsimpl. pose proof (Z.mod_pos_bound (hours (timeSelected g) + 1) 24). lia. }
    destruct (IH g1 Hm Hs Hh Hr1) as (B1 & B2 & B3 & B4 & B5 & B6).
    rewrite B2, B4, B5, B6. unfold g1. gsimpl. unfold config. gsimpl.
    rewrite Zplus_mod_idemp_l.
    replace (hours (timeSelected g) + 1 + Z.of_nat n)
      with (hours (timeSelected g) + Z.of_nat (S n)) by lia.
    repeat split; assumption.
Qed.

Lemma lamp_menu_minutes_run (n : nat) : forall g : Globals,
  menu g = m_lamp -> subMenu g = 2 \/ subMenu g = 3 -> HorM g = 1 ->
  0 <= minutes (timeSelected g) <= 59 ->
  let g1 := menu_run (replicate n p_bt2_s) g in
  menu g1 = m_lamp /\ subMenu g1 = subMenu g /\ HorM g1 = 1 /\ config g1 = config g
  /\ choosed g1 = choosed g
  /\ timeSelected g1 =
       mkTIME (hours (timeSelected g)) ((minutes (timeSelected g) + Z.of_nat n) mod 60).
Proof.
  induction n as [|n IH]; intros g Hm Hs Hh Hr; cbv zeta.
  - cbn [replicate menu_run]. rewrite Z.add_0_r, Z.mod_small by lia.
    destruct (timeSelected g); repeat split; assumption.
  - cbn [replicate menu_run]. change (p_bt2_s =? p_none) with false. cbv iota.
    rewrite (menu_task_lamp (set_press p_bt2_s g) Hm).
    rewrite (lamp_menu_time_press (set_press p_bt2_s g) Hs (or_introl eq_refl)).
    rewrite (hourSelection_minute_press (set_nbr_setup 2 (set_press p_bt2_s g)) Hh eq_refl Hr).
    gsimpl.
    set (g1 := set_press p_none _).
    assert (Hr1 : 0 <= minutes (timeSelected g1) <= 59).
    { unfold g1. gsimpl. pose proof (Z.mod_pos_bound (minutes (timeSelected g) + 1) 60). lia. }
    destruct (IH g1 Hm Hs Hh Hr1) as (B1 & B2 & B3 & B4 & B5 & B6).
    rewrite B2, B4, B5, B6. unfold g1. gsimpl. unfold config. gsimpl.
    rewrite Zplus_mod_idemp_l.
    replace (minutes (timeSelected g) + 1 + Z.of_nat n)
      with (minutes (timeSelected g) + Z.of_nat (S n)) by lia.
    repeat split; assumption.
Qed.

(** A time step of the lamp menu up to the press that validates it:
    the time under edit is the target, on the minutes. *)
Lemma lamp_menu_select_time (g : Globals) (t : TIME) :
  menu g = m_lamp -> subMenu g = 2 \/ subMenu g = 3 -> HorM g = 0 ->
  time_in_range (timeSelected g) -> time_in_range t ->
  let g1 := menu_run
              (replicate (Z.to_nat ((hours t - hours (timeSelected g)) mod 24)) p_bt2_s
               ++ [p_bt1_s] ++
               replicate (Z.to_nat ((minutes t - minutes (timeSelected g)) mod 60)) p_bt2_s)
              g in
  menu g1 = m_lamp /\ subMenu g1 = subMenu g /\ HorM g1 = 1 /\ config g1 = config g
  /\ choosed g1 = choosed g /\ timeSelected g1 = t.
Proof.
  intros Hm Hs Hh [Hrh Hrm] [Hth Htm]. cbv zeta.
  set (a := Z.to_nat ((hours t - hours (timeSelected g)) mod 24)).
  set (b := Z.to_nat ((minutes t - minutes (timeSelected g)) mod 60)).
  rewrite !menu_run_app.
  destruct (lamp_menu_hours_run a g Hm Hs Hh Hrh) as (A1 & A2 & A3 & A4 & A5 & A6).
  set (ga := menu_run (replicate a p_bt2_s) g) in *.
  cbn [menu_run]. change (p_bt1_s =? p_none) with false. cbv iota.
  assert (Hsa : subMenu ga = 2 \/ subMenu ga = 3) by (rewrite A2; exact Hs).
  rewrite (menu_task_lamp (set_press p_bt1_s ga) A1).
  rewrite (lamp_menu_time_press (set_press p_bt1_s ga) Hsa (or_intror (conj A3 eq_refl))).
  rewrite (hourSelection_hours_done (set_nbr_setup 2 (set_press p_bt1_s ga)) A3 eq_refl).
  set (gb := set_HorM 1 _).
  assert (Hgb : 0 <= minutes (timeSelected gb) <= 59).
  { unfold gb. gsimpl. rewrite A6. cbn [minutes]. exact Hrm. }
  destruct (lamp_menu_minutes_run b gb A1 Hsa eq_refl Hgb) as (C1 & C2 & C3 & C4 & C5 & C6).
  rewrite C2, C4, C5, C6. unfold gb. gsimpl. unfold config. gsimpl.
  rewrite A6. cbn [hours minutes]. fold (config ga). rewrite A4, A2, A5.
  unfold a, b. rewrite !select_time_reaches by lia.
  destruct t; repeat split; assumption.
Qed.

Lemma config_eq (g h : Globals) :
  config g = config h ->
  lamps g = lamps h /\ buse g = buse h /\ brume g = brume h /\ bulles g = bulles h.
Proof. unfold config. intros E. injection E as -> -> -> ->. repeat split. Qed.

(** The step of the on time, from its entry to its validation. *)
Lemma lamp_menu_on_step (g : Globals) (t : TIME) :
  menu g = m_lamp -> subMenu g = 2 -> HorM g = 0 ->
  (Z.to_nat (choosed g) < length (lamps g))%nat ->
  time_in_range (timeSelected g) -> time_in_range t ->
  let g1 := menu_run (select_time (timeSelected g) t) g in
  menu g1 = m_lamp /\ subMenu g1 = 3 /\ HorM g1 = 0 /\ choosed g1 = choosed g
  /\ lamps g1 = <[Z.to_nat (choosed g) :=
                    mkLAMP t (offH (lamp_sel g)) (l_active (lamp_sel g))]> (lamps g)
  /\ timeSelected g1 = offH (lamp_sel g)
  /\ buse g1 = buse g /\ brume g1 = brume g /\ bulles g1 = bulles g.
Proof.
  intros Hm Hs Hh Hc Hr Ht. cbv zeta.
  rewrite select_time_split, menu_run_app.
  destruct (lamp_menu_select_time g t Hm (or_introl Hs) Hh Hr Ht)
    as (A1 & A2 & A3 & A4 & A5 & A6).
  set (ga := menu_run _ g) in *.
  apply config_eq in A4. destruct A4 as (L1 & L2 & L3 & L4).
  cbn [menu_run]. change (p_bt1_s =? p_none) with false. cbv iota.
  rewrite (menu_task_lamp (set_press p_bt1_s ga) A1).
  rewrite (lamp_menu_on_commit (set_press p_bt1_s ga) (eq_trans A2 Hs) A3 eq_refl).
  cbv zeta. unfold set_lamp_sel, lamp_sel. gsimpl.
  rewrite A5, A6, L1, L2, L3, L4, A1.
  rewrite list_lookup_total_insert_eq by exact Hc. cbn [offH].
  repeat split.
Qed.

(** The step of the off time, from its entry to its validation. *)
Lemma lamp_menu_off_step (g : Globals) (t : TIME) :
  menu g = m_lamp -> subMenu g = 3 -> HorM g = 0 ->
  time_in_range (timeSelected g) -> time_in_range t ->
  let g1 := menu_run (select_time (timeSelected g) t) g in
  menu g1 = m_setup /\ subMenu g1 = 0 /\ HorM g1 = 0
  /\ lamps g1 = <[Z.to_nat (choosed g) :=
                    mkLAMP (onH (lamp_sel g)) t (l_active (lamp_sel g))]> (lamps g)
  /\ buse g1 = buse g /\ brume g1 = brume g /\ bulles g1 = bulles g.
Proof.
  intros Hm Hs Hh Hr Ht. cbv zeta.
  rewrite select_time_split, menu_run_app.
  destruct (lamp_menu_select_time g t Hm (or_intror Hs) Hh Hr Ht)
    as (A1 & A2 & A3 & A4 & A5 & A6).
  set (ga := menu_run _ g) in *.
  apply config_eq in A4. destruct A4 as (L1 & L2 & L3 & L4).
  cbn [menu_run]. change (p_bt1_s =? p_none) with false. cbv iota.
  rewrite (menu_task_lamp (set_press p_bt1_s ga) A1).
  rewrite (lamp_menu_off_commit (set_press p_bt1_s ga) (eq_trans A2 Hs) A3 eq_refl).
  cbv zeta. unfold set_lamp_sel, lamp_sel, leave_to_setup. gsimpl.
  rewrite A5, A6, L1, L2, L3, L4.
  repeat split.
Qed.

(** X22.  Setting the window of a lamp.  From the entry of the lamp
    menu, for the lamp [k] when it is enabled and for every in-range on
    and off time: [k] short presses of button 2 and a short press of
    button 1 choose the lamp, a short press of button 1 confirms that it
    is enabled, and the two times are then selected and validated one
    after the other.  The lamp [k] then holds the two times, enabled as
    before; the other lamps, the pump, the mist maker and the bubbler
    are unchanged, and the menu is back on the list of menus. *)
Theorem lamp_menu_sets_window (g : Globals) (k : nat) (on off : TIME) :
  menu g = m_lamp -> subMenu g = 0 -> HorM g = 0 -> setupVal g = 0 ->
  length (lamps g) = 3%nat -> (k < 3)%nat ->
  l_active (lamps g !!! k) <> 0 ->
  time_in_range (onH (lamps g !!! k)) -> time_in_range (offH (lamps g !!! k)) ->
  time_in_range on -> time_in_range off ->
  let g1 := menu_run (replicate k p_bt2_s ++ [p_bt1_s; p_bt1_s]
                      ++ select_time (onH (lamps g !!! k)) on
                      ++ select_time (offH (lamps g !!! k)) off) g in
  lamps g1 = <[k := mkLAMP on off (l_active (lamps g !!! k))]> (lamps g)
  /\ buse g1 = buse g /\ brume g1 = brume g /\ bulles g1 = bulles g
  /\ menu g1 = m_setup /\ subMenu g1 = 0 /\ HorM g1 = 0.
Proof.
  intros Hm Hs Hh Hv Hlen Hk Ha Hon Hoff Hton Htoff. cbv zeta.
  set (l := lamps g !!! k) in *.
  rewrite !menu_run_app.
  (* the choice of the lamp *)
  destruct (lamp_menu_choice_run k g Hm Hs ltac:(lia)) as (A1 & A2 & A3 & A4 & A5).
  set (ga := menu_run (replicate k p_bt2_s) g) in *.
  apply config_eq in A4. destruct A4 as (LA & BA & MA & UA).
  rewrite Hv, Z.add_0_l, Z.mod_small in A5 by lia.
  cbn [menu_run]. change (p_bt1_s =? p_none) with false. cbv iota.
  rewrite (menu_task_lamp (set_press p_bt1_s ga) A1).
  rewrite (lamp_menu_choice_done (set_press p_bt1_s ga) A2 eq_refl). gsimpl.
  set (gb := set_subMenu 1 _).
  assert (Eb : lamp_sel (set_press p_bt1_s gb) = l).
  { unfold lamp_sel, gb. gsimpl. rewrite A5, LA, Nat2Z.id. reflexivity. }
  (* the lamp is enabled *)
  rewrite (menu_task_lamp (set_press p_bt1_s gb) A1).
  rewrite (lamp_menu_active_done (set_press p_bt1_s gb) eq_refl eq_refl)
    by (rewrite Eb; exact Ha).
  rewrite Eb. gsimpl.
  set (gc := set_subMenu 2 _).
  assert (Cc : choosed gc = Z.of_nat k) by (unfold gc, gb; gsimpl; exact A5).
  assert (Lc : lamps gc = lamps g) by (unfold gc, gb; gsimpl; exact LA).
  assert (Sc : lamp_sel gc = l).
  { unfold lamp_sel. rewrite Cc, Lc, Nat2Z.id. reflexivity. }
  (* the on time *)
  change (onH l) with (timeSelected gc).
  destruct (lamp_menu_on_step gc on A1 eq_refl (eq_trans A3 Hh))
    as (D1 & D2 & D3 & D4 & D5 & D6 & D7 & D8 & D9);
    [rewrite Cc, Lc, Nat2Z.id; lia | exact Hon | exact Hton |].
  set (gd := menu_run (select_time (timeSelected gc) on) gc) in *.
  rewrite Sc in D5, D6.
  (* the off time *)
  rewrite <- D6.
  assert (Sd : lamp_sel gd = mkLAMP on (offH l) (l_active l)).
  { unfold lamp_sel. rewrite D4, D5, Cc, Lc, Nat2Z.id.
    apply list_lookup_total_insert_eq. lia. }
  destruct (lamp_menu_off_step gd off D1 D2 D3)
    as (E1 & E2 & E3 & E4 & E5 & E6 & E7);
    [rewrite D6; exact Hoff | exact Htoff |].
  rewrite E4, E5, E6, E7, D7, D8, D9, Sd, D4, D5, Cc, Lc, Nat2Z.id.
  cbn [onH l_active]. rewrite list_insert_insert_eq.
  unfold gc, gb. gsimpl.
  repeat split; assumption.
Qed.

Lemma lamp_menu_sets_window_witness :
  let g := set_lamps [mkLAMP (mkTIME 7 0) (mkTIME 19 30) 1;
                      mkLAMP (mkTIME 8 0) (mkTIME 22 0) 1;
                      mkLAMP (mkTIME 9 0) (mkTIME 18 0) 0]
             (set_menu m_lamp (reset_globals [])) in
  lamps (menu_run (replicate 1 p_bt2_s ++ [p_bt1_s; p_bt1_s]
                   ++ select_time (mkTIME 8 0) (mkTIME 6 45)
                   ++ select_time (mkTIME 22 0) (mkTIME 1 5)) g)
  = [mkLAMP (mkTIME 7 0) (mkTIME 19 30) 1;
     mkLAMP (mkTIME 6 45) (mkTIME 1 5) 1;
     mkLAMP (mkTIME 9 0) (mkTIME 18 0) 0].
Proof.
  intros g.
  apply (lamp_menu_sets_window g 1 (mkTIME 6 45) (mkTIME 1 5));
    try reflexivity; try (vm_compute; lia);
    unfold time_in_range; vm_compute;
    first [discriminate | split; split; discriminate].
Defined.

(** *** The pump menu, step by step *)

Lemma menu_task_buse (g : Globals) : menu g = m_buse -> menu_task g = buse_menu g.
Proof. intros H. unfold menu_task. rewrite H. reflexivity. Qed.

Lemma buse_menu_active_done (g : Globals) :
  subMenu g = 0 -> press g = p_bt1_s -> b_active (buse g) <> 0 ->
  buse_menu g = set_subMenu 1 (set_press p_none (set_nbr_setup 200 g)).
Proof.
  intros Hs Hp Ha. apply Z.eqb_neq in Ha. unfold buse_menu. cbv zeta. gsimpl.
  rewrite Hs. cbv iota beta. gsimpl. rewrite Hp.
  cbn [Z.eqb Pos.eqb p_bt1_s p_bt2_s]. gsimpl. rewrite Ha. reflexivity.
Qed.

Lemma buse_menu_duration_next (g : Globals) :
  subMenu g = 1 -> press g = p_bt2_s ->
  buse_menu g = set_press p_none (next_setupVal (set_nbr_setup 200 g)).
Proof.
  intros Hs Hp. unfold buse_menu. cbv zeta. gsimpl. rewrite Hs. cbv iota beta.
  gsimpl. rewrite Hp. reflexivity.
Qed.

Lemma buse_menu_duration_done (g : Globals) :
  subMenu g = 1 -> press g = p_bt1_s ->
  buse_menu g =
    set_subMenu 2
      (set_timeSelected (startH (buse g))
         (set_buse (mkBUSE (setupVal g) (startH (buse g)) (stopH (buse g))
                      (b_active (buse g)))
            (set_press p_none (set_nbr_setup 200 g)))).
Proof.
  intros Hs Hp. unfold buse_menu. cbv zeta. gsimpl. rewrite Hs. cbv iota beta.
  gsimpl. rewrite Hp. cbn [Z.eqb Pos.eqb p_bt1_s p_bt2_s p_bt2_r]. gsimpl. reflexivity.
Qed.

Lemma buse_menu_time_press (g : Globals) :
  subMenu g = 2 \/ subMenu g = 3 -> press g = p_bt2_s \/ HorM g = 0 /\ press g = p_bt1_s ->
  buse_menu g = hourSelection (set_nbr_setup 200 g).
Proof.
  intros Hs Hp.
  assert (E : press (hourSelection (set_nbr_setup 200 g)) = p_none).
  { unfold hourSelection. gsimpl.
    destruct Hp as [Hp | [Hh Hp]]; [|rewrite Hh]; rewrite Hp;
      cbn [Z.eqb Pos.eqb p_bt1_s p_bt2_s p_bt2_r orb]; cbv zeta;
      repeat case_if; reflexivity. }
  unfold buse_menu. cbv zeta. gsimpl.
  destruct Hs as [Hs | Hs]; rewrite Hs; cbv iota beta; rewrite E; reflexivity.
Qed.

Lemma buse_menu_start_commit (g : Globals) :
  subMenu g = 2 -> HorM g = 1 -> press g = p_bt1_s ->
  buse_menu g =
    set_subMenu 3
      (set_HorM 0
         (set_timeSelected (stopH (buse g))
            (set_buse (mkBUSE (b_tOn (buse g)) (timeSelected g) (stopH (buse g))
                         (b_active (buse g)))
               (set_press p_none (set_nbr_setup 200 g))))).
Proof.
  intros Hs Hh Hp. unfold buse_menu. cbv zeta. gsimpl. rewrite Hs. cbv iota beta.
  rewrite (hourSelection_minutes_done (set_nbr_setup 200 g) Hh Hp). gsimpl. rewrite Hp.
  cbn [Z.eqb Pos.eqb p_bt1_s]. gsimpl. rewrite ?Hs. reflexivity.
Qed.

Lemma buse_menu_stop_commit (g : Globals) :
  subMenu g = 3 -> HorM g = 1 -> press g = p_bt1_s ->
  buse_menu g =
    leave_to_setup
      (set_HorM 0
         (set_buse (mkBUSE (b_tOn (buse g)) (startH (buse g)) (timeSelected g)
                      (b_active (buse g)))
            (set_press p_none (set_nbr_setup 200 g)))).
Proof.
  intros Hs Hh Hp. unfold buse_menu. cbv zeta. gsimpl. rewrite Hs. cbv iota beta.
  rewrite (hourSelection_minutes_done (set_nbr_setup 200 g) Hh Hp). gsimpl. rewrite Hp.
  cbn [Z.eqb Pos.eqb p_bt1_s]. gsimpl. reflexivity.
Qed.

Lemma buse_menu_duration_run (n : nat) : forall g : Globals,
  menu g = m_buse -> subMenu g = 1 -> 0 <= setupVal g -> setupVal g + Z.of_nat n <= 200 ->
  let g1 := menu_run (replicate n p_bt2_s) g in
  menu g1 = m_buse /\ subMenu g1 = 1 /\ HorM g1 = HorM g /\ config g1 = config g
  /\ setupVal g1 = setupVal g + Z.of_nat n.
Proof.
  induction n as [|n IH]; intros g Hm Hs Hv Hn; cbv zeta.
  - cbn [replicate menu_run]. rewrite Z.add_0_r. repeat split; assumption.
  - cbn [replicate menu_run]. change (p_bt2_s =? p_none) with false. cbv iota.
    rewrite (menu_task_buse (set_press p_bt2_s g) Hm).
    rewrite (buse_menu_duration_next (set_press p_bt2_s g) Hs eq_refl).
    unfold next_setupVal. gsimpl.
    destruct (Z.eqb_spec (setupVal g) 200) as [E | N]; [lia|].
    unfold wrap8. rewrite Z.mod_small by lia.
    set (g1 := set_press p_none _).
    destruct (IH g1 Hm Hs) as (B1 & B2 & B3 & B4 & B5);
      [unfold g1; gsimpl; lia | unfold g1; gsimpl; lia |].
    rewrite B3, B4, B5. unfold g1. gsimpl. unfold config. gsimpl.
    repeat split; try assumption; lia.
Qed.

Lemma buse_menu_hours_run (n : nat) : forall g : Globals,
  menu g = m_buse -> subMenu g = 2 \/ subMenu g = 3 -> HorM g = 0 ->
  0 <= hours (timeSelected g) <= 23 ->
  let g1 := menu_run (replicate n p_bt2_s) g in
  menu g1 = m_buse /\ subMenu g1 = subMenu g /\ HorM g1 = 0 /\ config g1 = config g
  /\ timeSelected g1 =
       mkTIME ((hours (timeSelected g) + Z.of_nat n) mod 24) (minutes (timeSelected g)).
Proof.
  induction n as [|n IH]; intros g Hm Hs Hh Hr; cbv zeta.
  - cbn [replicate menu_run]. rewrite Z.add_0_r, Z.mod_small by lia.
    destruct (timeSelected g); repeat split; assumption.
  - cbn [replicate menu_run]. change (p_bt2_s =? p_none) with false. cbv iota.
    rewrite (menu_task_buse (set_press p_bt2_s g) Hm).
    rewrite (buse_menu_time_press (set_press p_bt2_s g) Hs (or_introl eq_refl)).
    rewrite (hourSelection_hour_press (set_nbr_setup 200 (set_press p_bt2_s g)) Hh eq_refl Hr).
    gsimpl.
    set (g1 := set_press p_none _).
    assert (Hr1 : 0 <= hours (timeSelected g1) <= 23).
    { unfold g1. gsimpl. pose proof (Z.mod_pos_bound (hours (timeSelected g) + 1) 24). lia. }
    destruct (IH g1 Hm Hs Hh Hr1) as (B1 & B2 & B3 & B4 & B5).
    rewrite B2, B4, B5. unfold g1. gsimpl. unfold config. gsimpl.
    rewrite Zplus_mod_idemp_l.
    replace (hours (timeSelected g) + 1 + Z.of_nat n)
      with (hours (timeSelected g) + Z.of_nat (S n)) by lia.
    repeat split; assumption.
Qed.

Lemma buse_menu_minutes_run (n : nat) : forall g : Globals,
  menu g = m_buse -> subMenu g = 2 \/ subMenu g = 3 -> HorM g = 1 ->
  0 <= minutes (timeSelected g) <= 59 ->
  let g1 := menu_run (replicate n p_bt2_s) g in
  menu g1 = m_buse /\ subMenu g1 = subMenu g /\ HorM g1 = 1 /\ config g1 = config g
  /\ timeSelected g1 =
       mkTIME (hours (timeSelected g)) ((minutes (timeSelected g) + Z.of_nat n) mod 60).
Proof.
  induction n as [|n IH]; intros g Hm Hs Hh Hr; cbv zeta.
  - cbn [replicate menu_run]. rewrite Z.add_0_r, Z.mod_small by lia.
    destruct (timeSelected g); repeat split; assumption.
  - cbn [replicate menu_run]. change (p_bt2_s =? p_none) with false. cbv iota.
    rewrite (menu_task_buse (set_press p_bt2_s g) Hm).
    rewrite (buse_menu_time_press (set_press p_bt2_s g) Hs (or_introl eq_refl)).
    rewrite (hourSelection_minute_press (set_nbr_setup 200 (set_press p_bt2_s g)) Hh eq_refl Hr).
    gsimpl.
    set (g1 := set_press p_none _).
    assert (Hr1 : 0 <= minutes (timeSelected g1) <= 59).
    { unfold g1. gsimpl. pose proof (Z.mod_pos_bound (minutes (timeSelected g) + 1) 60). lia. }
    destruct (IH g1 Hm Hs Hh Hr1) as (B1 & B2 & B3 & B4 & B5).
    rewrite B2, B4, B5. unfold g1. gsimpl. unfold config. gsimpl.
    rewrite Zplus_mod_idemp_l.
    replace (minutes (timeSelected g) + 1 + Z.of_nat n)
      with (minutes (timeSelected g) + Z.of_nat (S n)) by lia.
    repeat split; assumption.
Qed.

(** A time step of the pump menu up to the press that validates it. *)
Lemma buse_menu_select_time (g : Globals) (t : TIME) :
  menu g = m_buse -> subMenu g = 2 \/ subMenu g = 3 -> HorM g = 0 ->
  time_in_range (timeSelected g) -> time_in_range t ->
  let g1 := menu_run
              (replicate (Z.to_nat ((hours t - hours (timeSelected g)) mod 24)) p_bt2_s
               ++ [p_bt1_s] ++
               replicate (Z.to_nat ((minutes t - minutes (timeSelected g)) mod 60)) p_bt2_s)
              g in
  menu g1 = m_buse /\ subMenu g1 = subMenu g /\ HorM g1 = 1 /\ config g1 = config g
  /\ timeSelected g1 = t.
Proof.
  intros Hm Hs Hh [Hrh Hrm] [Hth Htm]. cbv zeta.
  set (a := Z.to_nat ((hours t - hours (timeSelected g)) mod 24)).
  set (b := Z.to_nat ((minutes t - minutes (timeSelected g)) mod 60)).
  rewrite !menu_run_app.
  destruct (buse_menu_hours_run a g Hm Hs Hh Hrh) as (A1 & A2 & A3 & A4 & A6).
  set (ga := menu_run (replicate a p_bt2_s) g) in *.
  cbn [menu_run]. change (p_bt1_s =? p_none) with false. cbv iota.
  assert (Hsa : subMenu ga = 2 \/ subMenu ga = 3) by (rewrite A2; exact Hs).
  rewrite (menu_task_buse (set_press p_bt1_s ga) A1).
  rewrite (buse_menu_time_press (set_press p_bt1_s ga) Hsa (or_intror (conj A3 eq_refl))).
  rewrite (hourSelection_hours_done (set_nbr_setup 200 (set_press p_bt1_s ga)) A3 eq_refl).
  set (gb := set_HorM 1 _).
  assert (Hgb : 0 <= minutes (timeSelected gb) <= 59).
  { unfold gb. gsimpl. rewrite A6. cbn [minutes]. exact Hrm. }
  destruct (buse_menu_minutes_run b gb A1 Hsa eq_refl Hgb) as (C1 & C2 & C3 & C4 & C6).
  rewrite C2, C4, C6. unfold gb. gsimpl. unfold config. gsimpl.
  rewrite A6. cbn [hours minutes]. fold (config ga). rewrite A4, A2.
  unfold a, b. rewrite !select_time_reaches by lia.
  destruct t; repeat split; assumption.
Qed.

(** X23.  Setting the schedule of the pump.  From the entry of the
    pump menu with the pump enabled and [setupVal] at 0, for every
    duration [d] from 0 to 200 and every in-range start and stop time: a
    short press of button 1 confirms that the pump is enabled, [d] short
    presses of button 2 and a short press of button 1 choose the
    duration, which is counted from 0 and not from the stored one, and
    the two times are then selected and validated one after the other.
    The pump then holds the duration and the two times, enabled as
    before; the lamps, the mist maker and the bubbler are unchanged, and
    the menu is back on the list of menus. *)
Theorem buse_menu_sets_schedule (g : Globals) (d : nat) (start stop : TIME) :
  menu g = m_buse -> subMenu g = 0 -> HorM g = 0 -> setupVal g = 0 ->
  b_active (buse g) <> 0 -> (d <= 200)%nat ->
  time_in_range (startH (buse g)) -> time_in_range (stopH (buse g)) ->
  time_in_range start -> time_in_range stop ->
  let g1 := menu_run ([p_bt1_s] ++ replicate d p_bt2_s ++ [p_bt1_s]
                      ++ select_time (startH (buse g)) start
                      ++ select_time (stopH (buse g)) stop) g in
  buse g1 = mkBUSE (Z.of_nat d) start stop (b_active (buse g))
  /\ lamps g1 = lamps g /\ brume g1 = brume g /\ bulles g1 = bulles g
  /\ menu g1 = m_setup /\ subMenu g1 = 0 /\ HorM g1 = 0.
Proof.
  intros Hm Hs Hh Hv Ha Hd Hon Hoff Hton Htoff. cbv zeta.
  rewrite !menu_run_app.
  (* the pump is enabled *)
  cbn [menu_run]. change (p_bt1_s =? p_none) with false. cbv iota.
  rewrite (menu_task_buse (set_press p_bt1_s g) Hm).
  rewrite (buse_menu_active_done (set_press p_bt1_s g) Hs eq_refl Ha).
  set (ga := set_subMenu 1 _).
  (* the duration *)
  destruct (buse_menu_duration_run d ga Hm eq_refl) as (B1 & B2 & B3 & B4 & B5);
    [unfold ga; gsimpl; lia | unfold ga; gsimpl; lia |].
  set (gb := menu_run (replicate d p_bt2_s) ga) in *.
  apply config_eq in B4 as (Lb & Bb & Mb & Ub).
  rewrite (menu_task_buse (set_press p_bt1_s gb) B1).
  rewrite (buse_menu_duration_done (set_press p_bt1_s gb) B2 eq_refl).
  gsimpl. rewrite B5, Bb.
  replace (setupVal ga) with 0 by (symmetry; exact Hv).
  replace (buse ga) with (buse g) by reflexivity.
  rewrite Z.add_0_l.
  set (gc := set_subMenu 2 _).
  (* the start time *)
  change (startH (buse g)) with (timeSelected gc).
  rewrite (select_time_split (timeSelected gc) start), menu_run_app.
  destruct (buse_menu_select_time gc start B1 (or_introl eq_refl)) as (C1 & C2 & C3 & C4 & C5);
    [unfold gc; gsimpl; rewrite B3; exact Hh | exact Hon | exact Hton |].
  set (gd := menu_run _ gc) in *.
  apply config_eq in C4 as (Lc & Bc & Mc & Uc).
  cbn [menu_run]. change (p_bt1_s =? p_none) with false. cbv iota.
  rewrite (menu_task_buse (set_press p_bt1_s gd) C1).
  rewrite (buse_menu_start_commit (set_press p_bt1_s gd) C2 C3 eq_refl).
  gsimpl. rewrite C5, Bc.
  replace (buse gc) with (mkBUSE (Z.of_nat d) (startH (buse g)) (stopH (buse g))
                            (b_active (buse g))) by reflexivity.
  cbn [b_tOn startH stopH b_active].
  set (ge := set_subMenu 3 _).
  (* the stop time *)
  change (stopH (buse g)) with (timeSelected ge).
  rewrite (select_time_split (timeSelected ge) stop), menu_run_app.
  destruct (buse_menu_select_time ge stop C1 (or_intror eq_refl) eq_refl)
    as (D1 & D2 & D3 & D4 & D5); [exact Hoff | exact Htoff |].
  set (gf := menu_run _ ge) in *.
  apply config_eq in D4 as (Ld & Bd & Md & Ud).
  cbn [menu_run]. change (p_bt1_s =? p_none) with false. cbv iota.
  rewrite (menu_task_buse (set_press p_bt1_s gf) D1).
  rewrite (buse_menu_stop_commit (set_press p_bt1_s gf) D2 D3 eq_refl).
  unfold leave_to_setup. gsimpl. rewrite D5, Bd, Ld, Md, Ud.
  unfold ge. gsimpl. rewrite Lc, Mc, Uc. unfold gc. gsimpl.
  rewrite Lb, Mb, Ub. unfold ga. gsimpl.
  repeat split.
Qed.

Lemma buse_menu_sets_schedule_witness :
  let g := set_buse (mkBUSE 5 (mkTIME 8 0) (mkTIME 21 0) 1)
             (set_menu m_buse (reset_globals [])) in
  buse (menu_run ([p_bt1_s] ++ replicate 12 p_bt2_s ++ [p_bt1_s]
                  ++ select_time (mkTIME 8 0) (mkTIME 9 30)
                  ++ select_time (mkTIME 21 0) (mkTIME 18 15)) g)
  = mkBUSE 12 (mkTIME 9 30) (mkTIME 18 15) 1.
Proof.
  intros g.
  assert (Ha : b_active (buse g) <> 0) by (vm_compute; discriminate).
  assert (Hd : (12 <= 200)%nat) by lia.
  assert (R : forall h m, 0 <= h <= 23 -> 0 <= m <= 59 -> time_in_range (mkTIME h m))
    by (intros h m H1 H2; split; assumption).
  destruct (buse_menu_sets_schedule g 12 (mkTIME 9 30) (mkTIME 18 15)
              eq_refl eq_refl eq_refl eq_refl Ha Hd
              (R 8 0 ltac:(lia) ltac:(lia)) (R 21 0 ltac:(lia) ltac:(lia))
              (R 9 30 ltac:(lia) ltac:(lia)) (R 18 15 ltac:(lia) ltac:(lia)))
    as (E & _).
  exact E.
Defined.

Lemma buse_menu_duration_back (g : Globals) :
  subMenu g = 1 -> press g = p_bt1_l ->
  buse_menu g = set_menu m_setup (set_press p_none (set_nbr_setup 200 g)).
Proof.
  intros Hs Hp. unfold buse_menu. cbv zeta. gsimpl. rewrite Hs. cbv iota beta.
  gsimpl. rewrite Hp. reflexivity.
Qed.

(** X20.  The pump menu can hand the list of menus a cursor past its
    last entry.  [setupVal] is the cursor of the list of menus, where
    [setup_menu] reads the name to display in the seven entries of
    [menuName], and it is also the value under edit in the duration step
    of the pump menu.  From the entry of the pump menu with the pump
    enabled, a short press of button 1, [d] short presses of button 2
    (up to 200) and a long press of button 1 are back on the list of
    menus with [setupVal] at [d] and [subMenu] still 1, the
    configuration unchanged: from [d] = 7 on the cursor is outside the
    entries 0 to 6.  The same long press in the duration step of a
    multi-event device resets [setupVal] to 0. *)
Theorem buse_menu_exit_keeps_setupVal :
  (forall (g : Globals) (d : nat),
      menu g = m_buse -> subMenu g = 0 -> setupVal g = 0 ->
      b_active (buse g) <> 0 -> (d <= 200)%nat ->
      let g1 := menu_run ([p_bt1_s] ++ replicate d p_bt2_s ++ [p_bt1_l]) g in
      menu g1 = m_setup /\ setupVal g1 = Z.of_nat d /\ subMenu g1 = 1
      /\ config g1 = config g)
  /\ (forall (x : Extra) (g : Globals),
         menu g = extra_menu_id x -> subMenu g = 3 -> press g = p_bt1_l ->
         menu (menu_task g) = m_setup /\ setupVal (menu_task g) = 0).
Proof.
  split.
  - intros g d Hm Hs Hv Ha Hd. cbv zeta. rewrite !menu_run_app.
    cbn [menu_run]. change (p_bt1_s =? p_none) with false.
    change (p_bt1_l =? p_none) with false. cbv iota.
    rewrite (menu_task_buse (set_press p_bt1_s g) Hm).
    rewrite (buse_menu_active_done (set_press p_bt1_s g) Hs eq_refl Ha).
    set (ga := set_subMenu 1 _).
    destruct (buse_menu_duration_run d ga Hm eq_refl) as (B1 & B2 & B3 & B4 & B5);
      [unfold ga; gsimpl; lia | unfold ga; gsimpl; lia |].
    set (gb := menu_run (replicate d p_bt2_s) ga) in *.
    rewrite (menu_task_buse (set_press p_bt1_l gb) B1).
    rewrite (buse_menu_duration_back (set_press p_bt1_l gb) B2 eq_refl).
    gsimpl. unfold config in *. gsimpl. rewrite B5, B2, B4.
    replace (setupVal ga) with 0 by (symmetry; exact Hv).
    repeat split.
  - intros x g Hm Hs Hp. rewrite (menu_task_extra x g Hm).
    rewrite (extra_menu_duration x g Hs). rewrite Hp.
    cbn [Z.eqb Pos.eqb p_bt1_l p_bt2_s p_bt2_r p_bt2_l p_bt1_s orb]. gsimpl.
    split; reflexivity.
Qed.

Lemma buse_menu_exit_keeps_setupVal_witness :
  let g := set_buse (mkBUSE 5 (mkTIME 8 0) (mkTIME 21 0) 1)
             (set_menu m_buse (reset_globals [])) in
  let g1 := menu_run ([p_bt1_s] ++ replicate 7 p_bt2_s ++ [p_bt1_l]) g in
  menu g1 = m_setup /\ setupVal g1 = 7.
Proof.
  intros g g1.
  assert (Ha : b_active (buse g) <> 0) by (vm_compute; discriminate).
  assert (Hd : (7 <= 200)%nat) by lia.
  destruct buse_menu_exit_keeps_setupVal as (H & _).
  destruct (H g 7%nat eq_refl eq_refl eq_refl Ha Hd) as (A & B & _).
  split; [exact A | exact B].
Defined.

Lemma hourSelection_frame (g : Globals) :
  config (hourSelection g) = config g /\ choosed (hourSelection g) = choosed g.
Proof.
  unfold hourSelection, config. repeat break_match; split; reflexivity.
Qed.

(** Case analysis over the sub-states and the presses of a menu, with
    the call of [hourSelection] replaced by what it keeps. *)
Ltac menu_cases :=
  cbv zeta;
  try match goal with
      | |- context [hourSelection ?a] =>
          let H := fresh "Hsel" in
          let Hc := fresh "Hsel" in
          destruct (hourSelection_frame a) as [H Hc];
          unfold config in H; gsimpl in H; gsimpl in Hc;
          injection H as ? ? ? ?;
          generalize dependent (hourSelection a); intros
      end;
  unfold back_one_step, leave_to_setup, next_setupVal;
  repeat break_match; gsimpl; try reflexivity.













(** X26.  A stored trigger time cannot be edited.  In the menu of a
    multi-event device the trigger times are written in the time step
    (sub-state 5) only, and that step is entered from the "add" step
    only, on the slot just added and with 08:00 preset: choosing an
    existing trigger in the "edit" step leads to the active step, never
    to the time step. *)
Theorem extra_menu_time_step_only_after_add (x : Extra) (g : Globals) :
  menu g = extra_menu_id x ->
  (subMenu g = 0 -> 0 <= setupVal g <= 1) ->
  0 <= nbr (thing x g) ->
  subMenu g <> 5 ->
  times (thing x (menu_task g)) = times (thing x g)
  /\ (subMenu (menu_task g) = 5 ->
      subMenu g = 2
      /\ choosed (menu_task g) = nbr (thing x g)
      /\ nbr (thing x (menu_task g)) = nbr (thing x g) + 1
      /\ timeSelected (menu_task g) = mkTIME 8 0)
  /\ (subMenu g = 1 -> press g = p_bt1_s -> setupVal g <> nbr (thing x g) ->
      subMenu (menu_task g) = 4 /\ choosed (menu_task g) = setupVal g).
Proof.
  intros Hm Hv Hn Hs. rewrite (menu_task_extra x g Hm). unfold extra_menu.
  destruct x; cbn [thing set_thing] in *;
    (destruct (_ && _) eqn:E0); gsimpl; menu_cases; gsimpl in *; cbn [nbr times] in *;
    repeat match goal with
           | H : brume ?a = brume g |- _ => rewrite H in *; clear H
           | H : bulles ?a = bulles g |- _ => rewrite H in *; clear H
           end;
    bool_to_prop;
    unfold wrap8, p_none, p_bt1_s, p_bt1_l, p_bt2_s, p_bt2_l, p_bt2_r in *;
    try (exfalso; lia);
    (split; [reflexivity|]);
    (split; [intros Hfive | intros Hone Hp Hd]);
    try (exfalso; Z.to_euclidean_division_equations; lia);
    try (exfalso; congruence);
    try (repeat split; first [reflexivity | Z.to_euclidean_division_equations; lia]).
Qed.

Lemma extra_menu_time_step_only_after_add_witness :
  let g := set_press p_bt1_s (set_setupVal 1 (set_subMenu 1 (set_menu m_brume
             (set_brume (mkEXTRAS 3 5 (replicate 10 (mkTIME 8 0)) 1) (reset_globals []))))) in
  times (brume (menu_task g)) = times (brume g)
  /\ subMenu (menu_task g) = 4 /\ choosed (menu_task g) = 1.
Proof.
  intros g.
  assert (Hm : menu g = extra_menu_id Brume) by reflexivity.
  assert (Hv : subMenu g = 0 -> 0 <= setupVal g <= 1) by (intros H; discriminate H).
  assert (Hn : 0 <= nbr (thing Brume g)) by (vm_compute; discriminate).
  assert (Hs : subMenu g <> 5) by (vm_compute; discriminate).
  destruct (extra_menu_time_step_only_after_add Brume g Hm Hv Hn Hs) as (H1 & _ & H3).
  split; [exact H1|].
  apply H3; [reflexivity | reflexivity | vm_compute; discriminate].
Defined.

Lemma device_menu_unknown_step (g : Globals) :
  menu g = m_lamp \/ menu g = m_buse -> 3 < subMenu g ->
  exists n, menu_task g = set_nbr_setup n g.
Proof.
  intros Hm Hs. unfold menu_task.
  destruct Hm as [Hm | Hm]; rewrite Hm; cbv delta [m_lamp m_buse] iota beta;
    [exists 2; unfold lamp_menu | exists 200; unfold buse_menu];
    cbv zeta; gsimpl;
    (destruct (subMenu g) as [|p|p]; [lia| |reflexivity]);
    do 3 (try (destruct p as [p|p|])); try reflexivity; lia.
Qed.

(** X27.  A device menu opened in an unknown step never closes.  The
    step of a menu is kept in the global [subMenu], and a long press of
    button 1 in the active step (4) of a multi-event device returns to
    the list of menus with [subMenu] still 4.  Opening the lamp or the
    pump menu from the list keeps [subMenu]; these two menus have the
    steps 0 to 3 only, and with [subMenu] above 3 no sequence of presses
    changes anything but the press slot and [nbr_setup]. *)
Theorem menu_task_stuck_in_device_menu :
  (forall x g, menu g = extra_menu_id x -> subMenu g = 4 -> press g = p_bt1_l ->
               menu (menu_task g) = m_setup /\ subMenu (menu_task g) = 4)
  /\ (forall g, menu g = m_setup -> press g = p_bt1_s -> 0 <= setupVal g <= 1 ->
                menu (menu_task g) = setupVal g + 2
                /\ subMenu (menu_task g) = subMenu g)
  /\ (forall presses g, menu g = m_lamp \/ menu g = m_buse -> 3 < subMenu g ->
                        exists p n, menu_run presses g = set_press p (set_nbr_setup n g)).
Proof.
  split; [|split].
  - intros x g Hm Hs Hp. rewrite (menu_task_extra x g Hm). unfold extra_menu.
    replace ((nbr (thing x g) =? 0) && (subMenu g =? 0)) with false
      by (rewrite Hs; symmetry; apply andb_false_r).
    cbv zeta. rewrite Hs. cbv iota beta. rewrite Hp.
    cbn [Z.eqb Pos.eqb p_bt1_l p_bt2_s p_bt1_s]. gsimpl. split; [reflexivity | exact Hs].
  - intros g Hm Hp Hv. unfold menu_task. rewrite Hm. cbv delta [m_setup] iota beta.
    unfold setup_menu. cbv zeta. gsimpl. rewrite Hp.
    cbn [Z.eqb Pos.eqb p_bt1_s p_bt2_s]. gsimpl.
    destruct (Z.eqb_spec (setupVal g + 2) m_time) as [Et | Et]; gsimpl;
      rewrite Hm; unfold wrap8, m_setup; rewrite Z.mod_small by lia;
      rewrite Hp; change (p_bt1_s =? p_bt1_s) with true; gsimpl;
      (split; [lia | reflexivity]).
  - induction presses as [|q presses IH]; intros g Hm Hs.
    + exists (press g), (nbr_setup g). destruct g; reflexivity.
    + cbn [menu_run].
      set (g' := if q =? p_none then g else set_press q g).
      assert (Hm' : menu g' = m_lamp \/ menu g' = m_buse) by (unfold g'; case_if; exact Hm).
      assert (Hs' : 3 < subMenu g') by (unfold g'; case_if; exact Hs).
      destruct (device_menu_unknown_step g' Hm' Hs') as (n & En). rewrite En.
      destruct (IH (set_nbr_setup n g')) as (p & n' & E); [exact Hm' | exact Hs' |].
      exists p, n'. rewrite E. unfold g'. case_if; reflexivity.
Qed.

Lemma menu_task_stuck_in_device_menu_witness :
  let g0 := menu_run [p_bt1_s; p_bt2_s; p_bt2_s; p_bt1_s; p_bt1_s] (reset_globals []) in
  let g1 := menu_task (set_press p_bt1_l g0) in
  let g2 := menu_task (set_press p_bt1_s g1) in
  (menu g0 = m_brume /\ subMenu g0 = 4)
  /\ (menu g1 = m_setup /\ subMenu g1 = 4)
  /\ (menu g2 = m_lamp /\ subMenu g2 = 4)
  /\ menu (menu_run [p_bt1_l; p_bt2_s; p_bt1_s] g2) = m_lamp.
Proof.
  intros g0 g1 g2.
  destruct menu_task_stuck_in_device_menu as (H1 & H2 & H3).
  split; [vm_compute; split; reflexivity|].
  split.
  - apply (H1 Brume (set_press p_bt1_l g0)); vm_compute; reflexivity.
  - split.
    + destruct (H2 (set_press p_bt1_s g1)) as (Ha & Hb);
        [vm_compute; reflexivity | vm_compute; reflexivity
        | vm_compute; split; discriminate |].
      fold g2 in Ha, Hb. rewrite Ha, Hb. vm_compute. split; reflexivity.
    + destruct (H3 [p_bt1_l; p_bt2_s; p_bt1_s] g2) as (p & n & E);
        [left; vm_compute; reflexivity | vm_compute; reflexivity |].
      rewrite E. vm_compute. reflexivity.
Defined.

(** *** Adding a trigger to a multi-event device *)

Lemma thing_config (x : Extra) (g h : Globals) :
  config g = config h -> thing x g = thing x h.
Proof. intros E. apply config_eq in E as (_ & _ & Em & Eu). destruct x; assumption. Qed.

Lemma extra_menu_choice_next (x : Extra) (g : Globals) :
  subMenu g = 0 -> nbr (thing x g) <> 0 -> press g = p_bt2_s ->
  extra_menu x g = set_press p_none (next_setupVal (set_nbr_setup 1 g)).
Proof.
  intros Hs Hn Hp. apply Z.eqb_neq in Hn. unfold extra_menu.
  rewrite Hn. cbn [andb]. cbv zeta. rewrite Hs. cbv iota beta. gsimpl.
  rewrite Hp. reflexivity.
Qed.

Lemma extra_menu_time_press (x : Extra) (g : Globals) :
  subMenu g = 5 -> press g = p_bt2_s \/ HorM g = 0 /\ press g = p_bt1_s ->
  extra_menu x g = hourSelection g.
Proof.
  intros Hs Hp.
  assert (E : press (hourSelection g) = p_none).
  { unfold hourSelection.
    destruct Hp as [Hp | [Hh Hp]]; [|rewrite Hh]; rewrite Hp;
      cbn [Z.eqb Pos.eqb p_bt1_s p_bt2_s p_bt2_r orb]; cbv zeta;
      repeat case_if; reflexivity. }
  unfold extra_menu. rewrite Hs, andb_false_r. cbv zeta. rewrite Hs. cbv iota beta.
  rewrite E. reflexivity.
Qed.

Lemma extra_menu_time_commit (x : Extra) (g : Globals) :
  subMenu g = 5 -> HorM g = 1 -> press g = p_bt1_s ->
  extra_menu x g =
    let g := set_press p_none g in
    let t := thing x g in
    let g := set_thing x
               (mkEXTRAS (nbr t) (tOn t)
                  (<[Z.to_nat (choosed g) := timeSelected g]> (times t)) (active t)) g in
    leave_to_setup (set_HorM 0 g).
Proof.
  intros Hs Hh Hp. unfold extra_menu. rewrite Hs, andb_false_r. cbv zeta. rewrite Hs.
  cbv iota beta. rewrite (hourSelection_minutes_done g Hh Hp). rewrite Hp.
  reflexivity.
Qed.

Lemma extra_menu_hours_run (x : Extra) (n : nat) : forall g : Globals,
  menu g = extra_menu_id x -> subMenu g = 5 -> HorM g = 0 ->
  0 <= hours (timeSelected g) <= 23 ->
  let g1 := menu_run (replicate n p_bt2_s) g in
  menu g1 = menu g /\ subMenu g1 = 5 /\ HorM g1 = 0 /\ config g1 = config g
  /\ choosed g1 = choosed g
  /\ timeSelected g1 =
       mkTIME ((hours (timeSelected g) + Z.of_nat n) mod 24) (minutes (timeSelected g)).
Proof.
  induction n as [|n IH]; intros g Hm Hs Hh Hr; cbv zeta.
  - cbn [replicate menu_run]. rewrite Z.add_0_r, Z.mod_small by lia.
    destruct (timeSelected g); repeat split; assumption.
  - cbn [replicate menu_run]. change (p_bt2_s =? p_none) with false. cbv iota.
    rewrite (menu_task_extra x (set_press p_bt2_s g) Hm).
    rewrite (extra_menu_time_press x (set_press p_bt2_s g) Hs (or_introl eq_refl)).
    rewrite (hourSelection_hour_press (set_press p_bt2_s g) Hh eq_refl Hr).
    gsimpl.
    set (g1 := set_press p_none _).
    assert (Hr1 : 0 <= hours (timeSelected g1) <= 23).
    { unfold g1. gsimpl. pose proof (Z.mod_pos_bound (hours (timeSelected g) + 1) 24). lia. }
    destruct (IH g1 Hm Hs Hh Hr1) as (B1 & B2 & B3 & B4 & B5 & B6).
    rewrite B1, B4, B5, B6. unfold g1. gsimpl. unfold config. gsimpl.
    rewrite Zplus_mod_idemp_l.
    replace (hours (timeSelected g) + 1 + Z.of_nat n)
      with (hours (timeSelected g) + Z.of_nat (S n)) by lia.
    repeat split; assumption.
Qed.

Lemma extra_menu_minutes_run (x : Extra) (n : nat) : forall g : Globals,
  menu g = extra_menu_id x -> subMenu g = 5 -> HorM g = 1 ->
  0 <= minutes (timeSelected g) <= 59 ->
  let g1 := menu_run (replicate n p_bt2_s) g in
  menu g1 = menu g /\ subMenu g1 = 5 /\ HorM g1 = 1 /\ config g1 = config g
  /\ choosed g1 = choosed g
  /\ timeSelected g1 =
       mkTIME (hours (timeSelected g)) ((minutes (timeSelected g) + Z.of_nat n) mod 60).
Proof.
  induction n as [|n IH]; intros g Hm Hs Hh Hr; cbv zeta.
  - cbn [replicate menu_run]. rewrite Z.add_0_r, Z.mod_small by lia.
    destruct (timeSelected g); repeat split; assumption.
  - cbn [replicate menu_run]. change (p_bt2_s =? p_none) with false. cbv iota.
    rewrite (menu_task_extra x (set_press p_bt2_s g) Hm).
    rewrite (extra_menu_time_press x (set_press p_bt2_s g) Hs (or_introl eq_refl)).
    rewrite (hourSelection_minute_press (set_press p_bt2_s g) Hh eq_refl Hr).
    gsimpl.
    set (g1 := set_press p_none _).
    assert (Hr1 : 0 <= minutes (timeSelected g1) <= 59).
    { unfold g1. gsimpl. pose proof (Z.mod_pos_bound (minutes (timeSelected g) + 1) 60). lia. }
    destruct (IH g1 Hm Hs Hh Hr1) as (B1 & B2 & B3 & B4 & B5 & B6).
    rewrite B1, B4, B5, B6. unfold g1. gsimpl. unfold config. gsimpl.
    rewrite Zplus_mod_idemp_l.
    replace (minutes (timeSelected g) + 1 + Z.of_nat n)
      with (minutes (timeSelected g) + Z.of_nat (S n)) by lia.
    repeat split; assumption.
Qed.

(** The time step of a multi-event device, from its entry to its
    validation. *)
Lemma extra_menu_time_step (x : Extra) (g : Globals) (t : TIME) :
  menu g = extra_menu_id x -> subMenu g = 5 -> HorM g = 0 ->
  time_in_range (timeSelected g) -> time_in_range t ->
  let g1 := menu_run (select_time (timeSelected g) t) g in
  menu g1 = m_setup /\ subMenu g1 = 0 /\ HorM g1 = 0
  /\ thing x g1 =
       mkEXTRAS (nbr (thing x g)) (tOn (thing x g))
         (<[Z.to_nat (choosed g) := t]> (times (thing x g))) (active (thing x g))
  /\ thing (other_extra x) g1 = thing (other_extra x) g
  /\ lamps g1 = lamps g /\ buse g1 = buse g.
Proof.
  intros Hm Hs Hh [Hrh Hrm] [Hth Htm]. cbv zeta.
  rewrite select_time_split, !menu_run_app.
  set (a := Z.to_nat ((hours t - hours (timeSelected g)) mod 24)).
  set (b := Z.to_nat ((minutes t - minutes (timeSelected g)) mod 60)).
  destruct (extra_menu_hours_run x a g Hm Hs Hh Hrh) as (A1 & A2 & A3 & A4 & A5 & A6).
  set (ga := menu_run (replicate a p_bt2_s) g) in *.
  cbn [menu_run]. change (p_bt1_s =? p_none) with false. cbv iota.
  rewrite (menu_task_extra x (set_press p_bt1_s ga) (eq_trans A1 Hm)).
  rewrite (extra_menu_time_press x (set_press p_bt1_s ga) A2 (or_intror (conj A3 eq_refl))).
  rewrite (hourSelection_hours_done (set_press p_bt1_s ga) A3 eq_refl).
  set (gb := set_HorM 1 _).
  assert (Hgb : 0 <= minutes (timeSelected gb) <= 59).
  { unfold gb. gsimpl. rewrite A6. cbn [minutes]. exact Hrm. }
  destruct (extra_menu_minutes_run x b gb (eq_trans A1 Hm) A2 eq_refl Hgb)
    as (C1 & C2 & C3 & C4 & C5 & C6).
  set (gc := menu_run (replicate b p_bt2_s) gb) in *.
  rewrite (menu_task_extra x (set_press p_bt1_s gc)) by (gsimpl; rewrite C1; exact (eq_trans A1 Hm)).
  rewrite (extra_menu_time_commit x (set_press p_bt1_s gc) C2 C3 eq_refl).
  cbv zeta.
  assert (Cg : config gc = config g).
  { rewrite C4. unfold gb, config. gsimpl. exact A4. }
  assert (Tg : timeSelected gc = t).
  { rewrite C6. unfold gb. gsimpl. rewrite A6. cbn [hours minutes].
    unfold a, b. rewrite !select_time_reaches by lia. destruct t; reflexivity. }
  assert (Hc : choosed gc = choosed g).
  { rewrite C5. unfold gb. gsimpl. exact A5. }
  pose proof (thing_config x _ _ Cg) as Tx.
  pose proof (thing_config (other_extra x) _ _ Cg) as To.
  apply config_eq in Cg as (Cl & Cb & _ & _).
  unfold leave_to_setup.
  destruct x; cbn [thing set_thing other_extra] in *; gsimpl;
    rewrite ?Tx, ?To, ?Tg, ?Hc, ?Cl, ?Cb; repeat split.
Qed.

(** X28.  Adding a trigger.  From the entry of the menu of a
    multi-event device that holds from 1 to 9 triggers, for every
    in-range time [t]: a short press of button 2 and one of button 1
    choose "add", the next iteration takes the first free slot and
    presets 08:00, and the time is then selected and validated.  The
    device then counts one trigger more, with [t] in the slot taken; its
    other triggers, its duration and its enabled flag, the other
    multi-event device, the lamps and the pump are unchanged, and the
    menu is back on the list of menus. *)
Theorem extra_menu_adds_trigger (x : Extra) (g : Globals) (t : TIME) :
  menu g = extra_menu_id x -> subMenu g = 0 -> setupVal g = 0 -> HorM g = 0 ->
  1 <= nbr (thing x g) < 10 -> time_in_range t ->
  let g1 := menu_run ([p_bt2_s; p_bt1_s; p_none] ++ select_time (mkTIME 8 0) t) g in
  thing x g1 =
    mkEXTRAS (nbr (thing x g) + 1) (tOn (thing x g))
      (<[Z.to_nat (nbr (thing x g)) := t]> (times (thing x g))) (active (thing x g))
  /\ thing (other_extra x) g1 = thing (other_extra x) g
  /\ lamps g1 = lamps g /\ buse g1 = buse g
  /\ menu g1 = m_setup /\ subMenu g1 = 0 /\ HorM g1 = 0.
Proof.
  intros Hm Hs Hv Hh Hn Ht. cbv zeta. rewrite menu_run_app.
  cbn [menu_run].
  change (p_bt2_s =? p_none) with false. change (p_bt1_s =? p_none) with false.
  change (p_none =? p_none) with true. cbv iota.
  (* "add" is chosen *)
  assert (Tp : forall p h, thing x (set_press p h) = thing x h) by (destruct x; reflexivity).
  rewrite (menu_task_extra x (set_press p_bt2_s g) Hm).
  rewrite (extra_menu_choice_next x (set_press p_bt2_s g) Hs) by (rewrite ?Tp; lia || reflexivity).
  unfold next_setupVal. gsimpl. rewrite Hv. change (0 =? 1) with false. cbv iota.
  change (wrap8 (0 + 1)) with 1.
  set (ga := set_press p_none _).
  assert (Ta : thing x ga = thing x g) by (unfold ga; destruct x; reflexivity).
  rewrite (menu_task_extra x (set_press p_bt1_s ga) Hm).
  rewrite (extra_menu_choice x (set_press p_bt1_s ga) Hs) by (rewrite ?Tp, ?Ta; lia || reflexivity).
  set (gb := set_subMenu _ _).
  assert (Tb : thing x gb = thing x g) by (unfold gb, ga; destruct x; reflexivity).
  assert (Sb : subMenu gb = 2) by reflexivity.
  (* the slot is taken *)
  rewrite (menu_task_extra x gb Hm).
  rewrite (extra_menu_add_free x gb Sb) by (rewrite Tb; lia).
  rewrite Tb. unfold wrap8. rewrite Z.mod_small by lia.
  set (gc := set_timeSelected _ _).
  assert (Mc : menu gc = extra_menu_id x) by (unfold gc; destruct x; exact Hm).
  assert (Sc : subMenu gc = 5) by (unfold gc; destruct x; reflexivity).
  assert (Hc : HorM gc = 0) by (unfold gc; destruct x; exact Hh).
  assert (Cc : choosed gc = nbr (thing x g)) by (unfold gc; destruct x; reflexivity).
  assert (Tc : thing x gc = mkEXTRAS (nbr (thing x g) + 1) (tOn (thing x g))
                              (times (thing x g)) (active (thing x g)))
    by (unfold gc; destruct x; reflexivity).
  assert (Oc : thing (other_extra x) gc = thing (other_extra x) g)
    by (unfold gc, gb, ga; destruct x; reflexivity).
  assert (Lc : lamps gc = lamps g /\ buse gc = buse g)
    by (unfold gc, gb, ga; destruct x; split; reflexivity).
  (* the time *)
  change (mkTIME 8 0) with (timeSelected gc).
  destruct (extra_menu_time_step x gc t Mc Sc Hc) as (E1 & E2 & E3 & E4 & E5 & E6 & E7);
    [unfold time_in_range; unfold gc; gsimpl; cbn; lia | exact Ht |].
  rewrite E4, E5, E6, E7, Tc, Oc, Cc. cbn [nbr tOn times active].
  destruct Lc as [-> ->]. repeat split; assumption.
Qed.

Lemma extra_menu_adds_trigger_witness :
  let g := set_menu m_brume
             (set_brume (mkEXTRAS 2 5 (mkTIME 7 0 :: mkTIME 12 30 :: replicate 8 zero_TIME) 1)
                (reset_globals [])) in
  thing Brume
    (menu_run ([p_bt2_s; p_bt1_s; p_none] ++ select_time (mkTIME 8 0) (mkTIME 18 45)) g)
  = mkEXTRAS 3 5 (mkTIME 7 0 :: mkTIME 12 30 :: mkTIME 18 45 :: replicate 7 zero_TIME) 1.
Proof.
  intros g.
  assert (Hn : 1 <= nbr (thing Brume g) < 10)
    by (vm_compute; split; [discriminate | reflexivity]).
  assert (Ht : time_in_range (mkTIME 18 45))
    by (unfold time_in_range; vm_compute; split; split; discriminate).
  destruct (extra_menu_adds_trigger Brume g (mkTIME 18 45) eq_refl eq_refl eq_refl eq_refl Hn Ht)
    as (E & _).
  rewrite E. reflexivity.
Defined.

Lemma saveToEEPROM_buse_stored (g : Globals) :
  (68 <= length (eeprom g))%nat ->
  0 <= b_tOn (buse g) <= 255 ->
  time_in_range (startH (buse g)) -> time_in_range (stopH (buse g)) ->
  0 <= b_active (buse g) <= 1 ->
  EEPROM_read (eeprom (saveToEEPROM g)) 0 = 2
  /\ get_BUSE buse_addr (eeprom (saveToEEPROM g)) = buse g.
Proof.
  intros Hlen Ht Hs He Ha. rewrite saveToEEPROM_eeprom. split.
  - do 5 rewrite EEPROM_read_put_other by addr_lia.
    unfold EEPROM_put, EEPROM_update, EEPROM_read.
    rewrite list_lookup_total_insert_eq by lia. reflexivity.
  - unfold get_BUSE. rewrite EEPROM_get_put_other by addr_lia.
    change sizeof_BUSE with (length (BUSE_bytes (buse g))).
    rewrite EEPROM_get_put_same
      by (rewrite !EEPROM_put_length; cbn [length BUSE_bytes TIME_bytes app]; addr_lia).
    destruct (buse g) as [t [h1 m1] [h2 m2] a].
    unfold time_in_range in *. cbn [b_tOn startH stopH b_active hours minutes] in *.
    unfold BUSE_of_bytes, BUSE_bytes, TIME_bytes, TIME_at.
    cbn. rewrite !wrap8_byte by lia. reflexivity.
Qed.

Lemma buse_menu_repeat_step (g : Globals) :
  menu g = m_buse -> subMenu g = 1 -> press g = p_bt2_r -> 195 < setupVal g < 200 ->
  menu (menu_task g) = m_buse /\ subMenu (menu_task g) = 1
  /\ setupVal (menu_task g) = setupVal g + 5 /\ buse (menu_task g) = buse g.
Proof.
  intros Hm Hs Hp Hv. unfold menu_task. rewrite Hm. cbv delta [m_buse] iota beta.
  unfold buse_menu. cbv zeta. gsimpl. rewrite Hs. cbv iota beta. gsimpl. rewrite Hp.
  cbn [Z.eqb Pos.eqb p_bt2_r p_bt2_s]. gsimpl.
  unfold wrap8. rewrite Z.mod_small by lia.
  destruct (Z.eqb_spec (setupVal g + 5) 200) as [E | N]; [lia|].
  gsimpl. repeat split; assumption.
Qed.

Lemma buse_menu_duration_commit (g : Globals) :
  menu g = m_buse -> subMenu g = 1 -> press g = p_bt1_s ->
  buse (menu_task g) =
    mkBUSE (setupVal g) (startH (buse g)) (stopH (buse g)) (b_active (buse g)).
Proof.
  intros Hm Hs Hp. unfold menu_task. rewrite Hm. cbv delta [m_buse] iota beta.
  unfold buse_menu. cbv zeta. gsimpl. rewrite Hs. cbv iota beta. gsimpl. rewrite Hp.
  cbn [Z.eqb Pos.eqb p_bt2_r p_bt2_s p_bt1_s]. gsimpl. reflexivity.
Qed.

(** X29.  A pump duration above 200 can be chosen and does not survive
    a boot.  In the duration step of the pump menu the repeat press adds
    5 and resets to 0 only on exactly 200: from 196 to 199 it gives 201
    to 204, which a short press of button 1 stores as the duration.  A
    save stores such a record as it is, and the boot that follows
    rejects it: the pump comes back disabled with duration 0. *)
Theorem pump_duration_above_200 :
  (forall g, menu g = m_buse -> subMenu g = 1 -> 195 < setupVal g < 200 ->
             let g1 := menu_task (set_press p_bt2_r g) in
             let g2 := menu_task (set_press p_bt1_s g1) in
             buse g2 = mkBUSE (setupVal g + 5) (startH (buse g)) (stopH (buse g))
                         (b_active (buse g)))
  /\ (forall g now, (68 <= length (eeprom g))%nat ->
                    200 < b_tOn (buse g) <= 255 ->
                    time_in_range (startH (buse g)) -> time_in_range (stopH (buse g)) ->
                    0 <= b_active (buse g) <= 1 ->
                    exists g', setup true now (eeprom (saveToEEPROM g)) = Some g'
                               /\ buse g' = mkBUSE 0 (startH (buse g)) (stopH (buse g)) 0).
Proof.
  split.
  - intros g Hm Hs Hv. cbv zeta.
    destruct (buse_menu_repeat_step (set_press p_bt2_r g) Hm Hs eq_refl Hv)
      as (A1 & A2 & A3 & A4).
    generalize dependent (menu_task (set_press p_bt2_r g)). intros g1 A1 A2 A3 A4.
    rewrite (buse_menu_duration_commit (set_press p_bt1_s g1) A1 A2 eq_refl).
    gsimpl. rewrite A3, A4. gsimpl. reflexivity.
  - intros g now Hlen Ht Hs He Ha.
    destruct (saveToEEPROM_buse_stored g Hlen ltac:(lia) Hs He Ha) as (Emark & Eb).
    destruct (setup_marker_match now _ Emark) as (g' & Es & _ & _ & Rb & _).
    exists g'. split; [exact Es|]. rewrite Rb, Eb.
    unfold check_BUSE. replace (b_tOn (buse g) >? 200) with true
      by (symmetry; rewrite Z.gtb_ltb; apply Z.ltb_lt; lia).
    rewrite orb_true_r. reflexivity.
Qed.

Lemma pump_duration_above_200_witness :
  let g := set_setupVal 196 (set_subMenu 1 (set_menu m_buse configured)) in
  let g2 := menu_task (set_press p_bt1_s (menu_task (set_press p_bt2_r g))) in
  b_tOn (buse g2) = 201
  /\ option_map (fun h => b_tOn (buse h))
       (setup true (mkTIME 12 0) (eeprom (saveToEEPROM g2))) = Some 0.
Proof.
  intros g g2.
  destruct pump_duration_above_200 as (H1 & H2).
  assert (E : buse g2 = mkBUSE 201 (startH (buse g)) (stopH (buse g)) (b_active (buse g))).
  { apply (H1 g); [reflexivity | reflexivity | vm_compute; split; reflexivity]. }
  split; [rewrite E; reflexivity|].
  destruct (H2 g2 (mkTIME 12 0)) as (g' & Es & Eb).
  - vm_compute. lia.
  - rewrite E. vm_compute. split; [reflexivity | discriminate].
  - rewrite E. vm_compute. repeat split; discriminate.
  - rewrite E. vm_compute. repeat split; discriminate.
  - rewrite E. vm_compute. split; discriminate.
  - rewrite Es. cbn [option_map]. rewrite Eb. reflexivity.
Defined.
